(** * Socorro database schema: partition windows and idempotent creation

    A shallow embedding of [socorro/database/schema.py].  Dates are modelled
    by their proleptic Gregorian ordinal (as [datetime.date.toordinal] gives
    it) with the range check of [datetime] written out; database access is
    modelled by an explicit world (a trace of observable actions and the
    module-level partition cache) threaded through a small state-and-exception
    monad, with the database's answers supplied by an oracle. *)

From Stdlib Require Import ZArith Lia.
From Stdlib Require Import Ascii String.
From stdpp Require Import gmap strings pretty list.

Open Scope Z_scope.

(** ** Python exceptions *)

(** The classes of [psycopg2]'s DB-API exception hierarchy.  [PgDatabaseError]
    and [PgError] stand for instances of the base classes themselves. *)
Inductive pg_class :=
  | ProgrammingError | OperationalError | IntegrityError | DataError
  | InternalError | NotSupportedError | PgDatabaseError
  | InterfaceError | PgError.

(** [isinstance(x, pg.DatabaseError)] *)
Definition is_DatabaseError (c : pg_class) : bool :=
  match c with
  | InterfaceError | PgError => false
  | _ => true
  end.

(** [isinstance(x, pg.ProgrammingError)] *)
Definition is_ProgrammingError (c : pg_class) : bool :=
  match c with
  | ProgrammingError => true
  | _ => false
  end.

(** A raised exception.  A database error carries its class and the SQLSTATE
    code of the server ([x.pgcode]): [42P07] is "relation already exists",
    [42601] a syntax error, [42P01] an undefined table. *)
Inductive exn :=
  | TypeError
  | ValueError
  | OverflowError
  | KeyError (key : string)
  | AttributeError
  | PartitionControlParameterRequired
  | Pg (c : pg_class) (pgcode : string)
  | OtherException (what : string).

Inductive result (A : Type) :=
  | Ok (a : A)
  | Raise (e : exn).
Arguments Ok {A} a.
Arguments Raise {A} e.

(** ** Dates

    A value of class [datetime.date] or of its subclass [datetime.datetime]
    (naive): the day as an ordinal, and for a [datetime] the microseconds
    since midnight.  A plain date has [micros = 0]. *)
Record pydate := mkDate {
  is_datetime : bool;
  ordinal : Z;
  micros : Z
}.

(** [date.max.toordinal()], the ordinal of 9999-12-31; [date.min] has
    ordinal 1. *)
Definition MAXORDINAL : Z := 3652059.
Definition DAY_MICROS : Z := 86400000000.

Definition valid_date (d : pydate) : Prop :=
  1 <= ordinal d <= MAXORDINAL /\
  0 <= micros d < DAY_MICROS /\
  (is_datetime d = false -> micros d = 0).

(** The Python values the factory can be handed. *)
Inductive pyval :=
  | PyDate (d : pydate)
  | PyOther.

(** [d.weekday()]: Monday is 0, Sunday is 6; ordinal 1 is a Monday. *)
Definition weekday (d : pydate) : Z := (ordinal d + 6) mod 7.

(** [d + datetime.timedelta(n)]: the result must stay in
    [date.min .. date.max]. *)
Definition add_days (d : pydate) (n : Z) : result pydate :=
  let o := ordinal d + n in
  if (1 <=? o) && (o <=? MAXORDINAL)
  then Ok (mkDate (is_datetime d) o (micros d))
  else Raise OverflowError.

(** [d - datetime.timedelta(n)] *)
Definition sub_days (d : pydate) (n : Z) : result pydate := add_days d (- n).

(** [a < b] on values of the same class compares day, then time of day;
    comparing a [datetime] with a plain [date] raises [TypeError]. *)
Definition date_ltb (a b : pydate) : bool :=
  (ordinal a <? ordinal b) || ((ordinal a =? ordinal b) && (micros a <? micros b)).

Definition date_leb (a b : pydate) : bool := negb (date_ltb b a).

Definition date_lt (a b : pydate) : result bool :=
  if Bool.eqb (is_datetime a) (is_datetime b) then Ok (date_ltb a b) else Raise TypeError.

Definition date_le (a b : pydate) : result bool :=
  if Bool.eqb (is_datetime a) (is_datetime b) then Ok (date_leb a b) else Raise TypeError.

(** ** The window generator *)

(** A yielded pair [(aMonday, theNextMonday)]. *)
Definition window : Type := pydate * pydate.

(** The states of the generator object [anIterator()]: created and not yet
    started; suspended at its [yield] with [nextMonday] computed; finished
    (by falling off the loop or by an exception). *)
Inductive generator :=
  | GenCreated (minDate maxDate : pydate)
  | GenSuspended (nextMonday maxDate : pydate)
  | GenFinished.

(** What one call of [.next()] gives. *)
Inductive next_result :=
  | Yield (w : window)
  | StopIteration
  | NextRaise (e : exn).

(** [mondayPairsIteratorFactory]: the checks run when the factory is called,
    the body of [anIterator] only when the iterator is advanced. *)
Definition mondayPairsIteratorFactory (minDate maxDate : pyval) : result generator :=
  match minDate, maxDate with
  | PyDate mn, PyDate mx =>
      match date_lt mx mn with
      | Raise e => Raise e
      | Ok true => Raise ValueError
      | Ok false => Ok (GenCreated mn mx)
      end
  | _, _ => Raise TypeError
  end.

(** The loop test and body up to the [yield], entered with [aDate]. *)
Definition loop_from (aDate maxDate : pydate) : next_result * generator :=
  match date_le aDate maxDate with
  | Raise e => (NextRaise e, GenFinished)
  | Ok false => (StopIteration, GenFinished)
  | Ok true =>
      match add_days aDate 7 with
      | Raise e => (NextRaise e, GenFinished)
      | Ok nextMonday => (Yield (aDate, nextMonday), GenSuspended nextMonday maxDate)
      end
  end.

Definition gen_next (g : generator) : next_result * generator :=
  match g with
  | GenCreated minDate maxDate =>
      match sub_days minDate (weekday minDate) with
      | Raise e => (NextRaise e, GenFinished)
      | Ok aDate => loop_from aDate maxDate
      end
  | GenSuspended nextMonday maxDate => loop_from nextMonday maxDate
  | GenFinished => (StopIteration, GenFinished)
  end.

(** [[x for x in iterator]]: advance until the iterator stops or raises.
    [None] only when the fuel runs out. *)
Fixpoint collect (fuel : nat) (g : generator) : option (result (list window)) :=
  match fuel with
  | O => None
  | S fuel' =>
      match gen_next g with
      | (StopIteration, _) => Some (Ok [])
      | (NextRaise e, _) => Some (Raise e)
      | (Yield w, g') =>
          match collect fuel' g' with
          | None => None
          | Some (Raise e) => Some (Raise e)
          | Some (Ok ws) => Some (Ok (w :: ws))
          end
      end
  end.

(** Every [yield] moves the date forward by a week and dates are bounded,
    so this many steps always reach the end. *)
Definition gen_date (g : generator) : Z :=
  match g with
  | GenCreated minDate _ => ordinal minDate - 6
  | GenSuspended nextMonday _ => ordinal nextMonday
  | GenFinished => MAXORDINAL
  end.

Definition gen_fuel (g : generator) : nat :=
  S (S (Z.to_nat ((MAXORDINAL - gen_date g) / 7))).

Definition list_of_iterator (g : generator) : result (list window) :=
  match collect (gen_fuel g) g with
  | Some r => r
  | None => Ok []
  end.

(** ** Calendar arithmetic of [datetime] and the partition names *)

Definition is_leap (y : Z) : bool :=
  (y mod 4 =? 0) && (negb (y mod 100 =? 0) || (y mod 400 =? 0)).

Definition days_before_year (y : Z) : Z :=
  let p := y - 1 in p * 365 + p / 4 - p / 100 + p / 400.

Definition days_in_month (y m : Z) : Z :=
  if m =? 2 then (if is_leap y then 29 else 28)
  else if (m =? 4) || (m =? 6) || (m =? 9) || (m =? 11) then 30 else 31.

Definition days_before_month (y m : Z) : Z :=
  nth (Z.to_nat m) [0; 0; 31; 59; 90; 120; 151; 181; 212; 243; 273; 304; 334] 0
  + (if (2 <? m) && is_leap y then 1 else 0).

(** [date(y, m, d).toordinal()] *)
Definition ymd2ord (y m d : Z) : Z := days_before_year y + days_before_month y m + d.

(** [date.fromordinal(n).timetuple()[:3]] *)
Definition ord2ymd (n0 : Z) : Z * Z * Z :=
  let n := n0 - 1 in
  let n400 := n / 146097 in let n := n mod 146097 in
  let n100 := n / 36524 in let n := n mod 36524 in
  let n4 := n / 1461 in let n := n mod 1461 in
  let n1 := n / 365 in let n := n mod 365 in
  let year := n400 * 400 + 1 + n100 * 100 + n4 * 4 + n1 in
  if (n1 =? 4) || (n100 =? 4) then (year - 1, 12, 31)
  else
    let month := Z.shiftr (n + 50) 5 in
    let preceding := days_before_month year month in
    if n <? preceding
    then (year, month - 1, n - (preceding - days_in_month year (month - 1)) + 1)
    else (year, month, n - preceding + 1).

(** A date given by year, month and day. *)
Definition date_of (y m d : Z) : pydate := mkDate false (ymd2ord y m d) 0.

Definition pad_left (c : ascii) (width : nat) (s : string) : string :=
  string_of_list_ascii (repeat c (width - String.length s)%nat) +:+ s.

(** ["%4d-%02d-%02d" % d.timetuple()[:3]] *)
Definition dateAsString (d : pydate) : string :=
  let '(y, m, dd) := ord2ymd (ordinal d) in
  pad_left " " 4 (pretty y) +:+ "-" +:+ pad_left "0" 2 (pretty m)
    +:+ "-" +:+ pad_left "0" 2 (pretty dd).

(** [s.replace(old, new)] for a non-empty [old]; [skip] counts the
    characters of a match still to be dropped. *)
Fixpoint replace_from (old new : string) (skip : nat) (s : string) : string :=
  match s with
  | EmptyString => EmptyString
  | String c s' =>
      match skip with
      | S k => replace_from old new k s'
      | O =>
          if String.prefix old s
          then new +:+ replace_from old new (String.length old - 1) s'
          else String c (replace_from old new O s')
      end
  end.

Definition replace (old new s : string) : string := replace_from old new O s.

(** ** Classes of schema objects *)

(** The class [Table] itself, which [_createOwnPartition] instantiates for a
    partition, and the leaf classes registered in
    [databaseDependenciesForSetup], in the order of the module text. *)
Inductive pyclass :=
  | Table
  | ReportsTable | PriorityJobsTable | ProcessorsTable | JobsTable | BugsTable
  | BugAssociationsTable | ServerStatusTable | ReleaseEnum | ProductDimsTable
  | BranchesView | UrlDimsTable | OsDimsTable | ExtensionsTable | FramesTable
  | TimeBeforeFailureTable | ProductVisibilityTable | TopCrashesByUrlTable
  | TopCrashByUrlSignatureTable | TopCrashUrlFactsReportsTable
  | TopCrashesBySignatureTable | PluginsTable | PluginsReportsTable
  | AlexaTopsitesTable | RawAduTable | BuildsTable | DailyCrashesTable
  | EmailCampaignsTable | EmailContactsTable | EmailCampaignsContactsTable
  | SignatureProductdimsTable.

#[global] Instance pyclass_eq_dec : EqDecision pyclass.
Proof. solve_decision. Defined.

(** The [name] each constructor hands to its superclass; [Table(logger=...)]
    leaves it [None]. *)
Definition class_name (c : pyclass) : option string :=
  match c with
  | Table => None
  | ReportsTable => Some "reports"
  | PriorityJobsTable => Some "priorityjobs"
  | ProcessorsTable => Some "processors"
  | JobsTable => Some "jobs"
  | BugsTable => Some "bugs"
  | BugAssociationsTable => Some "bug_associations"
  | ServerStatusTable => Some "server_status"
  | ReleaseEnum => Some "release_enum"
  | ProductDimsTable => Some "productdims"
  | BranchesView => Some "branches"
  | UrlDimsTable => Some "urldims"
  | OsDimsTable => Some "osdims"
  | ExtensionsTable => Some "extensions"
  | FramesTable => Some "frames"
  | TimeBeforeFailureTable => Some "time_before_failure"
  | ProductVisibilityTable => Some "product_visibility"
  | TopCrashesByUrlTable => Some "top_crashes_by_url"
  | TopCrashByUrlSignatureTable => Some "top_crashes_by_url_signature"
  | TopCrashUrlFactsReportsTable => Some "topcrashurlfactsreports"
  | TopCrashesBySignatureTable => Some "top_crashes_by_signature"
  | PluginsTable => Some "plugins"
  | PluginsReportsTable => Some "plugins_reports"
  | AlexaTopsitesTable => Some "alexa_topsites"
  | RawAduTable => Some "raw_adu"
  | BuildsTable => Some "builds"
  | DailyCrashesTable => Some "daily_crashes"
  | EmailCampaignsTable => Some "email_campaigns"
  | EmailContactsTable => Some "email_contacts"
  | EmailCampaignsContactsTable => Some "email_campaigns_contacts"
  | SignatureProductdimsTable => Some "signature_productdims"
  end.

(** The module-level dictionaries, as the assignments of the module text. *)
Definition databaseDependenciesForSetup : list (pyclass * list pyclass) :=
  [ (ReportsTable, []); (PriorityJobsTable, []); (ProcessorsTable, []);
    (JobsTable, [ProcessorsTable]); (BugsTable, []);
    (BugAssociationsTable, [BugsTable]); (ServerStatusTable, []);
    (ReleaseEnum, []); (ProductDimsTable, [ReleaseEnum]);
    (BranchesView, [ProductDimsTable]); (UrlDimsTable, []); (OsDimsTable, []);
    (ExtensionsTable, []); (FramesTable, []);
    (TimeBeforeFailureTable, [ProductDimsTable; OsDimsTable]);
    (ProductVisibilityTable, [ProductDimsTable]);
    (TopCrashesByUrlTable, [ProductDimsTable; OsDimsTable; UrlDimsTable]);
    (TopCrashByUrlSignatureTable, [TopCrashesByUrlTable]);
    (TopCrashUrlFactsReportsTable, [TopCrashesByUrlTable]);
    (TopCrashesBySignatureTable, [OsDimsTable; ProductDimsTable]);
    (PluginsTable, []); (PluginsReportsTable, [PluginsTable]);
    (AlexaTopsitesTable, []); (RawAduTable, []); (BuildsTable, []);
    (DailyCrashesTable, []); (EmailCampaignsTable, []); (EmailContactsTable, []);
    (EmailCampaignsContactsTable, [EmailCampaignsTable; EmailContactsTable]);
    (SignatureProductdimsTable, [TopCrashesBySignatureTable; ProductDimsTable]) ].

Definition databaseDependenciesForPartition : list (pyclass * list pyclass) :=
  [ (ExtensionsTable, [ReportsTable]); (FramesTable, [ReportsTable]);
    (PluginsReportsTable, [ReportsTable]) ].

(** The classes that inherit [PartitionedTable]. *)
Definition is_PartitionedTable (c : pyclass) : bool :=
  match c with
  | ReportsTable | ExtensionsTable | FramesTable | PluginsReportsTable => true
  | _ => false
  end.

(** An instance: its class and the attributes set by
    [DatabaseObject.__init__]. *)
Record DatabaseObject := mkObject {
  class_of : pyclass;
  name : option string;
  creationSql : option string
}.

(** ["%s" % x] for a string or [None]. *)
Definition pystr (x : option string) : string :=
  match x with
  | Some s => s
  | None => "None"
  end.

(** [partitionCreationParameters]: each partitioned leaf class builds the
    same dictionary around its own table name; other classes have no such
    method. *)
Definition partitionCreationParameters (c : pyclass) (uniqueIdentifier : window)
  : result (gmap string string) :=
  if is_PartitionedTable c then
    let '(startDate, endDate) := uniqueIdentifier in
    let startDateAsString := dateAsString startDate in
    let compressedStartDateAsString := replace "-" "" startDateAsString in
    let endDateAsString := dateAsString endDate in
    Ok (<["partitionName" := pystr (class_name c) +:+ "_" +:+ compressedStartDateAsString]>
        (<["startDate" := startDateAsString]>
        (<["endDate" := endDateAsString]>
        (<["compressedStartDate" := compressedStartDateAsString]> ∅))))
  else Raise AttributeError.

(** ** The world: observable actions and the partition cache *)

Definition connection : Type := nat.
Definition row : Type := list string.

(** What is asked of a database connection: [cursor.execute(sql)] or
    [cursor.execute(sql, row)], [connection.commit()],
    [connection.rollback()]. *)
Inductive db_op :=
  | Execute (sql : string) (params : option row)
  | Commit
  | Rollback.

(** The [logger.debug] calls of the module, by call site. *)
Inductive log_message :=
  | LogCreateExists (selfName objectName : option string)
  | LogInCreateOwnPartition (selfName : option string)
  | LogSavepoint (partitionName : string)
  | LogCreating (partitionName : string)
  | LogReleasing
  | LogCreatingFailed (partitionName : string) (x : exn)
  | LogInCreatePartitions
  | LogInsertFailed (x : exn)
  | LogCreatePartitionsFailed (partitionName : string) (x : exn)
  | LogSecondInsert (selfName : option string).

(** What a run of the module does to the shared resources, in order: a
    database operation with its outcome; the outcome of [pg.connect] and of
    the caller's [alternateCursorFunction]; a log line; a report of
    [reportExceptionAndContinue]; a lookup in and an addition to
    [partitionCreationHistory]; [acquire()] and [release()] on
    [PartitionedTable.partitionCreationLock]. *)
Inductive event :=
  | Db (conn : connection) (op : db_op) (outcome : option exn)
  | Connect (outcome : result connection)
  | AltCursor (outcome : result connection)
  | Debug (m : log_message)
  | ReportException (x : exn)
  | HistoryLookup (partitionTableName : string) (found : bool)
  | HistoryAdd (partitionTableName : string)
  | LockAcquire
  | LockRelease.

Record world := mkWorld {
  trace : list event;
  partitionCreationHistory : gset string
}.

(** Computations that read and extend the world and may raise. *)
Definition M (A : Type) : Type := world -> result A * world.

Definition ret {A} (a : A) : M A := fun w => (Ok a, w).
Definition raise {A} (e : exn) : M A := fun w => (Raise e, w).
Definition bind {A B} (m : M A) (k : A -> M B) : M B :=
  fun w =>
    match m w with
    | (Ok a, w') => k a w'
    | (Raise e, w') => (Raise e, w')
    end.

#[global] Instance M_ret : MRet M := @ret.
#[global] Instance M_bind : MBind M := fun A B k m => bind m k.

Definition lift {A} (r : result A) : M A := fun w => (r, w).

(** [try: body except <catches>, x: handler x] *)
Definition try_except {A} (body : M A) (catches : exn -> bool) (handler : exn -> M A) : M A :=
  fun w =>
    match body w with
    | (Ok a, w') => (Ok a, w')
    | (Raise e, w') => if catches e then handler e w' else (Raise e, w')
    end.

(** [for x in xs: body x] *)
Fixpoint for_each {A} (xs : list A) (body : A -> M unit) : M unit :=
  match xs with
  | [] => ret tt
  | x :: xs' => (body x ;; for_each xs' body)
  end.

Definition emit (e : event) : M unit :=
  fun w => (Ok tt, mkWorld (trace w ++ [e]) (partitionCreationHistory w)).

Definition debug (m : log_message) : M unit := emit (Debug m).

Definition except_ProgrammingError (e : exn) : bool :=
  match e with
  | Pg c _ => is_ProgrammingError c
  | _ => false
  end.

Definition except_DatabaseError (e : exn) : bool :=
  match e with
  | Pg c _ => is_DatabaseError c
  | _ => false
  end.

(** [partitionWasCreated] *)
Definition partitionWasCreated (partitionTableName : string) : M bool :=
  fun w =>
    let found := bool_decide (partitionTableName ∈ partitionCreationHistory w) in
    (Ok found,
     mkWorld (trace w ++ [HistoryLookup partitionTableName found])
             (partitionCreationHistory w)).

(** [markPartitionCreated] *)
Definition markPartitionCreated (partitionTableName : string) : M unit :=
  fun w =>
    (Ok tt,
     mkWorld (trace w ++ [HistoryAdd partitionTableName])
             ({[partitionTableName]} ∪ partitionCreationHistory w)).

(** ** The operations of the module *)

Section Schema.

(** The SQL literals of the catalogue, per class: the [creationSql] and
    [partitionCreationSqlTemplate] handed to the superclass constructor and
    the [insertSql] attribute. *)
Variable creationSqlText : pyclass -> string.
Variable partitionCreationSqlTemplate : pyclass -> string.
Variable insertSqlText : pyclass -> string.

(** Python's [template % dictionary]. *)
Variable pyformat : string -> gmap string string -> result string.

(** [socorro.lib.prioritize.dependencyOrder], which is not part of this
    module. *)
Variable dependencyOrder :
  list (pyclass * list pyclass) -> option (list pyclass) -> result (list pyclass).

(** The database: its answer to an operation on a connection, after the
    actions seen so far; and the outcome of [pg.connect]. *)
Variable db : list event -> connection -> db_op -> option exn.
Variable pg_connect : list event -> result connection.

Definition getOrderedSetupList (whichTables : option (list pyclass))
  : result (list pyclass) :=
  dependencyOrder databaseDependenciesForSetup whichTables.

Definition getOrderedPartitionList (whichTables : list pyclass)
  : result (list pyclass) :=
  match whichTables with
  | [] => Ok []
  | _ => dependencyOrder databaseDependenciesForPartition (Some whichTables)
  end.

(** [aClass(logger = logger)] *)
Definition new (c : pyclass) : DatabaseObject :=
  mkObject c (class_name c)
    (match c with Table => None | _ => Some (creationSqlText c) end).

Definition run_db (conn : connection) (op : db_op) : M unit :=
  fun w =>
    let outcome := db (trace w) conn op in
    (match outcome with None => Ok tt | Some e => Raise e end,
     mkWorld (trace w ++ [Db conn op outcome]) (partitionCreationHistory w)).

(** [databaseCursor.execute(sql)] *)
Definition execute (databaseCursor : connection) (sql : string) : M unit :=
  run_db databaseCursor (Execute sql None).

(** [databaseCursor.execute(sql, row)] *)
Definition execute_row (databaseCursor : connection) (sql : string) (r : row) : M unit :=
  run_db databaseCursor (Execute sql (Some r)).

(** [databaseCursor.connection.commit()] *)
Definition commit (databaseCursor : connection) : M unit :=
  run_db databaseCursor Commit.

(** [databaseConnection.rollback()] *)
Definition rollback (databaseCursor : connection) : M unit :=
  run_db databaseCursor Rollback.

(** [additionalCreationProcedures] is [pass] in every class. *)
Definition additionalCreationProcedures (self : DatabaseObject)
  (databaseCursor : connection) : M unit := ret tt.

(** [DatabaseObject._createSelf]; executing [None] is a [TypeError]. *)
Definition _createSelf (self : DatabaseObject) (databaseCursor : connection) : M unit :=
  match creationSql self with
  | Some sql => execute databaseCursor sql
  | None => raise TypeError
  end ;;
  additionalCreationProcedures self databaseCursor.

(** The body of the loop of [DatabaseObject.create]. *)
Definition create_one (self : DatabaseObject) (databaseCursor : connection)
  (dbObjectClass : pyclass) : M unit :=
  let dbObjectObject :=
    if decide (class_of self = dbObjectClass) then self else new dbObjectClass in
  execute databaseCursor ("savepoint creating_" +:+ pystr (name dbObjectObject)) ;;
  try_except
    (_createSelf dbObjectObject databaseCursor ;;
     execute databaseCursor ("release savepoint creating_" +:+ pystr (name dbObjectObject)))
    except_ProgrammingError
    (fun x =>
       execute databaseCursor ("rollback to creating_" +:+ pystr (name dbObjectObject)) ;;
       commit databaseCursor ;;
       debug (LogCreateExists (name self) (name dbObjectObject))).

(** [DatabaseObject.create] *)
Definition create (self : DatabaseObject) (databaseCursor : connection) : M unit :=
  orderedDbObjectList ← lift (getOrderedSetupList (Some [class_of self])) ;
  for_each orderedDbObjectList (create_one self databaseCursor).

(** [DatabaseObject.drop], overridden by [Table] and by [ReleaseEnum];
    [BranchesView] inherits the empty method. *)
Definition drop (self : DatabaseObject) (databaseCursor : connection) : M unit :=
  match class_of self with
  | BranchesView => ret tt
  | ReleaseEnum =>
      execute databaseCursor ("drop type if exists " +:+ pystr (name self) +:+ " cascade")
  | _ =>
      execute databaseCursor ("drop table if exists " +:+ pystr (name self) +:+ " cascade")
  end.

(** The body of the loop of [PartitionedTable._createOwnPartition]. *)
Definition _createOwnPartition_one (self : DatabaseObject) (databaseCursor : connection)
  (x : window) : M unit :=
  partitionCreationParameters ← lift (partitionCreationParameters (class_of self) x) ;
  match partitionCreationParameters !! "partitionName" with
  | None => raise (KeyError "partitionName")
  | Some partitionName =>
      created ← partitionWasCreated partitionName ;
      if (created : bool) then ret tt
      else
        partitionCreationSql ←
          lift (pyformat (partitionCreationSqlTemplate (class_of self))
                         partitionCreationParameters) ;
        let aPartition := mkObject Table (Some partitionName) (Some partitionCreationSql) in
        debug (LogSavepoint partitionName) ;;
        execute databaseCursor ("savepoint createPartitions_" +:+ partitionName) ;;
        try_except
          (debug (LogCreating partitionName) ;;
           _createSelf aPartition databaseCursor ;;
           markPartitionCreated partitionName ;;
           debug LogReleasing ;;
           execute databaseCursor ("release savepoint createPartitions_" +:+ partitionName))
          except_ProgrammingError
          (fun x =>
             debug (LogCreatingFailed partitionName x) ;;
             execute databaseCursor
               ("rollback to createPartitions_" +:+ partitionName
                +:+ "; release savepoint createPartitions_" +:+ partitionName +:+ ";")) ;;
        commit databaseCursor
  end.

(** [PartitionedTable._createOwnPartition] *)
Definition _createOwnPartition (self : DatabaseObject) (databaseCursor : connection)
  (uniqueItems : list window) : M unit :=
  debug (LogInCreateOwnPartition (name self)) ;;
  for_each uniqueItems (_createOwnPartition_one self databaseCursor).

(** [PartitionedTable.createPartitions]; a class that does not inherit
    [PartitionedTable] has no [_createOwnPartition]. *)
Definition createPartitions (self : DatabaseObject) (databaseCursor : connection)
  (iterator : generator) : M unit :=
  debug LogInCreatePartitions ;;
  partitionTableClasses ← lift (getOrderedPartitionList [class_of self]) ;
  uniqueItems ← lift (list_of_iterator iterator) ;
  for_each partitionTableClasses (fun tableClass =>
    let tableObject :=
      if decide (class_of self = tableClass) then self else new tableClass in
    if is_PartitionedTable (class_of tableObject)
    then _createOwnPartition tableObject databaseCursor uniqueItems
    else raise AttributeError).

(** [iterator.next()] on a fresh iterator, which is then thrown away. *)
Definition first_of (g : generator) : result window :=
  match fst (gen_next g) with
  | Yield w => Ok w
  | StopIteration => Raise (OtherException "StopIteration")
  | NextRaise e => Raise e
  end.

(** [alternateCursorFunction()] *)
Definition call_alternateCursorFunction
  (alternateCursorFunction : list event -> result connection) : M connection :=
  fun w =>
    let outcome := alternateCursorFunction (trace w) in
    (outcome, mkWorld (trace w ++ [AltCursor outcome]) (partitionCreationHistory w)).

(** [PartitionedTable.insert] *)
Definition insert (self : DatabaseObject) (databaseCursor : connection) (r : row)
  (alternateCursorFunction : list event -> result connection)
  (kwargs : gmap string pyval) : M unit :=
  match kwargs !! "date_processed" with
  | None => raise PartitionControlParameterRequired
  | Some uniqueIdentifier =>
      aGenerator ← lift (mondayPairsIteratorFactory uniqueIdentifier uniqueIdentifier) ;
      dateRangeTuple ← lift (first_of aGenerator) ;
      parameters ← lift (partitionCreationParameters (class_of self) dateRangeTuple) ;
      match parameters !! "partitionName" with
      | None => raise (KeyError "partitionName")
      | Some partitionName =>
          let insertSql := replace "TABLENAME" partitionName (insertSqlText (class_of self)) in
          try_except
            (execute databaseCursor ("savepoint " +:+ partitionName) ;;
             execute_row databaseCursor insertSql r ;;
             execute databaseCursor ("release savepoint " +:+ partitionName))
            except_ProgrammingError
            (fun x =>
               debug (LogInsertFailed x) ;;
               execute databaseCursor
                 ("rollback to " +:+ partitionName
                  +:+ "; release savepoint " +:+ partitionName +:+ ";") ;;
               commit databaseCursor ;;
               altCursor ← call_alternateCursorFunction alternateCursorFunction ;
               dateIterator ←
                 lift (mondayPairsIteratorFactory uniqueIdentifier uniqueIdentifier) ;
               try_except
                 (createPartitions self altCursor dateIterator)
                 except_DatabaseError
                 (fun x => debug (LogCreatePartitionsFailed partitionName x)) ;;
               debug (LogSecondInsert (name self)) ;;
               execute_row databaseCursor insertSql r)
      end
  end.

(** [connectToDatabase] *)
Definition connectToDatabase : M connection :=
  fun w =>
    let outcome := pg_connect (trace w) in
    (outcome, mkWorld (trace w ++ [Connect outcome]) (partitionCreationHistory w)).

(** [partitionCreationHistory = set()] *)
Definition reset_partitionCreationHistory : M unit :=
  fun w => (Ok tt, mkWorld (trace w) ∅).

(** [socorro_util.reportExceptionAndContinue(logger)]: the exception is
    reported to the logger and the caller goes on. *)
Definition reportExceptionAndContinue (x : exn) : M unit := emit (ReportException x).

(** [teardownDatabase] *)
Definition teardownDatabase : M unit :=
  databaseCursor ← connectToDatabase ;
  try_except (A := unit)
    (classes ← lift (getOrderedSetupList None) ;
     for_each classes (fun databaseObjectClass : pyclass =>
       let aDatabaseObject := new databaseObjectClass in
       drop aDatabaseObject databaseCursor) ;;
     commit databaseCursor ;;
     reset_partitionCreationHistory)
    (fun _ => true)
    (fun x =>
       rollback databaseCursor ;;
       reportExceptionAndContinue x).

(** ** Setting up, updating and pre-partitioning a database

    [socorro_util.reportExceptionAndAbort] and the catalogue queries of
    [socorro.database.postgresql] are not part of this module.  Each of them
    is any computation of its type: what it reports, asks of the database or
    raises is left open. *)
Variable reportExceptionAndAbort : exn -> M unit.
Variable childTablesForTable : option string -> connection -> M (list string).
Variable columnNameTypeDictionaryForTable :
  option string -> connection -> M (gmap string string).
Variable indexesForTable : option string -> connection -> M (list string).
Variable tablesMatchingPattern : option string -> M (list string).

(** [setupDatabase]; every exception of this model is an [Exception]. *)
Definition setupDatabase : M unit :=
  databaseCursor ← connectToDatabase ;
  try_except (A := unit)
    (classes ← lift (getOrderedSetupList None) ;
     for_each classes (fun aDatabaseObjectClass : pyclass =>
       let aDatabaseObject := new aDatabaseObjectClass in
       _createSelf aDatabaseObject databaseCursor) ;;
     commit databaseCursor)
    (fun _ => true)
    (fun x =>
       rollback databaseCursor ;;
       reportExceptionAndAbort x).

(** What reading the name [aTable] raises: no such name is bound in
    [updateColumnDefinitions] or in the module. *)
Definition NameError : exn := OtherException "NameError".

(** [alterColumnDefinitions], a method of [ReportsTable], [ExtensionsTable]
    and [FramesTable] only: the dictionary of columns is fetched and not
    used. *)
Definition alterColumnDefinitions (self : DatabaseObject) (databaseCursor : connection)
  (tableName : option string) : M unit :=
  match class_of self with
  | ReportsTable | ExtensionsTable | FramesTable =>
      columnNameTypeDictionary ←
        columnNameTypeDictionaryForTable tableName databaseCursor ;
      ret tt
  | _ => raise AttributeError
  end.

(** [PartitionedTable.updateColumnDefinitions].  The argument tuple
    [(aTable, aChildTableName)] of the two [alter table] statements is built
    before [execute] is called, and building it raises. *)
Definition updateColumnDefinitions (self : DatabaseObject) (databaseCursor : connection)
  : M unit :=
  childTableList ← childTablesForTable (name self) databaseCursor ;
  for_each childTableList (fun aChildTableName : string => raise NameError) ;;
  alterColumnDefinitions self databaseCursor (name self) ;;
  for_each childTableList (fun aChildTableName : string =>
    alterColumnDefinitions self databaseCursor (Some aChildTableName)) ;;
  for_each childTableList (fun aChildTableName : string => raise NameError).

Definition NL : string := String "010"%char EmptyString.

(** [updateDefinition], by class: the empty method of [DatabaseObject]
    unless the class has its own. *)
Definition updateDefinition (self : DatabaseObject) (databaseCursor : connection)
  : M unit :=
  match class_of self with
  | ReportsTable =>
      execute databaseCursor "DROP RULE IF EXISTS rule_reports_partition ON reports;" ;;
      updateColumnDefinitions self databaseCursor ;;
      indexesList ← indexesForTable (name self) databaseCursor ;
      ret tt
  | ExtensionsTable | FramesTable =>
      updateColumnDefinitions self databaseCursor ;;
      indexesList ← indexesForTable (name self) databaseCursor ;
      ret tt
  | ProcessorsTable =>
      indexesList ← indexesForTable (name self) databaseCursor ;
      ret tt
  | JobsTable =>
      indexesList ← indexesForTable (name self) databaseCursor ;
      (if bool_decide ("idx_owner" ∈ indexesList)
       then execute databaseCursor
              (NL +:+ "          DROP INDEX idx_owner;"
               +:+ NL +:+ "          CREATE INDEX jobs_owner_key ON jobs (owner);")
       else ret tt) ;;
      (if bool_decide ("idx_queueddatetime" ∈ indexesList)
       then execute databaseCursor
              (NL +:+ "          DROP INDEX idx_queueddatetime;")
       else ret tt) ;;
      (if bool_decide ("idx_starteddatetime" ∈ indexesList)
       then execute databaseCursor
              (NL +:+ "          DROP INDEX idx_starteddatetime;")
       else ret tt) ;;
      (if bool_decide ("jobs_priority_queueddatetime" ∈ indexesList)
       then execute databaseCursor
              (NL +:+ "          DROP INDEX jobs_priority_queueddatetime;")
       else ret tt) ;;
      (if bool_decide ("jobs_owner_starteddatetime" ∈ indexesList)
       then execute databaseCursor
              (NL +:+ "          DROP INDEX jobs_owner_starteddatetime;"
               +:+ NL +:+ "          CREATE INDEX jobs_owner_starteddatetime_key ON jobs (owner, starteddatetime);")
       else ret tt) ;;
      (if bool_decide ("jobs_owner_starteddatetime_priority_key" ∈ indexesList)
       then ret tt
       else execute databaseCursor
              "CREATE INDEX jobs_owner_starteddatetime_priority_key ON jobs (owner, starteddatetime, priority DESC);") ;;
      (if bool_decide ("jobs_completeddatetime_queueddatetime_key" ∈ indexesList)
       then ret tt
       else execute databaseCursor
              "CREATE INDEX jobs_completeddatetime_queueddatetime_key ON jobs (completeddatetime, queueddatetime);") ;;
      (if bool_decide ("jobs_success_key" ∈ indexesList)
       then ret tt
       else execute databaseCursor "CREATE INDEX jobs_success_key ON jobs (success);")
  | BugsTable | BugAssociationsTable | BuildsTable | DailyCrashesTable
  | EmailCampaignsTable | EmailContactsTable | EmailCampaignsContactsTable
  | SignatureProductdimsTable =>
      tables ← tablesMatchingPattern (name self) ;
      match tables with
      | [] => create self databaseCursor
      | _ => ret tt
      end
  | _ => ret tt
  end.

Definition databaseObjectClassListForUpdate : list pyclass :=
  [ExtensionsTable; FramesTable; ProcessorsTable; JobsTable].

(** [updateDatabase] *)
Definition updateDatabase : M unit :=
  databaseCursor ← connectToDatabase ;
  try_except (A := unit)
    (for_each databaseObjectClassListForUpdate (fun aDatabaseObjectClass : pyclass =>
       let aDatabaseObject := new aDatabaseObjectClass in
       updateDefinition aDatabaseObject databaseCursor) ;;
     commit databaseCursor)
    (fun _ => true)
    (fun x =>
       rollback databaseCursor ;;
       reportExceptionAndAbort x).

Definition databaseObjectClassListForWeeklyPartitions : list pyclass :=
  [ReportsTable; FramesTable; ExtensionsTable; PluginsReportsTable].

(** [createPartitions(config, logger)], the function of the module, for the
    [config.startDate] and [config.endDate] given; the method of the same
    name is [createPartitions] above. *)
Definition createPartitions_of_module (startDate endDate : pyval) : M unit :=
  databaseCursor ← connectToDatabase ;
  try_except (A := unit)
    (for_each databaseObjectClassListForWeeklyPartitions
       (fun aDatabaseObjectClass : pyclass =>
          weekIterator ← lift (mondayPairsIteratorFactory startDate endDate) ;
          let aDatabaseObject := new aDatabaseObjectClass in
          createPartitions aDatabaseObject databaseCursor weekIterator ;;
          commit databaseCursor))
    (fun _ => true)
    (fun x =>
       rollback databaseCursor ;;
       reportExceptionAndAbort x).

End Schema.

(** ** Specification vocabulary for the windows *)

(** [d] moved by [n] whole days, without the range check. *)
Definition shift_days (d : pydate) (n : Z) : pydate :=
  mkDate (is_datetime d) (ordinal d + n) (micros d).

(** The weeks from [aDate] on that the loop yields for [maxDate]: one
    [(aDate, aDate + 7d)] after the other while [aDate <= maxDate]. *)
Inductive weeks (maxDate : pydate) : pydate -> list window -> Prop :=
  | weeks_done aDate :
      date_leb aDate maxDate = false -> weeks maxDate aDate []
  | weeks_step aDate ws :
      date_leb aDate maxDate = true ->
      weeks maxDate (shift_days aDate 7) ws ->
      weeks maxDate aDate ((aDate, shift_days aDate 7) :: ws).

(** Monday 9999-12-27, the first day of the week that [date.max] cuts short. *)
Definition LAST_MONDAY : Z := 3652055.

(** New events only: what [w'] has seen beyond [w]. *)
Definition extends (w w' : world) (seg : list event) : Prop :=
  trace w' = trace w ++ seg.

(** The world [w] after the events [seg], the cache untouched. *)
Definition add_events (w : world) (seg : list event) : world :=
  mkWorld (trace w ++ seg) (partitionCreationHistory w).

(** An action on the lock [PartitionedTable.partitionCreationLock]. *)
Definition is_lock_event (e : event) : bool :=
  match e with
  | LockAcquire | LockRelease => true
  | _ => false
  end.

(** An access to the partition cache. *)
Definition is_history_event (e : event) : bool :=
  match e with
  | HistoryLookup _ _ | HistoryAdd _ => true
  | _ => false
  end.

(** How often the lock is held after a trace: acquisitions minus releases of
    the re-entrant lock. *)
Fixpoint held (tr : list event) : Z :=
  match tr with
  | [] => 0
  | LockAcquire :: tr' => held tr' + 1
  | LockRelease :: tr' => held tr' - 1
  | _ :: tr' => held tr'
  end.

(** Every cache access of the trace happens with the lock held. *)
Definition cache_access_locked (tr : list event) : Prop :=
  forall (i : nat) e,
    tr !! i = Some e -> is_history_event e = true -> 0 < held (take i tr).

(** The statement with which [Table.drop] and [ReleaseEnum.drop] drop the
    object of a class; [BranchesView] has none. *)
Definition drop_statement (c : pyclass) : option string :=
  match c with
  | BranchesView => None
  | ReleaseEnum => Some ("drop type if exists " +:+ pystr (class_name c) +:+ " cascade")
  | _ => Some ("drop table if exists " +:+ pystr (class_name c) +:+ " cascade")
  end.

(** The events of dropping the classes of a list without an error. *)
Definition drops_ok (conn : connection) (cs : list pyclass) : list event :=
  omap (fun c => (fun s => Db conn (Execute s None) None) <$> drop_statement c) cs.

(** [m] only ever appends events that satisfy [Q]. *)
Definition emits {A} (Q : event -> Prop) (m : M A) : Prop :=
  forall w, exists seg, extends w (m w).2 seg /\ Forall Q seg.

(** Any event that is not an action on the lock. *)
Definition unlocked (e : event) : Prop := is_lock_event e = false.

(** The classes a class is declared to depend on. *)
Definition deps_of (deps : list (pyclass * list pyclass)) (c : pyclass) : list pyclass :=
  concat (snd <$> filter (fun p => fst p = c) deps).

(** Every class of [l] finds the classes it depends on among [seen] and the
    classes before it in [l]. *)
Fixpoint ordered_after (deps : list (pyclass * list pyclass)) (seen l : list pyclass)
  : bool :=
  match l with
  | [] => true
  | c :: l' =>
      forallb (fun d => bool_decide (d ∈ seen)) (deps_of deps c)
      && ordered_after deps (seen ++ [c]) l'
  end.

(** A list in which every class comes after the classes it depends on. *)
Definition dependencies_first (deps : list (pyclass * list pyclass)) (l : list pyclass)
  : Prop :=
  ordered_after deps [] l = true.

(** The events of one pass of the loop of [create] that ends normally, for
    the object [obj]: the checkpoint is set and the creation statement is
    executed; then either the checkpoint is released, or a
    [ProgrammingError] of the guarded block is answered by rolling back to
    the checkpoint, committing and logging. *)
Inductive creation_step (cur : connection) (selfName : option string)
  (obj : DatabaseObject) : list event -> Prop :=
  | step_created sql :
      creationSql obj = Some sql ->
      creation_step cur selfName obj
        [ Db cur (Execute ("savepoint creating_" +:+ pystr (name obj)) None) None;
          Db cur (Execute sql None) None;
          Db cur (Execute ("release savepoint creating_" +:+ pystr (name obj)) None) None ]
  | step_recovered sql failed x :
      creationSql obj = Some sql ->
      except_ProgrammingError x = true ->
      failed = [ Db cur (Execute sql None) (Some x) ]
      \/ failed = [ Db cur (Execute sql None) None;
                    Db cur (Execute ("release savepoint creating_" +:+ pystr (name obj)) None)
                       (Some x) ] ->
      creation_step cur selfName obj
        (Db cur (Execute ("savepoint creating_" +:+ pystr (name obj)) None) None
         :: failed
         ++ [ Db cur (Execute ("rollback to creating_" +:+ pystr (name obj)) None) None;
              Db cur Commit None;
              Debug (LogCreateExists selfName (name obj)) ]).

(** The object that [create] on [self] uses for a class of its list. *)
Definition instance_for (creationSqlText : pyclass -> string) (self : DatabaseObject)
  (c : pyclass) : DatabaseObject :=
  if decide (class_of self = c) then self else new creationSqlText c.

(** An event of a cursor at work in the schema: a statement without
    parameters or a commit on the connection [cur], a log line, or an access
    to the partition cache.  Statements with parameters, rollbacks of the
    whole transaction, other connections, connecting and reporting are not
    among them. *)
Definition on_cursor (cur : connection) (e : event) : Prop :=
  match e with
  | Db c (Execute _ None) _ | Db c Commit _ => c = cur
  | Debug _ | HistoryLookup _ _ | HistoryAdd _ => True
  | _ => False
  end.

(** [m] changes the partition cache only along the relation [R]. *)
Definition cache_moves {A} (R : gset string -> gset string -> Prop) (m : M A) : Prop :=
  forall w, R (partitionCreationHistory w) (partitionCreationHistory (m w).2).

(** The cache after is the cache before and perhaps some names of [names]. *)
Definition grows_within (names : gset string) (before after : gset string) : Prop :=
  before ⊆ after /\ after ⊆ before ∪ names.

(** The partition names of a class for some windows. *)
Definition partition_names (c : pyclass) (items : list window) : gset string :=
  list_to_set
    (omap (fun x : window =>
             match partitionCreationParameters c x return option string with
             | Ok params => params !! "partitionName"
             | Raise _ => None
             end) items).

(** A statement executed with a row of parameters. *)
Definition is_row_execute (e : event) : bool :=
  match e with
  | Db _ (Execute _ (Some _)) _ => true
  | _ => false
  end.

(** [m] executes at most [k] statements with parameters, each of them on
    [cur] with the row [r]. *)
Definition rows_at_most (k : nat) (cur : connection) (r : row) {A} (m : M A) : Prop :=
  forall w, exists seg,
    extends w (m w).2 seg
    /\ (length (filter (fun e => is_row_execute e = true) seg) <= k)%nat
    /\ Forall (fun e => is_row_execute e = true ->
                        exists sql out, e = Db cur (Execute sql (Some r)) out) seg.

(** The events of a pass of [create] for [obj] in which every statement
    succeeds: checkpoint, creation, release. *)
Definition created_events (cur : connection) (obj : DatabaseObject) : list event :=
  match creationSql obj with
  | Some sql =>
      [ Db cur (Execute ("savepoint creating_" +:+ pystr (name obj)) None) None;
        Db cur (Execute sql None) None;
        Db cur (Execute ("release savepoint creating_" +:+ pystr (name obj)) None) None ]
  | None => []
  end.

(** The events of creating the objects of a list of classes as
    [setupDatabase] does when nothing fails: one creation statement per
    class, without checkpoints. *)
Definition creates_ok (creationSqlText : pyclass -> string) (conn : connection)
  (cs : list pyclass) : list event :=
  (fun c => Db conn (Execute (creationSqlText c) None) None) <$> cs.

(** The tests of [JobsTable.updateDefinition]: the indexes it drops or
    replaces when it finds them, and those it creates when it misses them. *)
Definition jobs_obsolete_indexes : list string :=
  [ "idx_owner"; "idx_queueddatetime"; "idx_starteddatetime";
    "jobs_priority_queueddatetime"; "jobs_owner_starteddatetime" ].
Definition jobs_expected_indexes : list string :=
  [ "jobs_owner_starteddatetime_priority_key";
    "jobs_completeddatetime_queueddatetime_key"; "jobs_success_key" ].

(** A pass of a loop that ends with a successful commit on [conn]. *)
Definition ends_committed (conn : connection) (seg : list event) : Prop :=
  exists work, seg = work ++ [Db conn Commit None].

(** ** A small catalogue and some databases to run the operations on *)

Module Example.

(** Stand-ins for the SQL literals of the catalogue. *)
Definition creationSqlText (c : pyclass) : string :=
  "CREATE " +:+ pystr (class_name c).
Definition partitionCreationSqlTemplate (c : pyclass) : string :=
  "CREATE TABLE %(partitionName)s (CHECK ('%(startDate)s' <= date_processed and date_processed < '%(endDate)s')) INHERITS ("
  +:+ pystr (class_name c) +:+ ")".
Definition insertSqlText (c : pyclass) : string :=
  "insert into TABLENAME values (%s)".

(** [template % dictionary] for templates that use the four keys of
    [partitionCreationParameters]. *)
Definition pyformat (template : string) (d : gmap string string) : result string :=
  Ok (foldr (fun k s => replace ("%(" +:+ k +:+ ")s") (default "" (d !! k)) s) template
        ["partitionName"; "startDate"; "endDate"; "compressedStartDate"]).

(** One depth-first visit: the classes [c] depends on, then [c] itself,
    unless seen before; a cyclic mapping runs out of depth. *)
Fixpoint visit (depth : nat) (deps : list (pyclass * list pyclass))
  (seen : result (list pyclass)) (c : pyclass) : result (list pyclass) :=
  match depth, seen with
  | _, Raise e => Raise e
  | O, _ => Raise (OtherException "CyclicDependency")
  | S depth', Ok l =>
      if bool_decide (c ∈ l) then Ok l
      else
        match foldl (visit depth' deps) (Ok l)
                (default [] (snd <$> find (fun p => bool_decide (fst p = c)) deps)) with
        | Ok l' => Ok (l' ++ [c])
        | Raise e => Raise e
        end
  end.

(** Modelled from the spec: [socorro.lib.prioritize.dependencyOrder], which
    is not part of [schema.py].  It orders the requested identifiers (all
    keys when none are requested) and everything they transitively require
    so that each comes after its dependencies, and fails on a cycle. *)
Definition dependencyOrder (deps : list (pyclass * list pyclass))
  (aList : option (list pyclass)) : result (list pyclass) :=
  let wanted :=
    match aList with
    | None | Some [] => fst <$> deps
    | Some l => l
    end in
  foldl (visit (S (length deps)) deps) (Ok []) wanted.

(** A database that accepts every operation. *)
Definition db_ok (tr : list event) (conn : connection) (op : db_op) : option exn := None.

Definition is_create (op : db_op) : bool :=
  match op with
  | Execute sql None => String.prefix "CREATE" sql
  | _ => false
  end.

Definition is_drop_of (tableName : string) (op : db_op) : bool :=
  match op with
  | Execute sql None => String.eqb sql ("drop table if exists " +:+ tableName +:+ " cascade")
  | _ => false
  end.

Definition is_insert (op : db_op) : bool :=
  match op with
  | Execute sql (Some _) => true
  | _ => false
  end.

(** A database that answers [x] to the operations that [which] selects. *)
Definition db_raising (which : db_op -> bool) (x : exn)
  (tr : list event) (conn : connection) (op : db_op) : option exn :=
  if which op then Some x else None.

(** A database in which an insert finds its table only after a creation
    statement has succeeded. *)
Definition db_partitioned (tr : list event) (conn : connection) (op : db_op)
  : option exn :=
  if is_insert op
  then
    if existsb (fun e => match e with
                         | Db _ op' None => is_create op'
                         | _ => false
                         end) tr
    then None
    else Some (Pg ProgrammingError "42P01")
  else None.

(** The answers of the server: the relation exists already; the statement
    has a syntax error; a unique key is violated; the connection broke; a
    lock could not be had. *)
Definition duplicate_table : exn := Pg ProgrammingError "42P07".
Definition syntax_error : exn := Pg ProgrammingError "42601".
Definition unique_violation : exn := Pg IntegrityError "23505".
Definition connection_failure : exn := Pg OperationalError "08006".
Definition lock_not_available : exn := Pg OperationalError "55P03".

Definition pg_connect (tr : list event) : result connection := Ok 0%nat.
Definition alternateCursorFunction (tr : list event) : result connection := Ok 1%nat.

(** The module as loaded: nothing seen yet, no partition known. *)
Definition w0 : world := mkWorld [] ∅.

(** A process that has created one partition. *)
Definition w_marked : world := mkWorld [] {["reports_20240603"]}.

Definition wednesday : pydate := date_of 2024 6 5.
Definition kwargs : gmap string pyval := {["date_processed" := PyDate wednesday]}.

(** The operations over this catalogue, for a database [db]. *)
Definition new : pyclass -> DatabaseObject := new creationSqlText.
Definition create db := create creationSqlText dependencyOrder db.
Definition _createOwnPartition db :=
  _createOwnPartition partitionCreationSqlTemplate pyformat db.
Definition createPartitions db :=
  createPartitions creationSqlText partitionCreationSqlTemplate pyformat dependencyOrder db.
Definition insert db :=
  insert creationSqlText partitionCreationSqlTemplate insertSqlText pyformat
    dependencyOrder db.
Definition teardownDatabase db :=
  teardownDatabase creationSqlText dependencyOrder db pg_connect.

(** Stand-ins for the helpers of the other modules: the exception is
    reported and the process exits; the catalogue answers with the lists it
    is given and has no columns to tell of. *)
Definition reportExceptionAndAbort (x : exn) : M unit :=
  emit (ReportException x) ;; raise (OtherException "SystemExit").
Definition childTablesForTable (children : list string)
  (tableName : option string) (cur : connection) : M (list string) := ret children.
Definition columnNameTypeDictionaryForTable
  (tableName : option string) (cur : connection) : M (gmap string string) := ret ∅.
Definition indexesForTable (indexes : list string)
  (tableName : option string) (cur : connection) : M (list string) := ret indexes.
Definition tablesMatchingPattern (tableName : option string) : M (list string) := ret [].

Definition setupDatabase db :=
  setupDatabase creationSqlText dependencyOrder db pg_connect reportExceptionAndAbort.
Definition updateDefinition db indexes :=
  updateDefinition creationSqlText dependencyOrder db (childTablesForTable [])
    columnNameTypeDictionaryForTable (indexesForTable indexes) tablesMatchingPattern.
Definition updateDatabase db children indexes :=
  updateDatabase creationSqlText dependencyOrder db pg_connect reportExceptionAndAbort
    (childTablesForTable children) columnNameTypeDictionaryForTable
    (indexesForTable indexes) tablesMatchingPattern.
Definition createPartitions_of_module db :=
  createPartitions_of_module creationSqlText partitionCreationSqlTemplate pyformat
    dependencyOrder db pg_connect reportExceptionAndAbort.

End Example.

(** * Properties *)

(** ** The window generator *)

Lemma add_days_ok d n :
  1 <= ordinal d + n <= MAXORDINAL -> add_days d n = Ok (shift_days d n).
Proof.
  intros H. unfold add_days, shift_days.
  destruct (Z.leb_spec 1 (ordinal d + n)); [|lia].
  destruct (Z.leb_spec (ordinal d + n) MAXORDINAL); [|lia].
  reflexivity.
Qed.

Lemma add_days_inv d n d' :
  add_days d n = Ok d' -> d' = shift_days d n /\ 1 <= ordinal d + n <= MAXORDINAL.
Proof.
  unfold add_days, shift_days.
  destruct (Z.leb_spec 1 (ordinal d + n)); simpl; [|discriminate].
  destruct (Z.leb_spec (ordinal d + n) MAXORDINAL); simpl; [|discriminate].
  intros [= <-]. split; [reflexivity | lia].
Qed.

Lemma weekday_range d : 0 <= weekday d < 7.
Proof. unfold weekday. apply Z.mod_pos_bound. lia. Qed.

Lemma weekday_monday_before d : weekday (shift_days d (- weekday d)) = 0.
Proof.
  unfold weekday, shift_days; simpl.
  replace (ordinal d + - ((ordinal d + 6) mod 7) + 6)
    with ((ordinal d + 6) - (ordinal d + 6) mod 7) by lia.
  rewrite Zminus_mod, Zmod_mod, Z.sub_diag. reflexivity.
Qed.

Lemma weekday_next_week d : weekday (shift_days d 7) = weekday d.
Proof.
  unfold weekday, shift_days; simpl.
  replace (ordinal d + 7 + 6) with (ordinal d + 6 + 1 * 7) by lia.
  apply Z_mod_plus_full.
Qed.

(** A Monday before [LAST_MONDAY] is at least a week before it. *)
Lemma monday_next_in_range d :
  weekday d = 0 -> 1 <= ordinal d < LAST_MONDAY -> 1 <= ordinal d + 7 <= MAXORDINAL.
Proof.
  unfold weekday, LAST_MONDAY, MAXORDINAL. intros Hw Hr.
  pose proof (Z.div_mod (ordinal d + 6) 7 ltac:(lia)) as Hdm.
  rewrite Hw in Hdm. lia.
Qed.

Lemma date_le_same_class a b :
  is_datetime a = is_datetime b -> date_le a b = Ok (date_leb a b).
Proof. intros H. unfold date_le. rewrite H, Bool.eqb_reflx. reflexivity. Qed.

Lemma date_lt_same_class a b :
  is_datetime a = is_datetime b -> date_lt a b = Ok (date_ltb a b).
Proof. intros H. unfold date_lt. rewrite H, Bool.eqb_reflx. reflexivity. Qed.

Lemma date_leb_ordinal a b : date_leb a b = true -> ordinal a <= ordinal b.
Proof.
  unfold date_leb, date_ltb. intros H.
  destruct (Z.ltb_spec (ordinal b) (ordinal a)); [discriminate | lia].
Qed.

(** The fuel of [list_of_iterator] is always enough. *)
Lemma collect_enough_fuel n : forall g,
  (gen_fuel g <= n)%nat -> collect n g <> None.
Proof.
  induction n as [|n IH]; intros g Hn.
  - unfold gen_fuel in Hn. lia.
  - simpl. destruct (gen_next g) as [[w| |e] g'] eqn:Hnext; try discriminate.
    assert (gen_fuel g' <= n)%nat as Hg'.
    { unfold gen_fuel in *.
      assert (exists aDate mx, gen_date g <= ordinal aDate
                /\ g' = GenSuspended (shift_days aDate 7) mx
                /\ 1 <= ordinal aDate + 7 <= MAXORDINAL) as (aDate & mx & Hle & -> & Hr).
      { destruct g as [mn mx|nm mx|]; simpl in Hnext.
        - unfold sub_days in Hnext.
          destruct (add_days mn (- weekday mn)) as [aDate|] eqn:Ha; [|discriminate].
          apply add_days_inv in Ha as [-> _].
          unfold loop_from in Hnext.
          destruct (date_le _ mx) as [[|]|]; try discriminate.
          destruct (add_days _ 7) as [nm|] eqn:Hb; [|discriminate].
          apply add_days_inv in Hb as [-> Hr]. injection Hnext as _ <-.
          eexists _, mx. split; [|split; [reflexivity | exact Hr]].
          simpl. pose proof (weekday_range mn). lia.
        - unfold loop_from in Hnext.
          destruct (date_le _ mx) as [[|]|]; try discriminate.
          destruct (add_days _ 7) as [nm'|] eqn:Hb; [|discriminate].
          apply add_days_inv in Hb as [-> Hr]. injection Hnext as _ <-.
          eexists _, mx. split; [|split; [reflexivity | exact Hr]].
          simpl. lia.
        - discriminate. }
      simpl.
      assert ((MAXORDINAL - (ordinal aDate + 7)) / 7 + 1 <= (MAXORDINAL - gen_date g) / 7).
      { replace ((MAXORDINAL - (ordinal aDate + 7)) / 7 + 1)
          with ((MAXORDINAL - (ordinal aDate + 7) + 1 * 7) / 7)
          by (rewrite Z.div_add by lia; reflexivity).
        apply Z.div_le_mono; lia. }
      assert (0 <= (MAXORDINAL - (ordinal aDate + 7)) / 7)
        by (apply Z.div_pos; lia).
      lia. }
    specialize (IH g' Hg').
    destruct (collect n g') as [[ws|e]|]; congruence.
Qed.

Lemma list_of_iterator_collect g :
  collect (gen_fuel g) g = Some (list_of_iterator g).
Proof.
  unfold list_of_iterator.
  pose proof (collect_enough_fuel (gen_fuel g) g (Nat.le_refl _)) as H.
  destruct (collect (gen_fuel g) g); [reflexivity | congruence].
Qed.

Ltac date_cmp :=
  unfold date_leb, date_ltb, shift_days in *; simpl in *;
  repeat match goal with
    | |- context [?a <? ?b] => destruct (Z.ltb_spec a b)
    | |- context [?a =? ?b] => destruct (Z.eqb_spec a b)
    | H : context [?a <? ?b] |- _ => destruct (Z.ltb_spec a b)
    | H : context [?a =? ?b] |- _ => destruct (Z.eqb_spec a b)
    end;
  simpl in *; try congruence; try lia.

Lemma monday_on_or_before d :
  1 <= ordinal d -> 1 <= ordinal d + - weekday d.
Proof.
  intros H. unfold weekday.
  pose proof (Z.div_mod (ordinal d + 6) 7 ltac:(lia)) as Hdm.
  pose proof (Z.mod_pos_bound (ordinal d + 6) 7 ltac:(lia)).
  assert (1 <= (ordinal d + 6) / 7) by (apply Z.div_le_lower_bound; lia).
  lia.
Qed.

(** From a Monday on, the iterator stops normally and yields the weeks up
    to the one holding [maxDate]. *)
Lemma collect_weeks n : forall aDate maxDate r,
  is_datetime aDate = is_datetime maxDate ->
  weekday aDate = 0 -> 1 <= ordinal aDate -> ordinal maxDate < LAST_MONDAY ->
  collect n (GenSuspended aDate maxDate) = Some r ->
  exists ws, r = Ok ws /\ weeks maxDate aDate ws.
Proof.
  induction n as [|n IH]; intros aDate maxDate r Hc Hw Hlo Hhi Hr; [discriminate|].
  simpl in Hr. unfold loop_from in Hr. rewrite (date_le_same_class _ _ Hc) in Hr.
  destruct (date_leb aDate maxDate) eqn:Hle.
  - pose proof (date_leb_ordinal _ _ Hle) as Hord.
    rewrite add_days_ok in Hr by (apply monday_next_in_range; [exact Hw | lia]).
    destruct (collect n (GenSuspended (shift_days aDate 7) maxDate)) as [r'|] eqn:Hrec;
      [|discriminate].
    apply IH in Hrec as (ws & -> & Hws); simpl; try lia.
    + injection Hr as <-. exists ((aDate, shift_days aDate 7) :: ws).
      split; [reflexivity | by apply weeks_step].
    + exact Hc.
    + by rewrite weekday_next_week.
  - injection Hr as <-. exists []. split; [reflexivity | by apply weeks_done].
Qed.

Lemma weeks_span maxDate aDate ws :
  weeks maxDate aDate ws -> Forall (fun w => snd w = shift_days (fst w) 7) ws.
Proof. induction 1; constructor; auto. Qed.

Lemma weeks_contiguous maxDate aDate ws :
  weeks maxDate aDate ws ->
  forall (i : nat) w w', ws !! i = Some w -> ws !! S i = Some w' -> snd w = fst w'.
Proof.
  induction 1 as [|aDate ws Hle Hws IH]; intros i w w' Hi Hi'; [discriminate|].
  destruct i as [|i].
  - injection Hi as <-. inversion Hws; subst; [discriminate|].
    injection Hi' as <-. reflexivity.
  - simpl in Hi, Hi'. eapply IH; eassumption.
Qed.

Lemma weeks_last maxDate aDate ws :
  weeks maxDate aDate ws -> ws <> [] ->
  exists wl, last ws = Some wl
    /\ date_leb (fst wl) maxDate = true /\ date_ltb maxDate (snd wl) = true.
Proof.
  induction 1 as [|aDate ws Hle Hws IH]; intros Hne; [congruence|].
  destruct ws as [|w ws'].
  - exists (aDate, shift_days aDate 7). split; [reflexivity|]. split; [exact Hle|].
    inversion Hws as [? Hend|]; subst. unfold date_leb in Hend. simpl.
    by destruct (date_ltb maxDate (shift_days aDate 7)).
  - destruct IH as (wl & Hl & H1 & H2); [discriminate|].
    exists wl. split; [|by split]. rewrite last_cons, Hl. reflexivity.
Qed.

(** The first step of a fresh iterator, for a date whose Monday exists. *)
Lemma gen_next_created minDate maxDate :
  1 <= ordinal minDate <= MAXORDINAL ->
  gen_next (GenCreated minDate maxDate)
  = loop_from (shift_days minDate (- weekday minDate)) maxDate.
Proof.
  intros H. simpl. unfold sub_days. rewrite add_days_ok; [reflexivity|].
  pose proof (monday_on_or_before minDate). pose proof (weekday_range minDate). lia.
Qed.

Lemma collect_created n minDate maxDate :
  1 <= ordinal minDate <= MAXORDINAL ->
  collect n (GenCreated minDate maxDate)
  = collect n (GenSuspended (shift_days minDate (- weekday minDate)) maxDate).
Proof.
  intros H. destruct n as [|n]; [reflexivity|].
  cbn [collect]. rewrite gen_next_created by exact H. reflexivity.
Qed.

(** C1 (as amended): for dates [minDate <= maxDate] of the same class with
    [maxDate] before Monday 9999-12-27, the factory returns an iterator that
    runs to its end without raising and yields a non-empty list of pairs:
    the first start is [minDate] moved back to its Monday (a Monday,
    [<= minDate], [> minDate - 7 days]); every pair spans exactly 7 days;
    each pair's end is the next pair's start; and the last pair's half-open
    span holds [maxDate]. *)
Theorem mondayPairs_windows (minDate maxDate : pydate) :
  valid_date minDate -> valid_date maxDate ->
  is_datetime minDate = is_datetime maxDate ->
  date_leb minDate maxDate = true ->
  ordinal maxDate < LAST_MONDAY ->
  exists ws rest,
    mondayPairsIteratorFactory (PyDate minDate) (PyDate maxDate)
      = Ok (GenCreated minDate maxDate)
    /\ list_of_iterator (GenCreated minDate maxDate) = Ok ws
    /\ (let start := shift_days minDate (- weekday minDate) in
        ws = (start, shift_days start 7) :: rest
        /\ weekday start = 0
        /\ date_leb start minDate = true
        /\ date_ltb (shift_days minDate (-7)) start = true)
    /\ Forall (fun w => snd w = shift_days (fst w) 7) ws
    /\ (forall (i : nat) w w',
          ws !! i = Some w -> ws !! S i = Some w' -> snd w = fst w')
    /\ (exists wl, last ws = Some wl
          /\ date_leb (fst wl) maxDate = true
          /\ date_ltb maxDate (snd wl) = true).
Proof.
  intros (Hmin & _ & _) (Hmax & _ & _) Hc Hle Hhi.
  pose proof (weekday_range minDate) as Hwd.
  pose proof (monday_on_or_before minDate ltac:(lia)) as Hmon.
  pose proof (list_of_iterator_collect (GenCreated minDate maxDate)) as Hcol.
  rewrite collect_created in Hcol by exact Hmin.
  apply collect_weeks in Hcol as (ws & Hws & Hweeks);
    [| exact Hc | apply weekday_monday_before | exact Hmon | exact Hhi].
  assert (date_leb (shift_days minDate (- weekday minDate)) maxDate = true) as Hstart
    by date_cmp.
  inversion Hweeks as [? Hend|? rest Hle' Hrest]; subst; [congruence|].
  exists ((shift_days minDate (- weekday minDate),
           shift_days (shift_days minDate (- weekday minDate)) 7) :: rest), rest.
  split; [| split; [exact Hws | split; [| split; [| split]]]].
  - unfold mondayPairsIteratorFactory.
    rewrite date_lt_same_class by (symmetry; exact Hc).
    unfold date_leb in Hle. by destruct (date_ltb maxDate minDate).
  - cbv zeta. split; [reflexivity|]. split; [apply weekday_monday_before|].
    split; date_cmp.
  - eapply weeks_span; exact Hweeks.
  - eapply weeks_contiguous; exact Hweeks.
  - eapply weeks_last; [exact Hweeks | discriminate].
Qed.

(** C9: for date values of the same class, [maxDate < minDate] makes the
    factory raise [ValueError], so that no iterator and no window exists;
    with [minDate <= maxDate] the factory returns its iterator. *)
Theorem mondayPairsIteratorFactory_range (minDate maxDate : pydate) :
  is_datetime minDate = is_datetime maxDate ->
  (date_ltb maxDate minDate = true ->
     mondayPairsIteratorFactory (PyDate minDate) (PyDate maxDate) = Raise ValueError)
  /\ (date_leb minDate maxDate = true ->
     mondayPairsIteratorFactory (PyDate minDate) (PyDate maxDate)
       = Ok (GenCreated minDate maxDate)).
Proof.
  intros Hc. unfold mondayPairsIteratorFactory, date_leb.
  rewrite date_lt_same_class by (symmetry; exact Hc).
  split; intros H; destruct (date_ltb maxDate minDate); done.
Qed.

(** ** What the operations add to the trace *)

Lemma emits_ret {A} Q (a : A) : emits Q (ret a).
Proof. intros w. exists []. split; [symmetry; apply app_nil_r | constructor]. Qed.

Lemma emits_raise {A} Q e : emits Q (raise (A := A) e).
Proof. intros w. exists []. split; [symmetry; apply app_nil_r | constructor]. Qed.

Lemma emits_lift {A} Q (r : result A) : emits Q (lift r).
Proof. intros w. exists []. split; [symmetry; apply app_nil_r | constructor]. Qed.

Lemma emits_bind {A B} Q (m : M A) (k : A -> M B) :
  emits Q m -> (forall a, emits Q (k a)) -> emits Q (m ≫= k).
Proof.
  intros Hm Hk w. unfold mbind, M_bind, bind.
  destruct (Hm w) as (s1 & H1 & HQ1). destruct (m w) as [[a|e] w1]; simpl in *.
  - destruct (Hk a w1) as (s2 & H2 & HQ2). exists (s1 ++ s2). split.
    + unfold extends in *. rewrite H2, H1. symmetry. apply app_assoc.
    + apply Forall_app. by split.
  - by exists s1.
Qed.

Lemma emits_try_except {A} Q (body : M A) catches handler :
  emits Q body -> (forall x, emits Q (handler x)) ->
  emits Q (try_except body catches handler).
Proof.
  intros Hm Hk w. unfold try_except.
  destruct (Hm w) as (s1 & H1 & HQ1). destruct (body w) as [[a|e] w1]; simpl in *.
  - by exists s1.
  - destruct (catches e); [|by exists s1].
    destruct (Hk e w1) as (s2 & H2 & HQ2). exists (s1 ++ s2). split.
    + unfold extends in *. rewrite H2, H1. symmetry. apply app_assoc.
    + apply Forall_app. by split.
Qed.

Lemma emits_for_each {A} Q (xs : list A) body :
  (forall x, emits Q (body x)) -> emits Q (for_each xs body).
Proof.
  intros Hb. induction xs as [|x xs IH]; simpl.
  - apply emits_ret.
  - apply emits_bind; [apply Hb | intros _; exact IH].
Qed.

Lemma emits_emit Q e : Q e -> emits Q (emit e).
Proof. intros H w. exists [e]. split; [reflexivity | by repeat constructor]. Qed.

Lemma emits_if {A} Q (b : bool) (m1 m2 : M A) :
  emits Q m1 -> emits Q m2 -> emits Q (if b then m1 else m2).
Proof. by destruct b. Qed.

Create HintDb emits discriminated.
#[local] Hint Resolve emits_ret emits_raise emits_lift emits_emit : emits.
#[local] Hint Extern 1 (emits _ (mbind _ _)) => apply emits_bind; [| intros ?] : emits.
#[local] Hint Extern 1 (emits _ (try_except _ _ _)) =>
  apply emits_try_except; [| intros ?] : emits.
#[local] Hint Extern 1 (emits _ (for_each _ _)) => apply emits_for_each; intros ? : emits.
#[local] Hint Extern 1 (emits _ (if _ then _ else _)) => apply emits_if : emits.
#[local] Hint Extern 2 (emits _ (match ?x with _ => _ end)) => destruct x : emits.

#[local] Hint Extern 1 (unlocked _) => reflexivity : emits.

Lemma held_app tr seg : held (tr ++ seg) = held tr + held seg.
Proof.
  induction tr as [|e tr IH]; [reflexivity|].
  destruct e; cbn [held app]; rewrite IH; lia.
Qed.

Lemma held_unlocked seg : Forall unlocked seg -> held seg = 0.
Proof.
  induction 1 as [|e seg He _ IH]; [reflexivity|].
  destruct e; cbn [held]; try exact IH; discriminate He.
Qed.

(** While an operation that appends no lock event runs, the lock is held
    just as often as before it. *)
Lemma emits_unlocked_held {A} (m : M A) :
  emits unlocked m ->
  forall w (i : nat), (length (trace w) <= i)%nat ->
    held (take i (trace (m w).2)) = held (trace w).
Proof.
  intros Hm w i Hi. destruct (Hm w) as (seg & Hext & Hseg).
  unfold extends in Hext. rewrite Hext.
  rewrite take_app_ge by exact Hi. rewrite held_app.
  rewrite (held_unlocked (take _ seg)); [lia|].
  apply Forall_take. exact Hseg.
Qed.

Section Locking.

Context (creationSqlText partitionCreationSqlTemplate insertSqlText : pyclass -> string)
        (pyformat : string -> gmap string string -> result string)
        (dependencyOrder :
           list (pyclass * list pyclass) -> option (list pyclass) -> result (list pyclass))
        (db : list event -> connection -> db_op -> option exn)
        (pg_connect : list event -> result connection).

Lemma emits_run_db conn op : emits unlocked (run_db db conn op).
Proof. intros w. eexists [_]. split; [reflexivity | by repeat constructor]. Qed.

Lemma emits_partitionWasCreated n : emits unlocked (partitionWasCreated n).
Proof. intros w. eexists [_]. split; [reflexivity | by repeat constructor]. Qed.

Lemma emits_markPartitionCreated n : emits unlocked (markPartitionCreated n).
Proof. intros w. eexists [_]. split; [reflexivity | by repeat constructor]. Qed.

Lemma emits_debug m : emits unlocked (debug m).
Proof. by apply emits_emit. Qed.

Hint Resolve emits_run_db emits_partitionWasCreated emits_markPartitionCreated
  emits_debug : emits.

Lemma emits__createSelf self cur : emits unlocked (_createSelf db self cur).
Proof.
  unfold _createSelf, additionalCreationProcedures, execute. auto 10 with emits.
Qed.
Hint Resolve emits__createSelf : emits.

Lemma emits_create self cur :
  emits unlocked (create creationSqlText dependencyOrder db self cur).
Proof.
  unfold create, create_one, execute, commit. auto 20 with emits.
Qed.

Lemma emits__createOwnPartition self cur items :
  emits unlocked (_createOwnPartition partitionCreationSqlTemplate pyformat db self cur items).
Proof.
  unfold _createOwnPartition, _createOwnPartition_one, execute, commit.
  auto 30 with emits.
Qed.
Hint Resolve emits__createOwnPartition : emits.

Lemma emits_createPartitions self cur it :
  emits unlocked
    (createPartitions creationSqlText partitionCreationSqlTemplate pyformat
       dependencyOrder db self cur it).
Proof. unfold createPartitions. auto 20 with emits. Qed.
Hint Resolve emits_createPartitions : emits.

Lemma emits_call_alternateCursorFunction alt :
  emits unlocked (call_alternateCursorFunction alt).
Proof. intros w. eexists [_]. split; [reflexivity | by repeat constructor]. Qed.
Hint Resolve emits_call_alternateCursorFunction : emits.

Lemma emits_insert self cur r alt kwargs :
  emits unlocked
    (insert creationSqlText partitionCreationSqlTemplate insertSqlText pyformat
       dependencyOrder db self cur r alt kwargs).
Proof.
  unfold insert, execute, execute_row, commit. auto 40 with emits.
Qed.

Lemma emits_teardownDatabase :
  emits unlocked (teardownDatabase creationSqlText dependencyOrder db pg_connect).
Proof.
  unfold teardownDatabase. apply emits_bind.
  - intros w. eexists [_]. split; [reflexivity | by repeat constructor].
  - intros conn. apply emits_try_except.
    + apply emits_bind; [auto with emits | intros L].
      apply emits_bind.
      * apply emits_for_each. intros c. unfold drop, execute.
        destruct c; simpl; auto with emits.
      * intros _. apply emits_bind; [apply emits_run_db | intros _].
        intros w. exists []. split; [symmetry; apply app_nil_r | constructor].
    + intros x. unfold rollback, reportExceptionAndContinue. auto 10 with emits.
Qed.

End Locking.

(** C8 (as amended): the existence check and the mark read and update the
    module-level set directly, each as one step that appends its own cache
    event and nothing else; and no operation of the module ever acquires or
    releases [partitionCreationLock]: the events that [create],
    [_createOwnPartition], [createPartitions], [insert] and
    [teardownDatabase] append contain no lock event, so the lock is not
    held across any database round trip either: started with the lock
    free, [insert] reaches each of its cache accesses and statements with
    the lock free. *)
Theorem partition_cache_not_locked
  (creationSqlText partitionCreationSqlTemplate insertSqlText : pyclass -> string)
  (pyformat : string -> gmap string string -> result string)
  (dependencyOrder :
     list (pyclass * list pyclass) -> option (list pyclass) -> result (list pyclass))
  (db : list event -> connection -> db_op -> option exn)
  (pg_connect : list event -> result connection) :
  (forall n w,
     partitionWasCreated n w
     = (Ok (bool_decide (n ∈ partitionCreationHistory w)),
        mkWorld (trace w ++ [HistoryLookup n (bool_decide (n ∈ partitionCreationHistory w))])
                (partitionCreationHistory w)))
  /\ (forall n w,
     markPartitionCreated n w
     = (Ok tt, mkWorld (trace w ++ [HistoryAdd n]) ({[n]} ∪ partitionCreationHistory w)))
  /\ (forall self cur, emits unlocked (create creationSqlText dependencyOrder db self cur))
  /\ (forall self cur items,
     emits unlocked
       (_createOwnPartition partitionCreationSqlTemplate pyformat db self cur items))
  /\ (forall self cur it,
     emits unlocked
       (createPartitions creationSqlText partitionCreationSqlTemplate pyformat
          dependencyOrder db self cur it))
  /\ (forall self cur r alt kwargs,
     emits unlocked
       (insert creationSqlText partitionCreationSqlTemplate insertSqlText pyformat
          dependencyOrder db self cur r alt kwargs))
  /\ emits unlocked (teardownDatabase creationSqlText dependencyOrder db pg_connect)
  /\ (forall self cur r alt kwargs w (i : nat),
     held (trace w) = 0 -> (length (trace w) <= i)%nat ->
     held (take i (trace (insert creationSqlText partitionCreationSqlTemplate insertSqlText
                            pyformat dependencyOrder db self cur r alt kwargs w).2)) = 0).
Proof.
  split; [reflexivity|]. split; [reflexivity|].
  split; [intros; apply emits_create|].
  split; [intros; apply emits__createOwnPartition|].
  split; [intros; apply emits_createPartitions|].
  split; [intros; apply emits_insert|].
  split; [apply emits_teardownDatabase|].
  intros self cur r alt kwargs w i Hfree Hi.
  rewrite emits_unlocked_held; [exact Hfree | apply emits_insert | exact Hi].
Qed.

(** C8, as stated, fails: from the module as loaded, the check and the mark
    of a partition name access the cache although the lock was never
    acquired. *)
Lemma cache_access_without_lock :
  ~ cache_access_locked (trace (partitionWasCreated "reports_20240603" Example.w0).2)
  /\ ~ cache_access_locked (trace (markPartitionCreated "reports_20240603" Example.w0).2).
Proof.
  split; intros H; specialize (H O _ eq_refl eq_refl); simpl in H; lia.
Qed.

(** C5: a call of [PartitionedTable.insert] whose keyword arguments have no
    ["date_processed"] raises [PartitionControlParameterRequired] and leaves
    the world as it was: no statement reaches the database. *)
Theorem insert_requires_date_processed
  (creationSqlText partitionCreationSqlTemplate insertSqlText : pyclass -> string)
  (pyformat : string -> gmap string string -> result string)
  (dependencyOrder :
     list (pyclass * list pyclass) -> option (list pyclass) -> result (list pyclass))
  (db : list event -> connection -> db_op -> option exn)
  (self : DatabaseObject) (cur : connection) (r : row)
  (alt : list event -> result connection) (kwargs : gmap string pyval) (w : world) :
  kwargs !! "date_processed" = None ->
  insert creationSqlText partitionCreationSqlTemplate insertSqlText pyformat
    dependencyOrder db self cur r alt kwargs w
  = (Raise PartitionControlParameterRequired, w).
Proof. intros H. unfold insert. rewrite H. reflexivity. Qed.

Lemma insert_requires_date_processed_witness :
  (∅ : gmap string pyval) !! "date_processed" = None
  /\ Example.insert Example.db_ok (Example.new ReportsTable) 0%nat ["row"]
       Example.alternateCursorFunction ∅ Example.w0
     = (Raise PartitionControlParameterRequired, Example.w0).
Proof.
  split; [reflexivity|].
  apply (insert_requires_date_processed Example.creationSqlText
           Example.partitionCreationSqlTemplate Example.insertSqlText Example.pyformat
           Example.dependencyOrder Example.db_ok).
  reflexivity.
Defined.

(** ** [DatabaseObject.create] *)

Section Create.

Context (creationSqlText : pyclass -> string)
        (dependencyOrder :
           list (pyclass * list pyclass) -> option (list pyclass) -> result (list pyclass))
        (db : list event -> connection -> db_op -> option exn).

Lemma run_db_bind {A} conn op (k : unit -> M A) w :
  (run_db db conn op ≫= k) w
  = let outcome := db (trace w) conn op in
    let w1 := mkWorld (trace w ++ [Db conn op outcome]) (partitionCreationHistory w) in
    match outcome with
    | None => k tt w1
    | Some e => (Raise e, w1)
    end.
Proof.
  unfold mbind, M_bind, bind, run_db. simpl. by destruct (db (trace w) conn op).
Qed.

(** One pass of the loop: what an iteration that ends normally has done. *)
Lemma create_one_events self cur c w :
  exists seg,
    extends w (create_one creationSqlText db self cur c w).2 seg
    /\ ((create_one creationSqlText db self cur c w).1 = Ok tt ->
        creation_step cur (name self) (instance_for creationSqlText self c) seg).
Proof.
  unfold create_one. fold (instance_for creationSqlText self c).
  set (obj := instance_for creationSqlText self c).
  unfold extends, execute, commit, debug, emit, try_except, _createSelf,
    additionalCreationProcedures, run_db, mbind, M_bind, bind, ret, raise.
  simpl.
  destruct (db (trace w) cur _) as [e0|] eqn:H0; simpl.
  { eexists [_]. split; [reflexivity | discriminate]. }
  destruct (creationSql obj) as [sql|] eqn:Hsql; simpl.
  2: { eexists [_]. split; [reflexivity | discriminate]. }
  destruct (db (trace w ++ [_]) cur (Execute sql None)) as [e1|] eqn:H1; simpl.
  - destruct (except_ProgrammingError e1) eqn:Hpe; simpl.
    2: { eexists [_; _]. rewrite <- !app_assoc. split; [reflexivity | discriminate]. }
    destruct (db ((trace w ++ [_]) ++ [_]) cur _) as [e2|] eqn:H2; simpl.
    { eexists [_; _; _]. rewrite <- !app_assoc. split; [reflexivity | discriminate]. }
    destruct (db (((trace w ++ [_]) ++ [_]) ++ [_]) cur Commit) as [e3|] eqn:H3; simpl.
    { eexists [_; _; _; _]. rewrite <- !app_assoc. split; [reflexivity | discriminate]. }
    eexists [_; _; _; _; _]. rewrite <- !app_assoc. split; [reflexivity | intros _].
    apply (step_recovered cur (name self) obj sql [_] e1 Hsql Hpe). by left.
  - destruct (db ((trace w ++ [_]) ++ [_]) cur _) as [e2|] eqn:H2; simpl.
    + destruct (except_ProgrammingError e2) eqn:Hpe; simpl.
      2: { eexists [_; _; _]. rewrite <- !app_assoc. split; [reflexivity | discriminate]. }
      destruct (db (((trace w ++ [_]) ++ [_]) ++ [_]) cur _) as [e3|] eqn:H3; simpl.
      { eexists [_; _; _; _]. rewrite <- !app_assoc. split; [reflexivity | discriminate]. }
      destruct (db ((((trace w ++ [_]) ++ [_]) ++ [_]) ++ [_]) cur Commit)
        as [e4|] eqn:H4; simpl.
      { eexists [_; _; _; _; _]. rewrite <- !app_assoc.
        split; [reflexivity | discriminate]. }
      eexists [_; _; _; _; _; _]. rewrite <- !app_assoc. split; [reflexivity | intros _].
      apply (step_recovered cur (name self) obj sql [_; _] e2 Hsql Hpe). by right.
    + eexists [_; _; _]. rewrite <- !app_assoc. split; [reflexivity | intros _].
      by apply step_created.
Qed.

End Create.

(** A loop whose passes each append a segment: after the loop, the trace has
    grown by the segments of the passes made, and a loop that ends normally
    has made a pass for every element, in order. *)
Lemma for_each_segments {A} (P : A -> list event -> Prop) (body : A -> M unit) :
  (forall x w, exists seg,
      extends w (body x w).2 seg /\ ((body x w).1 = Ok tt -> P x seg)) ->
  forall xs w, exists segs rest,
    extends w (for_each xs body w).2 (concat segs ++ rest)
    /\ match (for_each xs body w).1 with
       | Ok _ => rest = [] /\ Forall2 P xs segs
       | Raise _ => exists n, (n < length xs)%nat /\ Forall2 P (take n xs) segs
       end.
Proof.
  intros Hbody. induction xs as [|x xs IH]; intros w; simpl.
  - exists [], []. split; [symmetry; apply app_nil_r | by split].
  - unfold mbind, M_bind, bind.
    destruct (Hbody x w) as (seg & Hext & HP).
    destruct (body x w) as [[[]|e] w1]; simpl in *.
    + destruct (IH w1) as (segs & rest & Hext' & Hres).
      exists (seg :: segs), rest. split.
      * unfold extends in *. rewrite Hext', Hext. simpl. by rewrite <- !app_assoc.
      * destruct (for_each xs body w1).1.
        -- destruct Hres as [-> HF]. split; [reflexivity|]. constructor; auto.
        -- destruct Hres as (n & Hn & HF). exists (S n). split; [lia|].
           simpl. constructor; auto.
    + exists [], seg. split; [exact Hext|]. exists O. split; [lia | constructor].
Qed.

Lemma ordered_after_lookup deps : forall l seen (j : nat) c d,
  ordered_after deps seen l = true ->
  l !! j = Some c -> d ∈ deps_of deps c -> d ∈ seen ++ take j l.
Proof.
  induction l as [|c0 l IH]; intros seen j c d Hord Hj Hd; [discriminate|].
  simpl in Hord. apply andb_true_iff in Hord as [Hhere Hrest].
  destruct j as [|j]; simpl in *.
  - injection Hj as ->. rewrite app_nil_r.
    rewrite forallb_forall in Hhere.
    apply list_elem_of_In, Hhere, bool_decide_eq_true in Hd. exact Hd.
  - specialize (IH _ _ _ _ Hrest Hj Hd). by rewrite <- app_assoc in IH.
Qed.

Section CreateClosure.

Context (creationSqlText : pyclass -> string)
        (dependencyOrder :
           list (pyclass * list pyclass) -> option (list pyclass) -> result (list pyclass))
        (db : list event -> connection -> db_op -> option exn).

(** C10: with [L] the list that [getOrderedSetupList] gives for the class
    of [self], a list with dependencies first, [create] makes its passes
    over [L] in order.  When it returns normally, the trace has grown by
    exactly one checkpointed creation step per class of [L], in the order
    of [L], each on the object the loop uses for that class ([self] for
    its own class, a new instance otherwise); the step of [self] is among
    them, and the step of every class a class of [L] depends on comes
    before that class's own step.  When it
    raises, the passes before the failing one were such steps. *)
Theorem create_runs_setup_closure (self : DatabaseObject) (cur : connection)
  (L : list pyclass) (w : world) :
  getOrderedSetupList dependencyOrder (Some [class_of self]) = Ok L ->
  dependencies_first databaseDependenciesForSetup L ->
  class_of self ∈ L ->
  exists segs rest,
    extends w (create creationSqlText dependencyOrder db self cur w).2
      (concat segs ++ rest)
    /\ match (create creationSqlText dependencyOrder db self cur w).1 with
       | Ok _ =>
           rest = []
           /\ Forall2 (fun c seg =>
                creation_step cur (name self) (instance_for creationSqlText self c) seg)
                L segs
           /\ (exists seg, seg ∈ segs /\ creation_step cur (name self) self seg)
           /\ (forall (j : nat) c d,
                 L !! j = Some c -> d ∈ deps_of databaseDependenciesForSetup c ->
                 exists (i : nat) seg_d seg_c,
                   (i < j)%nat /\ L !! i = Some d
                   /\ segs !! i = Some seg_d /\ segs !! j = Some seg_c
                   /\ creation_step cur (name self)
                        (instance_for creationSqlText self d) seg_d
                   /\ creation_step cur (name self)
                        (instance_for creationSqlText self c) seg_c)
       | Raise _ =>
           exists n, (n < length L)%nat
             /\ Forall2 (fun c seg =>
                  creation_step cur (name self) (instance_for creationSqlText self c) seg)
                  (take n L) segs
       end.
Proof.
  intros HL Hord Hself. unfold create. rewrite HL.
  change ((lift (Ok L) ≫= fun l => for_each l (create_one creationSqlText db self cur)) w)
    with (for_each L (create_one creationSqlText db self cur) w).
  destruct (for_each_segments
              (fun c seg =>
                 creation_step cur (name self) (instance_for creationSqlText self c) seg)
              (create_one creationSqlText db self cur)
              (fun c w => create_one_events creationSqlText db self cur c w) L w)
    as (segs & rest & Hext & Hres).
  exists segs, rest. split; [exact Hext|].
  destruct (for_each L (create_one creationSqlText db self cur) w).1; [|exact Hres].
  destruct Hres as [-> HF]. split; [reflexivity|]. split; [exact HF|]. split.
  { apply list_elem_of_lookup in Hself as [k Hk].
    destruct (Forall2_lookup_l _ _ _ _ _ HF Hk) as (seg & Hseg & Hstep).
    exists seg. split; [by eapply list_elem_of_lookup_2|].
    unfold instance_for in Hstep. by rewrite decide_True in Hstep. }
  intros j c d Hj Hd.
  pose proof (ordered_after_lookup _ _ _ _ _ _ Hord Hj Hd) as Hin.
  simpl in Hin. apply list_elem_of_lookup in Hin as [i Hi].
  apply lookup_take_Some in Hi as [Hi Hlt].
  destruct (Forall2_lookup_l _ _ _ _ _ HF Hi) as (seg_d & Hsd & Hd').
  destruct (Forall2_lookup_l _ _ _ _ _ HF Hj) as (seg_c & Hsc & Hc').
  exists i, seg_d, seg_c. repeat split; assumption.
Qed.

End CreateClosure.

(** ** Which failures the checkpointed creation recovers *)

Lemma for_each_app {A} (body : A -> M unit) pre x post w :
  for_each (pre ++ x :: post) body w
  = match for_each pre body w with
    | (Ok _, w1) =>
        match body x w1 with
        | (Ok _, w2) => for_each post body w2
        | (Raise e, w2) => (Raise e, w2)
        end
    | (Raise e, w1) => (Raise e, w1)
    end.
Proof.
  revert w. induction pre as [|y pre IH]; intros w; simpl.
  - unfold mbind, M_bind, bind. by destruct (body x w) as [[[]|e] w2].
  - unfold mbind, M_bind, bind. destruct (body y w) as [[[]|e] w1]; [apply IH | reflexivity].
Qed.

Lemma trace_add_events w seg : trace (add_events w seg) = trace w ++ seg.
Proof. reflexivity. Qed.

Lemma add_events_app w s1 s2 : add_events (add_events w s1) s2 = add_events w (s1 ++ s2).
Proof. unfold add_events; simpl. by rewrite <- app_assoc. Qed.

Section Recovery.

Context (creationSqlText partitionCreationSqlTemplate : pyclass -> string)
        (pyformat : string -> gmap string string -> result string)
        (dependencyOrder :
           list (pyclass * list pyclass) -> option (list pyclass) -> result (list pyclass))
        (db : list event -> connection -> db_op -> option exn).

(** A pass of [create] whose creation statement raises [x]. *)
Lemma create_one_failure self cur c w sql x :
  let obj := instance_for creationSqlText self c in
  let sp := Db cur (Execute ("savepoint creating_" +:+ pystr (name obj)) None) None in
  let failed := Db cur (Execute sql None) (Some x) in
  creationSql obj = Some sql ->
  db (trace w) cur (Execute ("savepoint creating_" +:+ pystr (name obj)) None) = None ->
  db (trace w ++ [sp]) cur (Execute sql None) = Some x ->
  (except_ProgrammingError x = false ->
     create_one creationSqlText db self cur c w = (Raise x, add_events w [sp; failed]))
  /\ (except_ProgrammingError x = true ->
      db (trace w ++ [sp; failed]) cur
         (Execute ("rollback to creating_" +:+ pystr (name obj)) None) = None ->
      db (trace w ++ [sp; failed;
                      Db cur (Execute ("rollback to creating_" +:+ pystr (name obj)) None)
                         None]) cur Commit = None ->
      create_one creationSqlText db self cur c w
      = (Ok tt,
         add_events w
           [sp; failed;
            Db cur (Execute ("rollback to creating_" +:+ pystr (name obj)) None) None;
            Db cur Commit None;
            Debug (LogCreateExists (name self) (name obj))])).
Proof.
  intros obj sp failed Hsql Hsp Hx.
  unfold create_one. fold (instance_for creationSqlText self c). fold obj.
  unfold execute, commit, debug, emit, try_except, _createSelf,
    additionalCreationProcedures, run_db, mbind, M_bind, bind, ret, raise, add_events.
  simpl. rewrite Hsp. simpl. rewrite Hsql. simpl. fold sp. rewrite Hx. simpl.
  split; intros Hpe; rewrite Hpe.
  - by rewrite <- ?app_assoc.
  - intros Hrb Hc. fold failed. rewrite <- ?app_assoc. simpl.
    rewrite Hrb. simpl. rewrite <- ?app_assoc. simpl. rewrite Hc. simpl.
    by rewrite <- ?app_assoc.
Qed.

(** A pass of [_createOwnPartition] for a partition not yet in the cache,
    up to its creation statement. *)
Lemma createOwnPartition_one_run self cur x w params n sql :
  let sp := Db cur (Execute ("savepoint createPartitions_" +:+ n) None) None in
  let w2 := add_events w [HistoryLookup n false; Debug (LogSavepoint n); sp;
                          Debug (LogCreating n)] in
  partitionCreationParameters (class_of self) x = Ok params ->
  params !! "partitionName" = Some n ->
  n ∉ partitionCreationHistory w ->
  pyformat (partitionCreationSqlTemplate (class_of self)) params = Ok sql ->
  db (trace w ++ [HistoryLookup n false; Debug (LogSavepoint n)]) cur
     (Execute ("savepoint createPartitions_" +:+ n) None) = None ->
  _createOwnPartition_one partitionCreationSqlTemplate pyformat db self cur x w
  = match db (trace w2) cur (Execute sql None) with
    | None =>
        let w3 := mkWorld (trace w2 ++ [Db cur (Execute sql None) None; HistoryAdd n;
                                        Debug LogReleasing])
                          ({[n]} ∪ partitionCreationHistory w) in
        (try_except
           (execute db cur ("release savepoint createPartitions_" +:+ n))
           except_ProgrammingError
           (fun x =>
              debug (LogCreatingFailed n x) ;;
              execute db cur
                ("rollback to createPartitions_" +:+ n
                 +:+ "; release savepoint createPartitions_" +:+ n +:+ ";")) ;;
         commit db cur) w3
    | Some e =>
        let w3 := add_events w2 [Db cur (Execute sql None) (Some e)] in
        if except_ProgrammingError e
        then
          ((debug (LogCreatingFailed n e) ;;
            execute db cur
              ("rollback to createPartitions_" +:+ n
               +:+ "; release savepoint createPartitions_" +:+ n +:+ ";")) ;;
           commit db cur) w3
        else (Raise e, w3)
    end.
Proof.
  intros sp w2 Hparams Hn Hnew Hsql Hsp.
  unfold _createOwnPartition_one.
  unfold mbind at 1, M_bind at 1, bind at 1, lift at 1. rewrite Hparams, Hn.
  unfold mbind at 1, M_bind at 1, bind at 1, partitionWasCreated.
  rewrite bool_decide_eq_false_2 by exact Hnew.
  unfold mbind at 1, M_bind at 1, bind at 1, lift at 1. rewrite Hsql.
  unfold execute, commit, debug, emit, try_except, _createSelf,
    additionalCreationProcedures, markPartitionCreated, run_db,
    mbind, M_bind, bind, ret, raise, add_events in *.
  simpl in *. rewrite <- ?app_assoc. simpl. rewrite Hsp. simpl.
  rewrite <- ?app_assoc. simpl. fold sp.
  destruct (db (trace w ++ _) cur (Execute sql None)) as [e|] eqn:He; simpl.
  - destruct (except_ProgrammingError e); simpl; rewrite <- ?app_assoc; reflexivity.
  - rewrite <- ?app_assoc. simpl. reflexivity.
Qed.

End Recovery.

Section RecoveryTheorems.

Context (creationSqlText partitionCreationSqlTemplate : pyclass -> string)
        (pyformat : string -> gmap string string -> result string)
        (dependencyOrder :
           list (pyclass * list pyclass) -> option (list pyclass) -> result (list pyclass))
        (db : list event -> connection -> db_op -> option exn).

(** C2 (as amended): the guarded block of [DatabaseObject.create] and of
    [PartitionedTable._createOwnPartition] recovers every failure of class
    [ProgrammingError], whatever its cause (the object exists already, a
    syntax error, a missing table): after rolling back to the checkpoint
    and committing, the loop goes on with the remaining elements.  A
    failure of the creation statement of any other class is raised to the
    caller at once, the trace ending with the failed statement. *)
Theorem only_ProgrammingError_is_recovered :
  (forall self cur pre c post w w1 sql x,
     let obj := instance_for creationSqlText self c in
     let sp := Db cur (Execute ("savepoint creating_" +:+ pystr (name obj)) None) None in
     let failed := Db cur (Execute sql None) (Some x) in
     let rb := Db cur (Execute ("rollback to creating_" +:+ pystr (name obj)) None) None in
     getOrderedSetupList dependencyOrder (Some [class_of self]) = Ok (pre ++ c :: post) ->
     for_each pre (create_one creationSqlText db self cur) w = (Ok tt, w1) ->
     creationSql obj = Some sql ->
     db (trace w1) cur (Execute ("savepoint creating_" +:+ pystr (name obj)) None) = None ->
     db (trace w1 ++ [sp]) cur (Execute sql None) = Some x ->
     (except_ProgrammingError x = false ->
        create creationSqlText dependencyOrder db self cur w
        = (Raise x, add_events w1 [sp; failed]))
     /\ (except_ProgrammingError x = true ->
         db (trace w1 ++ [sp; failed]) cur
            (Execute ("rollback to creating_" +:+ pystr (name obj)) None) = None ->
         db (trace w1 ++ [sp; failed; rb]) cur Commit = None ->
         create creationSqlText dependencyOrder db self cur w
         = for_each post (create_one creationSqlText db self cur)
             (add_events w1
                [sp; failed; rb; Db cur Commit None;
                 Debug (LogCreateExists (name self) (name obj))])))
  /\ (forall self cur pre x post w w1 params n sql e,
     let body := _createOwnPartition_one partitionCreationSqlTemplate pyformat db self cur in
     let sp := Db cur (Execute ("savepoint createPartitions_" +:+ n) None) None in
     let upto := [HistoryLookup n false; Debug (LogSavepoint n); sp;
                  Debug (LogCreating n); Db cur (Execute sql None) (Some e)] in
     let rb := Db cur (Execute ("rollback to createPartitions_" +:+ n
                                +:+ "; release savepoint createPartitions_" +:+ n +:+ ";")
                        None) None in
     for_each pre body (add_events w [Debug (LogInCreateOwnPartition (name self))])
       = (Ok tt, w1) ->
     partitionCreationParameters (class_of self) x = Ok params ->
     params !! "partitionName" = Some n ->
     n ∉ partitionCreationHistory w1 ->
     pyformat (partitionCreationSqlTemplate (class_of self)) params = Ok sql ->
     db (trace w1 ++ [HistoryLookup n false; Debug (LogSavepoint n)]) cur
        (Execute ("savepoint createPartitions_" +:+ n) None) = None ->
     db (trace w1 ++ [HistoryLookup n false; Debug (LogSavepoint n); sp;
                      Debug (LogCreating n)]) cur (Execute sql None) = Some e ->
     (except_ProgrammingError e = false ->
        _createOwnPartition partitionCreationSqlTemplate pyformat db self cur
          (pre ++ x :: post) w
        = (Raise e, add_events w1 upto))
     /\ (except_ProgrammingError e = true ->
         db (trace w1 ++ upto ++ [Debug (LogCreatingFailed n e)]) cur
            (Execute ("rollback to createPartitions_" +:+ n
                      +:+ "; release savepoint createPartitions_" +:+ n +:+ ";") None)
           = None ->
         db (trace w1 ++ upto ++ [Debug (LogCreatingFailed n e); rb]) cur Commit = None ->
         _createOwnPartition partitionCreationSqlTemplate pyformat db self cur
           (pre ++ x :: post) w
         = for_each post body
             (add_events w1
                (upto ++ [Debug (LogCreatingFailed n e); rb; Db cur Commit None])))).
Proof.
  split.
  - intros self cur pre c post w w1 sql x obj sp failed rb HL Hpre Hsql Hsp Hx.
    unfold create. rewrite HL.
    change ((lift (Ok (pre ++ c :: post))
             ≫= fun l => for_each l (create_one creationSqlText db self cur)) w)
      with (for_each (pre ++ c :: post) (create_one creationSqlText db self cur) w).
    rewrite for_each_app, Hpre.
    destruct (create_one_failure creationSqlText db self cur c w1 sql x Hsql Hsp Hx)
      as [Hno Hyes].
    split.
    + intros Hpe. by rewrite (Hno Hpe).
    + intros Hpe Hrb Hc. by rewrite (Hyes Hpe Hrb Hc).
  - intros self cur pre x post w w1 params n sql e body sp upto rb
      Hpre Hparams Hn Hnew Hsql Hsp He.
    subst body sp upto rb. cbv zeta in *. unfold _createOwnPartition.
    change ((debug (LogInCreateOwnPartition (name self))
             ≫= fun _ => for_each (pre ++ x :: post) ?b) w)
      with (for_each (pre ++ x :: post) b
              (add_events w [Debug (LogInCreateOwnPartition (name self))])).
    rewrite for_each_app, Hpre.
    rewrite (createOwnPartition_one_run partitionCreationSqlTemplate pyformat db
               self cur x w1 params n sql Hparams Hn Hnew Hsql Hsp).
    unfold add_events in *. simpl in *. rewrite <- ?app_assoc. simpl.
    rewrite He. split; intros Hpe; rewrite Hpe.
    + rewrite <- ?app_assoc. reflexivity.
    + intros Hrb Hc.
      unfold execute, commit, debug, emit, run_db, mbind, M_bind, bind. simpl.
      rewrite <- ?app_assoc. simpl. rewrite Hrb. simpl.
      rewrite <- ?app_assoc. simpl. rewrite Hc. simpl.
      rewrite <- ?app_assoc. reflexivity.
Qed.

End RecoveryTheorems.

Section Marking.

Context (partitionCreationSqlTemplate : pyclass -> string)
        (pyformat : string -> gmap string string -> result string)
        (db : list event -> connection -> db_op -> option exn).

(** C4 (as amended): in a pass of [_createOwnPartition] for a partition
    name that is not in the cache, the name is marked exactly when the
    creation statement succeeded (the mark then stays, whatever the
    release and the commit do).  When the creation statement raises, the
    cache is left as it was: a partition found to exist already is
    recovered like any [ProgrammingError], and the pass ends normally
    without marking it.  [_createOwnPartition] on a single key is this
    pass after its opening log line. *)
Theorem partition_marked_iff_created (self : DatabaseObject) (cur : connection)
  (x : window) (w : world) (params : gmap string string) (n sql : string) :
  let sp := Db cur (Execute ("savepoint createPartitions_" +:+ n) None) None in
  let upto := [HistoryLookup n false; Debug (LogSavepoint n); sp; Debug (LogCreating n)] in
  let rb := Db cur (Execute ("rollback to createPartitions_" +:+ n
                             +:+ "; release savepoint createPartitions_" +:+ n +:+ ";")
                     None) None in
  let pass := _createOwnPartition_one partitionCreationSqlTemplate pyformat db self cur x in
  partitionCreationParameters (class_of self) x = Ok params ->
  params !! "partitionName" = Some n ->
  n ∉ partitionCreationHistory w ->
  pyformat (partitionCreationSqlTemplate (class_of self)) params = Ok sql ->
  db (trace w ++ [HistoryLookup n false; Debug (LogSavepoint n)]) cur
     (Execute ("savepoint createPartitions_" +:+ n) None) = None ->
  (db (trace w ++ upto) cur (Execute sql None) = None ->
     n ∈ partitionCreationHistory (pass w).2)
  /\ (forall e, db (trace w ++ upto) cur (Execute sql None) = Some e ->
     partitionCreationHistory (pass w).2 = partitionCreationHistory w
     /\ n ∉ partitionCreationHistory (pass w).2)
  /\ (forall e, db (trace w ++ upto) cur (Execute sql None) = Some e ->
     except_ProgrammingError e = true ->
     db (trace w ++ upto ++ [Db cur (Execute sql None) (Some e);
                             Debug (LogCreatingFailed n e)]) cur
        (Execute ("rollback to createPartitions_" +:+ n
                  +:+ "; release savepoint createPartitions_" +:+ n +:+ ";") None)
       = None ->
     db (trace w ++ upto ++ [Db cur (Execute sql None) (Some e);
                             Debug (LogCreatingFailed n e); rb]) cur Commit = None ->
     pass w
     = (Ok tt,
        add_events w
          (upto ++ [Db cur (Execute sql None) (Some e); Debug (LogCreatingFailed n e);
                    rb; Db cur Commit None])))
  /\ (forall w0,
     _createOwnPartition partitionCreationSqlTemplate pyformat db self cur [x] w0
     = match pass (add_events w0 [Debug (LogInCreateOwnPartition (name self))]) with
       | (Ok _, w') => (Ok tt, w')
       | (Raise e, w') => (Raise e, w')
       end).
Proof.
  intros sp upto rb pass Hparams Hn Hnew Hsql Hsp.
  subst pass rb upto sp. cbv zeta.
  rewrite (createOwnPartition_one_run partitionCreationSqlTemplate pyformat db
             self cur x w params n sql Hparams Hn Hnew Hsql Hsp).
  unfold add_events. simpl.
  split; [| split; [| split]].
  - intros Hok. rewrite Hok.
    unfold execute, commit, debug, emit, try_except, run_db, mbind, M_bind, bind. simpl.
    repeat (match goal with
            | |- context [match db ?t ?c ?o with _ => _ end] => destruct (db t c o)
            | |- context [if except_ProgrammingError ?e then _ else _] =>
                destruct (except_ProgrammingError e)
            end; simpl);
      set_solver.
  - intros e He. rewrite He.
    unfold execute, commit, debug, emit, run_db, mbind, M_bind, bind. simpl.
    repeat (match goal with
            | |- context [match db ?t ?c ?o with _ => _ end] => destruct (db t c o)
            | |- context [if except_ProgrammingError ?e then _ else _] =>
                destruct (except_ProgrammingError e)
            end; simpl);
      (split; [reflexivity | exact Hnew]).
  - intros e He Hpe Hrb Hc. rewrite He, Hpe.
    unfold execute, commit, debug, emit, run_db, mbind, M_bind, bind. simpl.
    rewrite <- ?app_assoc. simpl. rewrite <- ?app_assoc in Hrb. simpl in Hrb.
    rewrite Hrb. simpl. rewrite <- ?app_assoc. simpl.
    rewrite <- ?app_assoc in Hc. simpl in Hc. rewrite Hc. simpl.
    rewrite <- ?app_assoc. reflexivity.
  - intros w0. reflexivity.
Qed.

End Marking.

(** C4, as stated, fails: the partition [reports_20240603] exists already,
    the creation statement is answered with "relation already exists", the
    call ends normally, and the name is not in the cache afterwards. *)
Lemma existing_partition_not_marked :
  let monday := date_of 2024 6 3 in
  let run := Example._createOwnPartition
               (Example.db_raising Example.is_create Example.duplicate_table)
               (Example.new ReportsTable) 0%nat [(monday, shift_days monday 7)] Example.w0 in
  run.1 = Ok tt
  /\ (partitionWasCreated "reports_20240603" Example.w0).1 = Ok false
  /\ (partitionWasCreated "reports_20240603" run.2).1 = Ok false
  /\ "reports_20240603" ∉ partitionCreationHistory run.2.
Proof.
  cbv zeta. repeat (split; [vm_compute; reflexivity|]).
  apply (proj1 (bool_decide_eq_false _)). vm_compute. reflexivity.
Qed.

(** ** Runs on the example catalogue *)

(** C1, as stated, fails at the end of the calendar: for
    [minDate = maxDate = 9999-12-31], a Friday, the Monday after it is not a
    date, and the first step of the iterator raises [OverflowError]
    without yielding any pair. *)
Lemma last_week_has_no_window :
  let d := date_of 9999 12 31 in
  valid_date d
  /\ date_leb d d = true
  /\ mondayPairsIteratorFactory (PyDate d) (PyDate d) = Ok (GenCreated d d)
  /\ gen_next (GenCreated d d) = (NextRaise OverflowError, GenFinished)
  /\ list_of_iterator (GenCreated d d) = Raise OverflowError.
Proof.
  cbv zeta. split.
  - repeat split; vm_compute; try reflexivity; discriminate.
  - repeat split; vm_compute; reflexivity.
Qed.

Lemma mondayPairs_windows_witness :
  let minDate := date_of 2024 6 5 in
  let maxDate := date_of 2024 6 12 in
  date_leb minDate maxDate = true
  /\ exists ws rest,
       mondayPairsIteratorFactory (PyDate minDate) (PyDate maxDate)
         = Ok (GenCreated minDate maxDate)
       /\ list_of_iterator (GenCreated minDate maxDate) = Ok ws
       /\ (let start := shift_days minDate (- weekday minDate) in
           ws = (start, shift_days start 7) :: rest
           /\ weekday start = 0
           /\ date_leb start minDate = true
           /\ date_ltb (shift_days minDate (-7)) start = true)
       /\ Forall (fun w => snd w = shift_days (fst w) 7) ws
       /\ (forall (i : nat) w w',
             ws !! i = Some w -> ws !! S i = Some w' -> snd w = fst w')
       /\ (exists wl, last ws = Some wl
             /\ date_leb (fst wl) maxDate = true
             /\ date_ltb maxDate (snd wl) = true).
Proof.
  cbv zeta. split; [reflexivity|].
  apply (mondayPairs_windows (date_of 2024 6 5) (date_of 2024 6 12)).
  - repeat split; vm_compute; try reflexivity; discriminate.
  - repeat split; vm_compute; try reflexivity; discriminate.
  - reflexivity.
  - reflexivity.
  - vm_compute. reflexivity.
Defined.

Lemma mondayPairsIteratorFactory_range_witness :
  let minDate := date_of 2024 6 12 in
  let maxDate := date_of 2024 6 5 in
  is_datetime minDate = is_datetime maxDate
  /\ date_ltb maxDate minDate = true
  /\ mondayPairsIteratorFactory (PyDate minDate) (PyDate maxDate) = Raise ValueError
  /\ mondayPairsIteratorFactory (PyDate maxDate) (PyDate minDate)
     = Ok (GenCreated maxDate minDate).
Proof.
  cbv zeta. split; [reflexivity|]. split; [reflexivity|]. split.
  - apply (mondayPairsIteratorFactory_range (date_of 2024 6 12) (date_of 2024 6 5));
      reflexivity.
  - apply (mondayPairsIteratorFactory_range (date_of 2024 6 5) (date_of 2024 6 12));
      reflexivity.
Defined.

Lemma create_runs_setup_closure_witness :
  let self := Example.new SignatureProductdimsTable in
  let L := [OsDimsTable; ReleaseEnum; ProductDimsTable; TopCrashesBySignatureTable;
            SignatureProductdimsTable] in
  let db := Example.db_raising Example.is_create Example.duplicate_table in
  getOrderedSetupList Example.dependencyOrder (Some [class_of self]) = Ok L
  /\ dependencies_first databaseDependenciesForSetup L
  /\ class_of self ∈ L
  /\ (Example.create db self 0%nat Example.w0).1 = Ok tt
  /\ exists segs rest,
       extends Example.w0 (Example.create db self 0%nat Example.w0).2 (concat segs ++ rest)
       /\ match (Example.create db self 0%nat Example.w0).1 with
          | Ok _ =>
              rest = []
              /\ Forall2 (fun c seg =>
                   creation_step 0%nat (name self)
                     (instance_for Example.creationSqlText self c) seg) L segs
              /\ (exists seg, seg ∈ segs /\ creation_step 0%nat (name self) self seg)
              /\ (forall (j : nat) c d,
                    L !! j = Some c -> d ∈ deps_of databaseDependenciesForSetup c ->
                    exists (i : nat) seg_d seg_c,
                      (i < j)%nat /\ L !! i = Some d
                      /\ segs !! i = Some seg_d /\ segs !! j = Some seg_c
                      /\ creation_step 0%nat (name self)
                           (instance_for Example.creationSqlText self d) seg_d
                      /\ creation_step 0%nat (name self)
                           (instance_for Example.creationSqlText self c) seg_c)
          | Raise _ =>
              exists n, (n < length L)%nat
                /\ Forall2 (fun c seg =>
                     creation_step 0%nat (name self)
                       (instance_for Example.creationSqlText self c) seg)
                     (take n L) segs
          end.
Proof.
  cbv zeta. split; [vm_compute; reflexivity|]. split; [vm_compute; reflexivity|].
  split; [simpl; set_solver|]. split; [vm_compute; reflexivity|].
  apply (create_runs_setup_closure Example.creationSqlText Example.dependencyOrder
           (Example.db_raising Example.is_create Example.duplicate_table)
           (Example.new SignatureProductdimsTable) 0%nat
           [OsDimsTable; ReleaseEnum; ProductDimsTable; TopCrashesBySignatureTable;
            SignatureProductdimsTable] Example.w0).
  - vm_compute. reflexivity.
  - vm_compute. reflexivity.
  - simpl. set_solver.
Defined.

(** C2, as stated, fails: a creation statement answered with a syntax error
    is recovered like an existing object, by [create] and by
    [_createOwnPartition]; both end normally and the error never reaches the
    caller. *)
Lemma syntax_error_is_swallowed :
  let db := Example.db_raising Example.is_create Example.syntax_error in
  let monday := date_of 2024 6 3 in
  Example.create db (Example.new ReleaseEnum) 0%nat Example.w0
  = (Ok tt,
     add_events Example.w0
       [ Db 0%nat (Execute "savepoint creating_release_enum" None) None;
         Db 0%nat (Execute "CREATE release_enum" None) (Some Example.syntax_error);
         Db 0%nat (Execute "rollback to creating_release_enum" None) None;
         Db 0%nat Commit None;
         Debug (LogCreateExists (Some "release_enum") (Some "release_enum")) ])
  /\ (Example._createOwnPartition db (Example.new ReportsTable) 0%nat
        [(monday, shift_days monday 7)] Example.w0).1 = Ok tt
  /\ In (Debug (LogCreatingFailed "reports_20240603" Example.syntax_error))
        (trace (Example._createOwnPartition db (Example.new ReportsTable) 0%nat
                  [(monday, shift_days monday 7)] Example.w0).2).
Proof.
  cbv zeta. split; [vm_compute; reflexivity|]. split; [vm_compute; reflexivity|].
  vm_compute. tauto.
Qed.

Lemma only_ProgrammingError_is_recovered_witness :
  let db := Example.db_raising Example.is_create Example.connection_failure in
  let monday := date_of 2024 6 3 in
  except_ProgrammingError Example.connection_failure = false
  /\ Example.create db (Example.new ProductDimsTable) 0%nat Example.w0
     = (Raise Example.connection_failure,
        add_events Example.w0
          [ Db 0%nat (Execute "savepoint creating_release_enum" None) None;
            Db 0%nat (Execute "CREATE release_enum" None)
               (Some Example.connection_failure) ])
  /\ (Example._createOwnPartition db (Example.new ReportsTable) 0%nat
        [(monday, shift_days monday 7)] Example.w0).1
     = Raise Example.connection_failure.
Proof.
  cbv zeta. split; [reflexivity|].
  pose proof (only_ProgrammingError_is_recovered Example.creationSqlText
                Example.partitionCreationSqlTemplate Example.pyformat Example.dependencyOrder
                (Example.db_raising Example.is_create Example.connection_failure))
    as [Hcreate Hpartition].
  split.
  - apply (Hcreate (Example.new ProductDimsTable) 0%nat [] ReleaseEnum [ProductDimsTable]
             Example.w0 Example.w0 "CREATE release_enum" Example.connection_failure);
      vm_compute; reflexivity.
  - edestruct (Hpartition (Example.new ReportsTable) 0%nat []
                 (date_of 2024 6 3, shift_days (date_of 2024 6 3) 7) []
                 Example.w0) as [Hraise _];
      [reflexivity | reflexivity | reflexivity | | reflexivity | reflexivity | reflexivity |].
    + simpl. set_solver.
    + exact (f_equal fst (Hraise eq_refl)).
Defined.

Lemma partition_marked_iff_created_witness :
  let monday := date_of 2024 6 3 in
  ("reports_20240603" ∉ partitionCreationHistory Example.w0)
  /\ ("reports_20240603"
      ∈ partitionCreationHistory
          (_createOwnPartition_one Example.partitionCreationSqlTemplate Example.pyformat
             Example.db_ok (Example.new ReportsTable) 0%nat
             (monday, shift_days monday 7) Example.w0).2).
Proof.
  cbv zeta. split; [set_solver|].
  eapply (partition_marked_iff_created Example.partitionCreationSqlTemplate Example.pyformat
            Example.db_ok (Example.new ReportsTable) 0%nat
            (date_of 2024 6 3, shift_days (date_of 2024 6 3) 7) Example.w0
            _ "reports_20240603");
    [reflexivity | vm_compute; reflexivity | set_solver | reflexivity | reflexivity
    | reflexivity].
Defined.

(** C6: the failing input.  [create] on an object that exists already: the
    creation statement is answered with "already exists", and the recovery
    rolls back to the checkpoint and commits.  No [release savepoint] is
    executed on this path, whereas the recovery of [_createOwnPartition]
    executes [rollback to ...; release savepoint ...;] before its commit. *)
Theorem create_recovery_without_release :
  let db := Example.db_raising Example.is_create Example.duplicate_table in
  let monday := date_of 2024 6 3 in
  Example.create db (Example.new ReleaseEnum) 0%nat Example.w0
  = (Ok tt,
     add_events Example.w0
       [ Db 0%nat (Execute "savepoint creating_release_enum" None) None;
         Db 0%nat (Execute "CREATE release_enum" None) (Some Example.duplicate_table);
         Db 0%nat (Execute "rollback to creating_release_enum" None) None;
         Db 0%nat Commit None;
         Debug (LogCreateExists (Some "release_enum") (Some "release_enum")) ])
  /\ ~ In (Db 0%nat (Execute "release savepoint creating_release_enum" None) None)
          (trace (Example.create db (Example.new ReleaseEnum) 0%nat Example.w0).2)
  /\ In (Db 0%nat
           (Execute
              "rollback to createPartitions_reports_20240603; release savepoint createPartitions_reports_20240603;"
              None) None)
        (trace (Example._createOwnPartition db (Example.new ReportsTable) 0%nat
                  [(monday, shift_days monday 7)] Example.w0).2).
Proof.
  cbv zeta. split; [vm_compute; reflexivity|]. split.
  - vm_compute. intros H. repeat (destruct H as [H|H]; [discriminate H|]). exact H.
  - vm_compute. tauto.
Qed.

(** ** [teardownDatabase] *)

Section Teardown.

Context (creationSqlText : pyclass -> string)
        (dependencyOrder :
           list (pyclass * list pyclass) -> option (list pyclass) -> result (list pyclass))
        (db : list event -> connection -> db_op -> option exn)
        (pg_connect : list event -> result connection).

Lemma drop_new c conn :
  drop db (new creationSqlText c) conn
  = match drop_statement c with
    | Some s => execute db conn s
    | None => ret tt
    end.
Proof. by destruct c. Qed.

Lemma drops_ok_cons conn c cs :
  drops_ok conn (c :: cs)
  = match drop_statement c with
    | Some s => Db conn (Execute s None) None :: drops_ok conn cs
    | None => drops_ok conn cs
    end.
Proof. unfold drops_ok. simpl. by destruct (drop_statement c). Qed.

(** The loop of drops: either every class was handled, or the loop stopped
    at the first statement that raised. *)
Lemma for_each_drop conn L : forall w,
  for_each L (fun c : pyclass => drop db (new creationSqlText c) conn) w
  = (Ok tt, add_events w (drops_ok conn L))
  \/ exists (k : nat) c s x,
       L !! k = Some c /\ drop_statement c = Some s
       /\ for_each L (fun c : pyclass => drop db (new creationSqlText c) conn) w
          = (Raise x,
             add_events w (drops_ok conn (take k L) ++ [Db conn (Execute s None) (Some x)])).
Proof.
  induction L as [|c L IH]; intros w.
  - left. unfold add_events. simpl. by rewrite app_nil_r; destruct w.
  - cbn [for_each]. rewrite drop_new, drops_ok_cons.
    destruct (drop_statement c) as [s|] eqn:Hs.
    + unfold execute. rewrite run_db_bind. cbv zeta.
      destruct (db (trace w) conn (Execute s None)) as [x|] eqn:Hx.
      * right. exists O, c, s, x. by repeat split.
      * destruct (IH (mkWorld (trace w ++ [Db conn (Execute s None) None])
                        (partitionCreationHistory w)))
          as [Hok | (k & c' & s' & x & Hk & Hs' & Hfail)].
        -- left. rewrite Hok. unfold add_events. simpl. by rewrite <- app_assoc.
        -- right. exists (S k), c', s', x. split; [exact Hk|]. split; [exact Hs'|].
           rewrite Hfail. unfold add_events.
           change (take (S k) (c :: L)) with (c :: take k L).
           rewrite drops_ok_cons, Hs. simpl. by rewrite <- app_assoc.
    + unfold mbind, M_bind, bind, ret.
      destruct (IH w) as [Hok | (k & c' & s' & x & Hk & Hs' & Hfail)].
      * left. exact Hok.
      * right. exists (S k), c', s', x. split; [exact Hk|]. split; [exact Hs'|].
        rewrite Hfail. change (take (S k) (c :: L)) with (c :: take k L).
        by rewrite drops_ok_cons, Hs.
Qed.

(** [teardownDatabase] after a successful connection, by the outcome of
    the loop of drops and of the commit. *)
Lemma teardown_run (w : world) (conn : connection) (L : list pyclass) :
  pg_connect (trace w) = Ok conn ->
  getOrderedSetupList dependencyOrder None = Ok L ->
  teardownDatabase creationSqlText dependencyOrder db pg_connect w
  = let handler x :=
      rollback db conn ≫= fun _ => reportExceptionAndContinue x in
    match for_each L (fun c : pyclass => drop db (new creationSqlText c) conn)
            (add_events w [Connect (Ok conn)]) with
    | (Ok _, w2) =>
        match db (trace w2) conn Commit with
        | None => (Ok tt, mkWorld (trace w2 ++ [Db conn Commit None]) ∅)
        | Some x => handler x (add_events w2 [Db conn Commit (Some x)])
        end
    | (Raise x, w2) => handler x w2
    end.
Proof.
  intros Hconn HL. unfold teardownDatabase, try_except, connectToDatabase, commit,
    reset_partitionCreationHistory, run_db, lift, mbind, M_bind, bind, add_events.
  rewrite Hconn, HL. simpl.
  destruct (for_each L _ _) as [[[]|x] w2]; [|reflexivity].
  by destruct (db (trace w2) conn Commit).
Qed.

(** C7 (as amended): once connected, [teardownDatabase] drops the objects of
    the classes in setup order, each with its own cascading drop statement
    (the view [branches] has none).  If every drop and the commit succeed,
    the partition cache is cleared.  Otherwise the first statement that
    raises ends the loop: no further object is dropped, the transaction is
    rolled back, the error is reported and not raised to the caller, and the
    partition cache is left as it was. *)
Theorem teardown_stops_at_first_error (w : world) (conn : connection) (L : list pyclass) :
  pg_connect (trace w) = Ok conn ->
  getOrderedSetupList dependencyOrder None = Ok L ->
  let w1 := add_events w [Connect (Ok conn)] in
  teardownDatabase creationSqlText dependencyOrder db pg_connect w
  = (Ok tt, mkWorld (trace w1 ++ drops_ok conn L ++ [Db conn Commit None]) ∅)
  \/ exists done x,
       ((exists (k : nat) c s,
           L !! k = Some c /\ drop_statement c = Some s
           /\ done = drops_ok conn (take k L) ++ [Db conn (Execute s None) (Some x)])
        \/ done = drops_ok conn L ++ [Db conn Commit (Some x)])
       /\ teardownDatabase creationSqlText dependencyOrder db pg_connect w
          = match db (trace w1 ++ done) conn Rollback with
            | None =>
                (Ok tt,
                 add_events w1 (done ++ [Db conn Rollback None; ReportException x]))
            | Some e =>
                (Raise e, add_events w1 (done ++ [Db conn Rollback (Some e)]))
            end.
Proof.
  intros Hconn HL w1.
  rewrite (teardown_run w conn L Hconn HL). cbv zeta. fold w1.
  unfold rollback, reportExceptionAndContinue, emit, run_db, mbind, M_bind, bind.
  destruct (for_each_drop conn L w1) as [Hok | (k & c & s & x & Hk & Hs & Hfail)].
  - rewrite Hok. unfold add_events. simpl.
    destruct (db ((trace w ++ [Connect (Ok conn)]) ++ drops_ok conn L) conn Commit)
      as [x|] eqn:Hc.
    + right. exists (drops_ok conn L ++ [Db conn Commit (Some x)]), x.
      split; [by right|]. simpl. rewrite <- ?app_assoc. simpl.
      destruct (db _ conn Rollback); simpl; rewrite <- ?app_assoc; reflexivity.
    + left. rewrite <- ?app_assoc. reflexivity.
  - right. exists (drops_ok conn (take k L) ++ [Db conn (Execute s None) (Some x)]), x.
    split; [left; by exists k, c, s|].
    rewrite Hfail. unfold add_events. simpl. rewrite <- ?app_assoc. simpl.
    destruct (db _ conn Rollback); simpl; rewrite <- ?app_assoc; reflexivity.
Qed.

End Teardown.

(** C7, as stated, fails: the drop of [processors], the third object,
    cannot get its lock.  The drops of the remaining objects are never
    attempted, the transaction is rolled back, and the partition cache still
    holds its entry. *)
Lemma teardown_aborts_on_failed_drop :
  let db := Example.db_raising (Example.is_drop_of "processors") Example.lock_not_available in
  let run := Example.teardownDatabase db Example.w_marked in
  run.1 = Ok tt
  /\ trace run.2
     = [ Connect (Ok 0%nat);
         Db 0%nat (Execute "drop table if exists reports cascade" None) None;
         Db 0%nat (Execute "drop table if exists priorityjobs cascade" None) None;
         Db 0%nat (Execute "drop table if exists processors cascade" None)
            (Some Example.lock_not_available);
         Db 0%nat Rollback None;
         ReportException Example.lock_not_available ]
  /\ (partitionWasCreated "reports_20240603" run.2).1 = Ok true.
Proof. cbv zeta. repeat split; vm_compute; reflexivity. Qed.

Lemma teardown_stops_at_first_error_witness :
  let db := Example.db_raising (Example.is_drop_of "processors") Example.lock_not_available in
  let w1 := add_events Example.w_marked [Connect (Ok 0%nat)] in
  exists L,
    Example.pg_connect (trace Example.w_marked) = Ok 0%nat
    /\ getOrderedSetupList Example.dependencyOrder None = Ok L
    /\ (Example.teardownDatabase db Example.w_marked
        = (Ok tt, mkWorld (trace w1 ++ drops_ok 0%nat L ++ [Db 0%nat Commit None]) ∅)
        \/ exists done x,
             ((exists (k : nat) c s,
                 L !! k = Some c /\ drop_statement c = Some s
                 /\ done = drops_ok 0%nat (take k L) ++ [Db 0%nat (Execute s None) (Some x)])
              \/ done = drops_ok 0%nat L ++ [Db 0%nat Commit (Some x)])
             /\ Example.teardownDatabase db Example.w_marked
                = match db (trace w1 ++ done) 0%nat Rollback with
                  | None =>
                      (Ok tt,
                       add_events w1 (done ++ [Db 0%nat Rollback None; ReportException x]))
                  | Some e =>
                      (Raise e, add_events w1 (done ++ [Db 0%nat Rollback (Some e)]))
                  end).
Proof.
  cbv zeta. eexists. split; [reflexivity|]. split; [vm_compute; reflexivity|].
  apply (teardown_stops_at_first_error Example.creationSqlText Example.dependencyOrder
           (Example.db_raising (Example.is_drop_of "processors") Example.lock_not_available)
           Example.pg_connect Example.w_marked 0%nat).
  - reflexivity.
  - vm_compute. reflexivity.
Defined.

(** ** [PartitionedTable.insert] *)

(** The iterator for a single day yields the one week of that day. *)
Lemma single_window d :
  valid_date d -> ordinal d < LAST_MONDAY ->
  let start := shift_days d (- weekday d) in
  mondayPairsIteratorFactory (PyDate d) (PyDate d) = Ok (GenCreated d d)
  /\ gen_next (GenCreated d d)
     = (Yield (start, shift_days start 7), GenSuspended (shift_days start 7) d)
  /\ list_of_iterator (GenCreated d d) = Ok [(start, shift_days start 7)].
Proof.
  intros (Hr & _ & _) Hhi start.
  pose proof (weekday_range d) as Hwd.
  pose proof (monday_on_or_before d ltac:(lia)) as Hmon.
  assert (date_leb start d = true) as Hle by (subst start; date_cmp).
  assert (1 <= ordinal start + 7 <= MAXORDINAL) as Hnext.
  { apply monday_next_in_range; [apply weekday_monday_before|].
    subst start; simpl. lia. }
  split; [|split].
  - unfold mondayPairsIteratorFactory. rewrite date_lt_same_class by reflexivity.
    assert (date_ltb d d = false) as -> by date_cmp. reflexivity.
  - rewrite gen_next_created by exact Hr. fold start. unfold loop_from.
    rewrite date_le_same_class by reflexivity. rewrite Hle.
    by rewrite add_days_ok by exact Hnext.
  - pose proof (list_of_iterator_collect (GenCreated d d)) as Hcol.
    rewrite collect_created in Hcol by exact Hr. fold start in Hcol.
    apply collect_weeks in Hcol as (ws & Hws & Hweeks);
      [| reflexivity | apply weekday_monday_before | exact Hmon | exact Hhi].
    rewrite Hws. f_equal.
    inversion Hweeks as [? Hend|? rest _ Hrest]; subst; [congruence|].
    f_equal. inversion Hrest as [|? ? Hmore]; subst; [reflexivity|].
    exfalso. apply date_leb_ordinal in Hmore. subst start. simpl in Hmore. lia.
Qed.

Section Insert.

Context (creationSqlText partitionCreationSqlTemplate insertSqlText : pyclass -> string)
        (pyformat : string -> gmap string string -> result string)
        (dependencyOrder :
           list (pyclass * list pyclass) -> option (list pyclass) -> result (list pyclass))
        (db : list event -> connection -> db_op -> option exn).

Lemma run_db_step {A} conn op (k : unit -> M A) w :
  (run_db db conn op ≫= k) w
  = match db (trace w) conn op with
    | None => k tt (add_events w [Db conn op None])
    | Some e => (Raise e, add_events w [Db conn op (Some e)])
    end.
Proof. rewrite run_db_bind. cbv zeta. by destruct (db (trace w) conn op). Qed.

Lemma debug_step {A} m (k : unit -> M A) w :
  (debug m ≫= k) w = k tt (add_events w [Debug m]).
Proof. reflexivity. Qed.

Lemma lift_step {A B} (a : A) (k : A -> M B) w : (lift (Ok a) ≫= k) w = k a w.
Proof. reflexivity. Qed.

Lemma alternateCursor_step {A} alt (k : connection -> M A) w c :
  alt (trace w) = Ok c ->
  (call_alternateCursorFunction alt ≫= k) w = k c (add_events w [AltCursor (Ok c)]).
Proof.
  intros H. unfold mbind, M_bind, bind, call_alternateCursorFunction. by rewrite H.
Qed.

Lemma try_except_step {A B} (body : M A) catches handler (k : A -> M B) w :
  (try_except body catches handler ≫= k) w
  = match body w with
    | (Ok a, w') => k a w'
    | (Raise e, w') =>
        if catches e then (handler e ≫= k) w' else (Raise e, w')
    end.
Proof.
  unfold mbind, M_bind, bind, try_except.
  destruct (body w) as [[a|e] w']; [reflexivity|]. by destruct (catches e).
Qed.

(** C3 (as amended): when the first insert attempt is answered with a
    [ProgrammingError] (and the rollback to the checkpoint, the commit and
    the alternate cursor succeed), [insert] makes exactly one call of
    [createPartitions], on the alternate cursor, with an iterator that holds
    exactly the one week of the partitioning value.  If that call raises a
    [DatabaseError] this is logged and not raised; any other exception of
    the call is raised to the caller and the insert is not retried.
    Otherwise the original insert statement is executed exactly once more on
    the original cursor and its outcome is the outcome of [insert]: a second
    failure is raised to the caller, nothing follows it. *)
Theorem insert_creates_partition_and_retries_once
  (self : DatabaseObject) (cur : connection) (r : row)
  (alt : list event -> result connection) (kwargs : gmap string pyval) (w : world)
  (d : pydate) (params : gmap string string) (n : string) (x : exn) (altCursor : connection) :
  let start := shift_days d (- weekday d) in
  let week := (start, shift_days start 7) in
  let insertSql := replace "TABLENAME" n (insertSqlText (class_of self)) in
  let sp := Db cur (Execute ("savepoint " +:+ n) None) None in
  let failed := Db cur (Execute insertSql (Some r)) (Some x) in
  let rb := Db cur (Execute ("rollback to " +:+ n +:+ "; release savepoint " +:+ n +:+ ";")
                      None) None in
  let recovery := [sp; failed; Debug (LogInsertFailed x); rb; Db cur Commit None;
                   AltCursor (Ok altCursor)] in
  let retry w' :=
    (match db (trace w') cur (Execute insertSql (Some r)) with
     | None => Ok tt
     | Some e => Raise e
     end,
     add_events w' [Db cur (Execute insertSql (Some r))
                       (db (trace w') cur (Execute insertSql (Some r)))]) in
  kwargs !! "date_processed" = Some (PyDate d) ->
  valid_date d -> ordinal d < LAST_MONDAY ->
  partitionCreationParameters (class_of self) week = Ok params ->
  params !! "partitionName" = Some n ->
  db (trace w) cur (Execute ("savepoint " +:+ n) None) = None ->
  db (trace w ++ [sp]) cur (Execute insertSql (Some r)) = Some x ->
  except_ProgrammingError x = true ->
  db (trace w ++ [sp; failed; Debug (LogInsertFailed x)]) cur
     (Execute ("rollback to " +:+ n +:+ "; release savepoint " +:+ n +:+ ";") None) = None ->
  db (trace w ++ [sp; failed; Debug (LogInsertFailed x); rb]) cur Commit = None ->
  alt (trace w ++ [sp; failed; Debug (LogInsertFailed x); rb; Db cur Commit None])
    = Ok altCursor ->
  list_of_iterator (GenCreated d d) = Ok [week]
  /\ insert creationSqlText partitionCreationSqlTemplate insertSqlText pyformat
       dependencyOrder db self cur r alt kwargs w
     = match createPartitions creationSqlText partitionCreationSqlTemplate pyformat
               dependencyOrder db self altCursor (GenCreated d d)
               (add_events w recovery) with
       | (Ok _, w') => retry (add_events w' [Debug (LogSecondInsert (name self))])
       | (Raise e, w') =>
           if except_DatabaseError e
           then retry (add_events w' [Debug (LogCreatePartitionsFailed n e);
                                      Debug (LogSecondInsert (name self))])
           else (Raise e, w')
       end.
Proof.
  intros start week insertSql sp failed rb recovery retry
    Hkw Hvalid Hhi Hparams Hn Hsp Hfail Hpe Hrb Hcommit Halt.
  destruct (single_window d Hvalid Hhi) as (Hfactory & Hnext & Hlist).
  subst retry recovery rb failed sp insertSql week start. cbv zeta in *.
  split; [exact Hlist|].
  unfold insert. rewrite Hkw, Hfactory, lift_step.
  unfold first_of. rewrite Hnext. cbn [fst]. rewrite lift_step, Hparams, lift_step, Hn.
  unfold try_except at 1. unfold execute, execute_row, commit.
  rewrite run_db_step, Hsp, run_db_step, trace_add_events, Hfail, Hpe.
  rewrite debug_step, run_db_step, ?add_events_app, trace_add_events. cbn [app].
  rewrite Hrb.
  rewrite run_db_step, ?add_events_app, trace_add_events. cbn [app].
  rewrite Hcommit, ?add_events_app. cbn [app].
  rewrite (alternateCursor_step alt _ _ altCursor) by exact Halt.
  rewrite lift_step, try_except_step, ?add_events_app. cbn [app].
  destruct (createPartitions _ _ _ _ _ _ _ _ _) as [[[]|e] w'].
  - reflexivity.
  - destruct (except_DatabaseError e); [|reflexivity].
    rewrite !debug_step, (add_events_app w' [_] [_]). reflexivity.
Qed.

End Insert.

(** C3, as stated, fails: the first insert attempt is answered with a unique
    violation, an [IntegrityError].  [insert] raises it at once: no
    partition is created and the insert is not retried. *)
Lemma integrity_error_is_not_retried :
  let db := Example.db_raising Example.is_insert Example.unique_violation in
  Example.insert db (Example.new FramesTable) 0%nat ["row"]
    Example.alternateCursorFunction Example.kwargs Example.w0
  = (Raise Example.unique_violation,
     add_events Example.w0
       [ Db 0%nat (Execute "savepoint frames_20240603" None) None;
         Db 0%nat (Execute "insert into frames_20240603 values (%s)" (Some ["row"]))
            (Some Example.unique_violation) ]).
Proof. vm_compute. reflexivity. Qed.

Lemma insert_creates_partition_and_retries_once_witness :
  let d := Example.wednesday in
  let start := shift_days d (- weekday d) in
  let self := Example.new FramesTable in
  let x := Pg ProgrammingError "42P01" in
  let insertSql := "insert into frames_20240603 values (%s)" in
  let recovery :=
    [ Db 0%nat (Execute "savepoint frames_20240603" None) None;
      Db 0%nat (Execute insertSql (Some ["row"])) (Some x);
      Debug (LogInsertFailed x);
      Db 0%nat
        (Execute "rollback to frames_20240603; release savepoint frames_20240603;" None)
        None;
      Db 0%nat Commit None;
      AltCursor (Ok 1%nat) ] in
  let retry w' :=
    (match Example.db_partitioned (trace w') 0%nat (Execute insertSql (Some ["row"])) with
     | None => Ok tt
     | Some e => Raise e
     end,
     add_events w'
       [Db 0%nat (Execute insertSql (Some ["row"]))
           (Example.db_partitioned (trace w') 0%nat (Execute insertSql (Some ["row"])))]) in
  Example.kwargs !! "date_processed" = Some (PyDate d)
  /\ (Example.insert Example.db_partitioned self 0%nat ["row"]
        Example.alternateCursorFunction Example.kwargs Example.w0).1 = Ok tt
  /\ list_of_iterator (GenCreated d d) = Ok [(start, shift_days start 7)]
  /\ Example.insert Example.db_partitioned self 0%nat ["row"]
       Example.alternateCursorFunction Example.kwargs Example.w0
     = match Example.createPartitions Example.db_partitioned self 1%nat (GenCreated d d)
               (add_events Example.w0 recovery) with
       | (Ok _, w') => retry (add_events w' [Debug (LogSecondInsert (name self))])
       | (Raise e, w') =>
           if except_DatabaseError e
           then retry (add_events w' [Debug (LogCreatePartitionsFailed "frames_20240603" e);
                                      Debug (LogSecondInsert (name self))])
           else (Raise e, w')
       end.
Proof.
  cbv zeta. split; [reflexivity|]. split; [vm_compute; reflexivity|].
  eapply (insert_creates_partition_and_retries_once Example.creationSqlText
            Example.partitionCreationSqlTemplate Example.insertSqlText Example.pyformat
            Example.dependencyOrder Example.db_partitioned
            (Example.new FramesTable) 0%nat ["row"] Example.alternateCursorFunction
            Example.kwargs Example.w0 Example.wednesday _ "frames_20240603"
            (Pg ProgrammingError "42P01") 1%nat).
  - reflexivity.
  - repeat split; vm_compute; try reflexivity; discriminate.
  - vm_compute. reflexivity.
  - reflexivity.
  - vm_compute. reflexivity.
  - reflexivity.
  - vm_compute. reflexivity.
  - reflexivity.
  - reflexivity.
  - reflexivity.
  - reflexivity.
Defined.

(** ** More on the window generator *)

Lemma collect_more_fuel n : forall g r m,
  collect n g = Some r -> (n <= m)%nat -> collect m g = Some r.
Proof.
  induction n as [|n IH]; intros g r m Hr Hm; [discriminate|].
  destruct m as [|m]; [lia|].
  simpl in *. destruct (gen_next g) as [[w| |e] g']; try exact Hr.
  destruct (collect n g') as [r'|] eqn:Hrec; [|discriminate].
  rewrite (IH g' r' m Hrec) by lia. exact Hr.
Qed.

(** X1: advancing the iterator to its end always terminates, whatever the
    two dates: because dates end at [date.max], [gen_fuel g] steps are
    enough to reach the end of the loop or an exception, and further steps
    do not change the outcome. *)
Theorem iteration_terminates (g : generator) (n : nat) :
  (gen_fuel g <= n)%nat -> collect n g = Some (list_of_iterator g).
Proof.
  intros Hn. eapply collect_more_fuel; [apply list_of_iterator_collect | exact Hn].
Qed.

Lemma iteration_terminates_witness :
  let g := GenCreated (date_of 9999 12 1) (date_of 9999 12 15) in
  (gen_fuel g <= 10)%nat
  /\ collect 10 g = Some (list_of_iterator g).
Proof.
  cbv zeta. split; [apply Nat.leb_le; vm_compute; reflexivity|].
  apply (iteration_terminates (GenCreated (date_of 9999 12 1) (date_of 9999 12 15)) 10).
  apply Nat.leb_le. vm_compute. reflexivity.
Defined.


Lemma weeks_starts maxDate aDate ws :
  weeks maxDate aDate ws ->
  Forall (fun w => exists k : Z, 0 <= k /\ fst w = shift_days aDate (7 * k)) ws.
Proof.
  induction 1 as [|aDate ws Hle Hws IH]; constructor.
  - exists 0. split; [lia|]. destruct aDate as [c o t]. unfold shift_days. simpl.
    f_equal. lia.
  - eapply Forall_impl; [exact IH|]. intros w (k & Hk & ->).
    exists (k + 1). split; [lia|]. unfold shift_days. simpl. f_equal. lia.
Qed.

Lemma weeks_length maxDate aDate ws :
  weeks maxDate aDate ws ->
  Z.of_nat (length ws)
  = if date_leb aDate maxDate
    then (ordinal maxDate - (if micros maxDate <? micros aDate then 1 else 0)
          - ordinal aDate) / 7 + 1
    else 0.
Proof.
  induction 1 as [aDate Hend|aDate ws Hle Hws IH]; [by rewrite Hend|].
  rewrite Hle. cbn [length]. rewrite Nat2Z.inj_succ, IH. clear IH Hws.
  change (micros (shift_days aDate 7)) with (micros aDate).
  change (ordinal (shift_days aDate 7)) with (ordinal aDate + 7).
  set (late := if micros maxDate <? micros aDate then 1 else 0).
  assert (0 <= ordinal maxDate - late - ordinal aDate) as Hpos
    by (subst late; date_cmp).
  destruct (date_leb (shift_days aDate 7) maxDate) eqn:Hnext.
  - assert (7 <= ordinal maxDate - late - ordinal aDate) as Hweek
      by (subst late; date_cmp).
    replace (ordinal maxDate - late - (ordinal aDate + 7))
      with (ordinal maxDate - late - ordinal aDate + (-1) * 7) by lia.
    rewrite Z.div_add by lia. lia.
  - assert (ordinal maxDate - late - ordinal aDate < 7) as Hweek
      by (subst late; date_cmp).
    rewrite Z.div_small by lia. lia.
Qed.

(** X3: for [minDate <= maxDate] before the last week of the calendar, every
    window starts on a Monday and keeps the class and the time of day of
    [minDate], and the number of windows is the number of weeks from the
    Monday of [minDate] up to [maxDate]. *)
Theorem mondayPairs_count (minDate maxDate : pydate) :
  valid_date minDate -> valid_date maxDate ->
  is_datetime minDate = is_datetime maxDate ->
  date_leb minDate maxDate = true ->
  ordinal maxDate < LAST_MONDAY ->
  exists ws,
    list_of_iterator (GenCreated minDate maxDate) = Ok ws
    /\ Forall (fun w => weekday (fst w) = 0
                        /\ is_datetime (fst w) = is_datetime minDate
                        /\ micros (fst w) = micros minDate) ws
    /\ Z.of_nat (length ws)
       = (ordinal maxDate - (if micros maxDate <? micros minDate then 1 else 0)
          - (ordinal minDate - weekday minDate)) / 7 + 1.
Proof.
  intros (Hmin & _ & _) (Hmax & _ & _) Hc Hle Hhi.
  pose proof (weekday_range minDate) as Hwd.
  pose proof (monday_on_or_before minDate ltac:(lia)) as Hmon.
  pose proof (list_of_iterator_collect (GenCreated minDate maxDate)) as Hcol.
  rewrite collect_created in Hcol by exact Hmin.
  apply collect_weeks in Hcol as (ws & Hws & Hweeks);
    [| exact Hc | apply weekday_monday_before | exact Hmon | exact Hhi].
  exists ws. split; [exact Hws|]. split.
  - eapply Forall_impl; [exact (weeks_starts _ _ _ Hweeks)|].
    intros w (k & Hk & ->). split; [|split; reflexivity].
    pose proof (weekday_monday_before minDate) as H0.
    unfold weekday, shift_days in *. simpl in *.
    replace (ordinal minDate + - ((ordinal minDate + 6) mod 7) + 7 * k + 6)
      with ((ordinal minDate + - ((ordinal minDate + 6) mod 7) + 6) + k * 7) by lia.
    rewrite Z_mod_plus_full. exact H0.
  - rewrite (weeks_length _ _ _ Hweeks).
    assert (date_leb (shift_days minDate (- weekday minDate)) maxDate = true) as ->
      by date_cmp.
    simpl.
    replace (ordinal minDate + - weekday minDate)
      with (ordinal minDate - weekday minDate) by lia.
    reflexivity.
Qed.

Lemma mondayPairs_count_witness :
  let minDate := date_of 2024 6 5 in
  let maxDate := date_of 2024 7 1 in
  date_leb minDate maxDate = true
  /\ exists ws,
       list_of_iterator (GenCreated minDate maxDate) = Ok ws
       /\ Forall (fun w => weekday (fst w) = 0
                           /\ is_datetime (fst w) = is_datetime minDate
                           /\ micros (fst w) = micros minDate) ws
       /\ Z.of_nat (length ws)
          = (ordinal maxDate - (if micros maxDate <? micros minDate then 1 else 0)
             - (ordinal minDate - weekday minDate)) / 7 + 1.
Proof.
  cbv zeta. split; [reflexivity|].
  apply (mondayPairs_count (date_of 2024 6 5) (date_of 2024 7 1)).
  - repeat split; vm_compute; try reflexivity; discriminate.
  - repeat split; vm_compute; try reflexivity; discriminate.
  - reflexivity.
  - reflexivity.
  - vm_compute. reflexivity.
Defined.

Lemma weeks_lookup maxDate aDate ws :
  weeks maxDate aDate ws ->
  forall (i : nat) w, ws !! i = Some w ->
    w = (shift_days aDate (7 * Z.of_nat i), shift_days aDate (7 * Z.of_nat i + 7)).
Proof.
  induction 1 as [|aDate ws Hle Hws IH]; intros i w Hi; [discriminate|].
  destruct i as [|i].
  - injection Hi as <-. destruct aDate as [c o t]. unfold shift_days. simpl.
    f_equal; f_equal; lia.
  - apply IH in Hi as ->. unfold shift_days. simpl. f_equal; f_equal; lia.
Qed.

Lemma weeks_cover maxDate aDate ws :
  weeks maxDate aDate ws ->
  forall d, date_leb aDate d = true -> date_leb d maxDate = true ->
    exists (i : nat) w, ws !! i = Some w
      /\ date_leb (fst w) d = true /\ date_ltb d (snd w) = true.
Proof.
  induction 1 as [aDate Hend|aDate ws Hle Hws IH]; intros d Hlo Hhi.
  - exfalso. date_cmp.
  - destruct (date_ltb d (shift_days aDate 7)) eqn:Hin.
    + exists O, (aDate, shift_days aDate 7). by repeat split.
    + destruct (IH d) as (i & w & Hi & H1 & H2); [by unfold date_leb; rewrite Hin | exact Hhi |].
      exists (S i), w. by repeat split.
Qed.

(** X4: for [minDate <= maxDate] before the last week of the calendar, every
    date of the same class from [minDate] to [maxDate] lies in the half-open
    span of exactly one of the yielded windows. *)
Theorem every_date_in_one_window (minDate maxDate d : pydate) :
  valid_date minDate -> valid_date maxDate ->
  is_datetime minDate = is_datetime maxDate ->
  is_datetime d = is_datetime minDate ->
  ordinal maxDate < LAST_MONDAY ->
  date_leb minDate d = true -> date_leb d maxDate = true ->
  exists ws (i : nat) w,
    list_of_iterator (GenCreated minDate maxDate) = Ok ws
    /\ ws !! i = Some w
    /\ date_leb (fst w) d = true /\ date_ltb d (snd w) = true
    /\ (forall (j : nat) w',
          ws !! j = Some w' -> date_leb (fst w') d = true -> date_ltb d (snd w') = true ->
          j = i).
Proof.
  intros (Hmin & _ & _) (Hmax & _ & _) Hc _ Hhi Hlo Hup.
  pose proof (weekday_range minDate) as Hwd.
  pose proof (monday_on_or_before minDate ltac:(lia)) as Hmon.
  pose proof (list_of_iterator_collect (GenCreated minDate maxDate)) as Hcol.
  rewrite collect_created in Hcol by exact Hmin.
  apply collect_weeks in Hcol as (ws & Hws & Hweeks);
    [| exact Hc | apply weekday_monday_before | exact Hmon | exact Hhi].
  destruct (weeks_cover _ _ _ Hweeks d) as (i & w & Hi & H1 & H2);
    [date_cmp | exact Hup |].
  exists ws, i, w. repeat split; try assumption.
  intros j w' Hj H1' H2'.
  rewrite (weeks_lookup _ _ _ Hweeks _ _ Hi) in H1, H2.
  rewrite (weeks_lookup _ _ _ Hweeks _ _ Hj) in H1', H2'.
  clear - H1 H2 H1' H2'. date_cmp.
Qed.

Lemma every_date_in_one_window_witness :
  let minDate := date_of 2024 6 5 in
  let maxDate := date_of 2024 7 1 in
  let d := date_of 2024 6 20 in
  date_leb minDate d = true /\ date_leb d maxDate = true
  /\ exists ws (i : nat) w,
       list_of_iterator (GenCreated minDate maxDate) = Ok ws
       /\ ws !! i = Some w
       /\ date_leb (fst w) d = true /\ date_ltb d (snd w) = true
       /\ (forall (j : nat) w',
             ws !! j = Some w' -> date_leb (fst w') d = true ->
             date_ltb d (snd w') = true -> j = i).
Proof.
  cbv zeta. split; [reflexivity|]. split; [reflexivity|].
  apply (every_date_in_one_window (date_of 2024 6 5) (date_of 2024 7 1) (date_of 2024 6 20)).
  - repeat split; vm_compute; try reflexivity; discriminate.
  - repeat split; vm_compute; try reflexivity; discriminate.
  - reflexivity.
  - reflexivity.
  - vm_compute. reflexivity.
  - reflexivity.
  - reflexivity.
Defined.

(** ** Partition names *)

Lemma partitionName_lookup c (w : window) params :
  partitionCreationParameters c w = Ok params ->
  is_PartitionedTable c = true
  /\ params !! "partitionName"
     = Some (pystr (class_name c) +:+ "_" +:+ replace "-" "" (dateAsString (fst w))).
Proof.
  unfold partitionCreationParameters. destruct (is_PartitionedTable c); [|discriminate].
  destruct w as [startDate endDate]. intros [= <-]. split; [reflexivity|].
  by rewrite lookup_insert_eq.
Qed.

(** X5: the partition is chosen by the calendar week alone: two partitioning
    values before the last week of the calendar whose Mondays coincide, at
    whatever times of day, get windows with the same parameters (name, start
    and end date) for any class. *)
Theorem same_week_same_partition (c : pyclass) (d1 d2 : pydate) :
  valid_date d1 -> valid_date d2 ->
  ordinal d1 < LAST_MONDAY -> ordinal d2 < LAST_MONDAY ->
  ordinal d1 - weekday d1 = ordinal d2 - weekday d2 ->
  exists w1 w2,
    gen_next (GenCreated d1 d1) = (Yield w1, GenSuspended (snd w1) d1)
    /\ gen_next (GenCreated d2 d2) = (Yield w2, GenSuspended (snd w2) d2)
    /\ partitionCreationParameters c w1 = partitionCreationParameters c w2.
Proof.
  intros Hv1 Hv2 Hh1 Hh2 Hweek.
  destruct (single_window d1 Hv1 Hh1) as (_ & Hn1 & _).
  destruct (single_window d2 Hv2 Hh2) as (_ & Hn2 & _).
  eexists _, _. split; [exact Hn1|]. split; [exact Hn2|].
  unfold partitionCreationParameters, dateAsString, shift_days. simpl.
  replace (ordinal d1 + - weekday d1) with (ordinal d2 + - weekday d2) by lia.
  reflexivity.
Qed.

Lemma same_week_same_partition_witness :
  let d1 := date_of 2024 6 5 in
  let d2 := mkDate true (ymd2ord 2024 6 9) 86399000000 in
  ordinal d1 - weekday d1 = ordinal d2 - weekday d2
  /\ exists w1 w2,
       gen_next (GenCreated d1 d1) = (Yield w1, GenSuspended (snd w1) d1)
       /\ gen_next (GenCreated d2 d2) = (Yield w2, GenSuspended (snd w2) d2)
       /\ partitionCreationParameters ReportsTable w1
          = partitionCreationParameters ReportsTable w2.
Proof.
  cbv zeta. split; [vm_compute; reflexivity|].
  apply (same_week_same_partition ReportsTable (date_of 2024 6 5)
           (mkDate true (ymd2ord 2024 6 9) 86399000000)).
  - repeat split; vm_compute; try reflexivity; discriminate.
  - repeat split; vm_compute; try reflexivity; discriminate.
  - vm_compute. reflexivity.
  - vm_compute. reflexivity.
  - vm_compute. reflexivity.
Defined.

(** X6: the partition cache is keyed by the partition name alone, and the
    names of different classes never collide: if two classes get the same
    partition name, for whatever windows, they are the same class. *)
Theorem partition_names_tell_classes_apart (c1 c2 : pyclass) (w1 w2 : window)
  (p1 p2 : gmap string string) (n : string) :
  partitionCreationParameters c1 w1 = Ok p1 ->
  partitionCreationParameters c2 w2 = Ok p2 ->
  p1 !! "partitionName" = Some n ->
  p2 !! "partitionName" = Some n ->
  c1 = c2.
Proof.
  intros H1 H2 Hn1 Hn2.
  apply partitionName_lookup in H1 as [Hc1 Hl1].
  apply partitionName_lookup in H2 as [Hc2 Hl2].
  rewrite Hl1 in Hn1. rewrite Hl2 in Hn2. rewrite <- Hn2 in Hn1. clear - Hc1 Hc2 Hn1.
  destruct c1; try discriminate Hc1; destruct c2; try discriminate Hc2;
    try reflexivity; simpl in Hn1; discriminate Hn1.
Qed.

Lemma partition_names_tell_classes_apart_witness :
  let w := (date_of 2024 6 3, date_of 2024 6 10) in
  exists p n,
    partitionCreationParameters FramesTable w = Ok p
    /\ p !! "partitionName" = Some n
    /\ FramesTable = FramesTable.
Proof.
  cbv zeta. eexists _, _. split; [reflexivity|]. split; [vm_compute; reflexivity|].
  eapply (partition_names_tell_classes_apart FramesTable FramesTable
            (date_of 2024 6 3, date_of 2024 6 10) (date_of 2024 6 3, date_of 2024 6 10));
    [reflexivity | reflexivity | vm_compute; reflexivity | vm_compute; reflexivity].
Defined.

(** ** The partition cache under the operations *)

Section CacheMoves.

Context (R : gset string -> gset string -> Prop) `{!Reflexive R} `{!Transitive R}.

Lemma cache_moves_same {A} (m : M A) :
  (forall w, partitionCreationHistory (m w).2 = partitionCreationHistory w) ->
  cache_moves R m.
Proof. intros H w. by rewrite H. Qed.

Lemma cache_moves_bind {A B} (m : M A) (k : A -> M B) :
  cache_moves R m -> (forall a, cache_moves R (k a)) -> cache_moves R (m ≫= k).
Proof.
  intros Hm Hk w. unfold mbind, M_bind, bind. specialize (Hm w).
  destruct (m w) as [[a|e] w1]; simpl in *; [|exact Hm].
  etrans; [exact Hm | apply Hk].
Qed.

Lemma cache_moves_try_except {A} (body : M A) catches handler :
  cache_moves R body -> (forall x, cache_moves R (handler x)) ->
  cache_moves R (try_except body catches handler).
Proof.
  intros Hm Hk w. unfold try_except. specialize (Hm w).
  destruct (body w) as [[a|e] w1]; simpl in *; [exact Hm|].
  destruct (catches e); [|exact Hm]. etrans; [exact Hm | apply Hk].
Qed.

Lemma cache_moves_for_each {A} (xs : list A) body :
  (forall x, x ∈ xs -> cache_moves R (body x)) -> cache_moves R (for_each xs body).
Proof.
  induction xs as [|x xs IH]; intros Hb; simpl.
  - by apply cache_moves_same.
  - apply cache_moves_bind; [apply Hb; left|].
    intros _. apply IH. intros y Hy. apply Hb. by right.
Qed.

Lemma cache_moves_lift_bind {A B} (r : result A) (k : A -> M B) :
  (forall a, r = Ok a -> cache_moves R (k a)) -> cache_moves R (lift r ≫= k).
Proof.
  intros Hk w. unfold mbind, M_bind, bind, lift.
  destruct r as [a|e]; [by apply Hk | reflexivity].
Qed.

End CacheMoves.

#[local] Instance grows_within_refl names : Reflexive (grows_within names).
Proof. intros h. unfold grows_within. set_solver. Qed.

#[local] Instance grows_within_trans names : Transitive (grows_within names).
Proof.
  intros h1 h2 h3 [Hlo1 Hhi1] [Hlo2 Hhi2]. split.
  - by etrans.
  - intros n Hn. apply Hhi2 in Hn. apply elem_of_union in Hn as [Hn|Hn].
    + by apply Hhi1.
    + apply elem_of_union. by right.
Qed.

Section Confinement.

Context (creationSqlText partitionCreationSqlTemplate : pyclass -> string)
        (pyformat : string -> gmap string string -> result string)
        (dependencyOrder :
           list (pyclass * list pyclass) -> option (list pyclass) -> result (list pyclass))
        (db : list event -> connection -> db_op -> option exn).

Lemma on_cursor_execute cur sql : emits (on_cursor cur) (execute db cur sql).
Proof. intros w. eexists [_]. split; [reflexivity | by repeat constructor]. Qed.

Lemma on_cursor_commit cur : emits (on_cursor cur) (commit db cur).
Proof. intros w. eexists [_]. split; [reflexivity | by repeat constructor]. Qed.

Lemma on_cursor_debug cur m : emits (on_cursor cur) (debug m).
Proof. by apply emits_emit. Qed.

Lemma on_cursor_partitionWasCreated cur n : emits (on_cursor cur) (partitionWasCreated n).
Proof. intros w. eexists [_]. split; [reflexivity | by repeat constructor]. Qed.

Lemma on_cursor_markPartitionCreated cur n : emits (on_cursor cur) (markPartitionCreated n).
Proof. intros w. eexists [_]. split; [reflexivity | by repeat constructor]. Qed.

Hint Resolve on_cursor_execute on_cursor_commit on_cursor_debug
  on_cursor_partitionWasCreated on_cursor_markPartitionCreated : emits.

Lemma on_cursor__createSelf self cur : emits (on_cursor cur) (_createSelf db self cur).
Proof. unfold _createSelf, additionalCreationProcedures. auto 10 with emits. Qed.
Hint Resolve on_cursor__createSelf : emits.

Lemma on_cursor_create self cur :
  emits (on_cursor cur) (create creationSqlText dependencyOrder db self cur).
Proof. unfold create, create_one. auto 20 with emits. Qed.

Lemma on_cursor__createOwnPartition self cur items :
  emits (on_cursor cur)
    (_createOwnPartition partitionCreationSqlTemplate pyformat db self cur items).
Proof. unfold _createOwnPartition, _createOwnPartition_one. auto 30 with emits. Qed.
Hint Resolve on_cursor__createOwnPartition : emits.

Lemma on_cursor_createPartitions self cur it :
  emits (on_cursor cur)
    (createPartitions creationSqlText partitionCreationSqlTemplate pyformat
       dependencyOrder db self cur it).
Proof. unfold createPartitions. auto 20 with emits. Qed.

Lemma cache_same_run_db {A} conn op (k : unit -> M A) R `{!Reflexive R} `{!Transitive R} :
  (forall a, cache_moves R (k a)) -> cache_moves R (run_db db conn op ≫= k).
Proof.
  intros Hk. apply cache_moves_bind; try apply _; [|exact Hk].
  apply cache_moves_same; try apply _. reflexivity.
Qed.

Lemma cache__createSelf self cur R `{!Reflexive R} :
  cache_moves R (_createSelf db self cur).
Proof.
  apply cache_moves_same; try apply _. intros w.
  unfold _createSelf, additionalCreationProcedures, execute, run_db, raise, ret,
    mbind, M_bind, bind.
  destruct (creationSql self); simpl; [|reflexivity].
  by destruct (db (trace w) cur _).
Qed.

Lemma cache_create self cur :
  cache_moves eq (create creationSqlText dependencyOrder db self cur).
Proof.
  unfold create. apply cache_moves_bind; try apply _.
  { by apply cache_moves_same; [apply _|]. }
  intros L. apply cache_moves_for_each; try apply _. intros c _.
  unfold create_one, execute, commit.
  apply cache_same_run_db; try apply _. intros _.
  apply cache_moves_try_except; try apply _.
  - apply cache_moves_bind; try apply _; [apply cache__createSelf; apply _|].
    intros _. apply cache_moves_same; [apply _|]. reflexivity.
  - intros x. apply cache_same_run_db; try apply _. intros _.
    apply cache_same_run_db; try apply _. intros _.
    apply cache_moves_same; [apply _|]. reflexivity.
Qed.

(** X7: [create] works on the cursor it is given and on nothing else: it
    leaves the partition cache as it was, and whatever the database answers
    it only executes statements without parameters and commits on that
    cursor and writes log lines; it never rolls the whole transaction back
    and uses no other connection. *)
Theorem create_keeps_to_its_cursor (self : DatabaseObject) (cur : connection) (w : world) :
  partitionCreationHistory (create creationSqlText dependencyOrder db self cur w).2
  = partitionCreationHistory w
  /\ exists seg,
       extends w (create creationSqlText dependencyOrder db self cur w).2 seg
       /\ Forall (on_cursor cur) seg.
Proof.
  split; [symmetry; apply cache_create | apply on_cursor_create].
Qed.

Lemma elem_of_partition_names c items x params n :
  x ∈ items -> partitionCreationParameters c x = Ok params ->
  params !! "partitionName" = Some n -> n ∈ partition_names c items.
Proof.
  intros Hx Hp Hn. unfold partition_names. apply elem_of_list_to_set.
  apply list_elem_of_omap. exists x. split; [exact Hx|]. by rewrite Hp.
Qed.

Lemma cache__createOwnPartition self cur items :
  cache_moves (grows_within (partition_names (class_of self) items))
    (_createOwnPartition partitionCreationSqlTemplate pyformat db self cur items).
Proof.
  set (R := grows_within (partition_names (class_of self) items)).
  unfold _createOwnPartition.
  apply cache_moves_bind; try apply _.
  { apply cache_moves_same; [apply _|]. reflexivity. }
  intros _. apply cache_moves_for_each; try apply _. intros x Hx.
  unfold _createOwnPartition_one.
  apply cache_moves_lift_bind; try apply _. intros params Hp.
  destruct (params !! "partitionName") as [n|] eqn:Hn;
    [| apply cache_moves_same; [apply _|]; reflexivity].
  apply cache_moves_bind; try apply _.
  { apply cache_moves_same; [apply _|]. reflexivity. }
  intros [|]; [apply cache_moves_same; [apply _|]; reflexivity|].
  apply cache_moves_bind; try apply _.
  { apply cache_moves_same; [apply _|]. reflexivity. }
  intros sql.
  apply cache_moves_bind; try apply _.
  { apply cache_moves_same; [apply _|]. reflexivity. }
  intros _. unfold execute, commit. apply cache_same_run_db; try apply _. intros _.
  apply cache_moves_bind; try apply _.
  2: { intros _. apply cache_moves_same; [apply _|]. intros w. unfold run_db. simpl.
       reflexivity. }
  apply cache_moves_try_except; try apply _.
  - apply cache_moves_bind; try apply _.
    { apply cache_moves_same; [apply _|]. reflexivity. }
    intros _. apply cache_moves_bind; try apply _; [apply cache__createSelf; apply _|].
    intros _. apply cache_moves_bind; try apply _.
    2: { intros _. apply cache_moves_bind; try apply _.
         { apply cache_moves_same; [apply _|]. reflexivity. }
         intros _. apply cache_moves_same; [apply _|]. reflexivity. }
    intros w. unfold markPartitionCreated, R, grows_within. simpl.
    pose proof (elem_of_partition_names _ _ _ _ _ Hx Hp Hn) as Hin.
    split; [apply union_subseteq_r|].
    intros m Hm. apply elem_of_union in Hm as [Hm|Hm]; apply elem_of_union.
    + right. apply elem_of_singleton in Hm. by subst m.
    + by left.
  - intros e. apply cache_moves_bind; try apply _.
    { apply cache_moves_same; [apply _|]. reflexivity. }
    intros _. apply cache_moves_same; [apply _|]. reflexivity.
Qed.

End Confinement.

Lemma cache_moves_weaken {A} (R R' : gset string -> gset string -> Prop) (m : M A) :
  (forall a b, R a b -> R' a b) -> cache_moves R m -> cache_moves R' m.
Proof. intros HR Hm w. apply HR, Hm. Qed.

Section PartitionProperties.

Context (creationSqlText partitionCreationSqlTemplate : pyclass -> string)
        (pyformat : string -> gmap string string -> result string)
        (dependencyOrder :
           list (pyclass * list pyclass) -> option (list pyclass) -> result (list pyclass))
        (db : list event -> connection -> db_op -> option exn).

(** X8: whatever the database answers, [_createOwnPartition] never removes a
    name from the partition cache and adds nothing but partition names of
    its own class for the windows it was given; and it works on its cursor
    only: statements without parameters and commits on that cursor, log
    lines and cache accesses. *)
Theorem createOwnPartition_cache_and_cursor (self : DatabaseObject) (cur : connection)
  (items : list window) (w : world) :
  let after :=
    (_createOwnPartition partitionCreationSqlTemplate pyformat db self cur items w).2 in
  partitionCreationHistory w ⊆ partitionCreationHistory after
  /\ partitionCreationHistory after
     ⊆ partitionCreationHistory w ∪ partition_names (class_of self) items
  /\ exists seg, extends w after seg /\ Forall (on_cursor cur) seg.
Proof.
  cbv zeta.
  destruct (cache__createOwnPartition partitionCreationSqlTemplate pyformat db
              self cur items w) as [Hlo Hhi].
  split; [exact Hlo|]. split; [exact Hhi|]. apply on_cursor__createOwnPartition.
Qed.

Lemma cache_createPartitions self cur it :
  cache_moves (⊆)
    (createPartitions creationSqlText partitionCreationSqlTemplate pyformat
       dependencyOrder db self cur it).
Proof.
  unfold createPartitions.
  apply cache_moves_bind; try apply _.
  { apply cache_moves_same; try apply _. reflexivity. }
  intros _. apply cache_moves_bind; try apply _.
  { apply cache_moves_same; try apply _. reflexivity. }
  intros classes. apply cache_moves_bind; try apply _.
  { apply cache_moves_same; try apply _. reflexivity. }
  intros items. apply cache_moves_for_each; try apply _. intros c _.
  destruct (is_PartitionedTable _).
  - eapply cache_moves_weaken; [|apply cache__createOwnPartition].
    by intros a b [Hlo _].
  - apply cache_moves_same; try apply _. reflexivity.
Qed.

(** X9: [PartitionedTable.createPartitions] works on the cursor it is given
    and on nothing else, whatever the database answers: it executes only
    statements without parameters and commits on that cursor, never rolls
    the whole transaction back and uses no other connection; and it never
    removes a name from the partition cache. *)
Theorem createPartitions_keeps_to_its_cursor (self : DatabaseObject) (cur : connection)
  (it : generator) (w : world) :
  let after :=
    (createPartitions creationSqlText partitionCreationSqlTemplate pyformat
       dependencyOrder db self cur it w).2 in
  partitionCreationHistory w ⊆ partitionCreationHistory after
  /\ exists seg, extends w after seg /\ Forall (on_cursor cur) seg.
Proof.
  cbv zeta. split; [apply cache_createPartitions | apply on_cursor_createPartitions].
Qed.

(** X10: a partition known to the cache costs no database operation: a pass
    of [_createOwnPartition] for a name that is in the cache only looks the
    name up and goes on.  In particular, after a pass whose creation
    statement succeeded, a second pass for the same window does nothing to
    the database, whatever the database would answer. *)
Theorem marked_partition_is_skipped (self : DatabaseObject) (cur : connection)
  (x : window) (params : gmap string string) (n sql : string) :
  let pass := _createOwnPartition_one partitionCreationSqlTemplate pyformat db self cur x in
  partitionCreationParameters (class_of self) x = Ok params ->
  params !! "partitionName" = Some n ->
  (forall w, n ∈ partitionCreationHistory w ->
     pass w = (Ok tt, add_events w [HistoryLookup n true]))
  /\ (forall w,
     n ∉ partitionCreationHistory w ->
     pyformat (partitionCreationSqlTemplate (class_of self)) params = Ok sql ->
     db (trace w ++ [HistoryLookup n false; Debug (LogSavepoint n)]) cur
        (Execute ("savepoint createPartitions_" +:+ n) None) = None ->
     db (trace w ++ [HistoryLookup n false; Debug (LogSavepoint n);
                     Db cur (Execute ("savepoint createPartitions_" +:+ n) None) None;
                     Debug (LogCreating n)]) cur (Execute sql None) = None ->
     pass (pass w).2 = (Ok tt, add_events (pass w).2 [HistoryLookup n true])).
Proof.
  intros pass Hparams Hn.
  assert (forall w, n ∈ partitionCreationHistory w ->
            pass w = (Ok tt, add_events w [HistoryLookup n true])) as Hskip.
  { intros w Hin. subst pass. unfold _createOwnPartition_one.
    unfold mbind at 1, M_bind at 1, bind at 1, lift at 1. rewrite Hparams, Hn.
    unfold mbind at 1, M_bind at 1, bind at 1, partitionWasCreated.
    rewrite bool_decide_eq_true_2 by exact Hin. reflexivity. }
  split; [exact Hskip|].
  intros w Hnew Hsql Hsp Hcreate. apply Hskip. subst pass.
  rewrite (createOwnPartition_one_run partitionCreationSqlTemplate pyformat db
             self cur x w params n sql Hparams Hn Hnew Hsql Hsp).
  unfold add_events. simpl. rewrite <- ?app_assoc. simpl. rewrite Hcreate.
  unfold execute, commit, debug, emit, try_except, run_db, mbind, M_bind, bind. simpl.
  repeat (match goal with
          | |- context [match db ?t ?c ?o with _ => _ end] => destruct (db t c o)
          | |- context [if except_ProgrammingError ?e then _ else _] =>
              destruct (except_ProgrammingError e)
          end; simpl);
    apply elem_of_union; left; by apply elem_of_singleton.
Qed.

End PartitionProperties.

Lemma marked_partition_is_skipped_witness :
  let monday := date_of 2024 6 3 in
  let pass := _createOwnPartition_one Example.partitionCreationSqlTemplate Example.pyformat
                (Example.db_raising Example.is_insert Example.unique_violation)
                (Example.new ReportsTable) 0%nat (monday, shift_days monday 7) in
  pass Example.w_marked
  = (Ok tt, add_events Example.w_marked [HistoryLookup "reports_20240603" true])
  /\ pass (pass Example.w0).2
     = (Ok tt, add_events (pass Example.w0).2 [HistoryLookup "reports_20240603" true]).
Proof.
  cbv zeta.
  edestruct (marked_partition_is_skipped Example.partitionCreationSqlTemplate
               Example.pyformat
               (Example.db_raising Example.is_insert Example.unique_violation)
               (Example.new ReportsTable) 0%nat
               (date_of 2024 6 3, shift_days (date_of 2024 6 3) 7))
    as [Hhit Hagain]; [reflexivity | vm_compute; reflexivity |].
  split.
  - apply Hhit. simpl. set_solver.
  - apply Hagain; [set_solver | reflexivity | reflexivity | reflexivity].
Defined.


Section MoreOnCreation.

Context (creationSqlText partitionCreationSqlTemplate : pyclass -> string)
        (pyformat : string -> gmap string string -> result string)
        (dependencyOrder :
           list (pyclass * list pyclass) -> option (list pyclass) -> result (list pyclass))
        (db : list event -> connection -> db_op -> option exn).

(** X11: a pass of [_createOwnPartition] that attempts a creation and
    returns normally has closed its checkpoint and committed: its last two
    database operations are a successful [release savepoint] of its own
    checkpoint (alone after a successful creation, or together with the
    [rollback to] after a [ProgrammingError]) and a successful commit. *)
Theorem createOwnPartition_pass_ends_committed (self : DatabaseObject) (cur : connection)
  (x : window) (w : world) (params : gmap string string) (n sql : string) :
  let pass := _createOwnPartition_one partitionCreationSqlTemplate pyformat db self cur x in
  partitionCreationParameters (class_of self) x = Ok params ->
  params !! "partitionName" = Some n ->
  n ∉ partitionCreationHistory w ->
  pyformat (partitionCreationSqlTemplate (class_of self)) params = Ok sql ->
  (pass w).1 = Ok tt ->
  exists before closing,
    extends w (pass w).2
      (before ++ [Db cur (Execute closing None) None; Db cur Commit None])
    /\ (closing = "release savepoint createPartitions_" +:+ n
        \/ closing = "rollback to createPartitions_" +:+ n
                     +:+ "; release savepoint createPartitions_" +:+ n +:+ ";").
Proof.
  intros pass Hparams Hn Hnew Hsql. subst pass.
  destruct (_createOwnPartition_one _ _ _ _ _ _ w) as [r0 w'] eqn:Hrun.
  cbn [fst snd]. intros ->. revert Hrun.
  unfold _createOwnPartition_one.
  unfold mbind at 1, M_bind at 1, bind at 1, lift at 1. rewrite Hparams, Hn.
  unfold mbind at 1, M_bind at 1, bind at 1, partitionWasCreated.
  rewrite bool_decide_eq_false_2 by exact Hnew.
  unfold mbind at 1, M_bind at 1, bind at 1, lift at 1. rewrite Hsql.
  unfold extends, execute, commit, debug, emit, try_except, _createSelf,
    additionalCreationProcedures, markPartitionCreated, run_db,
    mbind, M_bind, bind, ret, raise.
  simpl.
  repeat (match goal with
          | |- context [match db ?t ?c ?o with _ => _ end] => destruct (db t c o)
          | |- context [if except_ProgrammingError ?e then _ else _] =>
              destruct (except_ProgrammingError e)
          end; simpl);
    intros Hrun; try discriminate Hrun; injection Hrun as <-;
    simpl; rewrite <- ?app_assoc; simpl;
    first [ eexists [_; _; _; _; _; _; _; _; _], _; split;
              [reflexivity | first [left; reflexivity | right; reflexivity]]
          | eexists [_; _; _; _; _; _; _], _; split;
              [reflexivity | first [left; reflexivity | right; reflexivity]]
          | eexists [_; _; _; _; _; _], _; split;
              [reflexivity | first [left; reflexivity | right; reflexivity]] ].
Qed.

(** X12: when the database accepts every statement on the cursor, [create]
    runs all its creation steps in the caller's transaction: it returns
    normally having executed, for each class of the setup list in order,
    the checkpoint, the creation statement and the release, and it never
    commits. *)
Theorem create_all_succeed (self : DatabaseObject) (cur : connection)
  (L : list pyclass) (w : world) :
  (forall tr op, db tr cur op = None) ->
  getOrderedSetupList dependencyOrder (Some [class_of self]) = Ok L ->
  Forall (fun c => creationSql (instance_for creationSqlText self c) <> None) L ->
  create creationSqlText dependencyOrder db self cur w
  = (Ok tt,
     add_events w
       (concat ((fun c => created_events cur (instance_for creationSqlText self c)) <$> L)))
  /\ Forall (fun e => forall c out, e <> Db c Commit out)
       (concat ((fun c => created_events cur (instance_for creationSqlText self c)) <$> L)).
Proof.
  intros Hdb HL Hsql. split.
  - unfold create. rewrite HL.
    change ((lift (Ok L) ≫= fun l => for_each l (create_one creationSqlText db self cur)) w)
      with (for_each L (create_one creationSqlText db self cur) w).
    clear HL. revert w. induction Hsql as [|c L Hc _ IH]; intros w.
    + unfold add_events. simpl. rewrite app_nil_r. by destruct w.
    + cbn [for_each fmap list_fmap concat].
      unfold mbind at 1, M_bind at 1, bind at 1.
      assert (create_one creationSqlText db self cur c w
              = (Ok tt, add_events w
                          (created_events cur (instance_for creationSqlText self c))))
        as ->.
      { unfold create_one, created_events.
        fold (instance_for creationSqlText self c).
        destruct (creationSql (instance_for creationSqlText self c)) as [sql|] eqn:Hs;
          [|congruence].
        unfold execute, try_except, _createSelf, additionalCreationProcedures, run_db,
          mbind, M_bind, bind, ret, add_events.
        simpl. repeat (rewrite ?Hdb, ?Hs; simpl).
        by rewrite <- !app_assoc. }
      rewrite IH, add_events_app. reflexivity.
  - apply Forall_concat, Forall_fmap, Forall_forall. intros c _.
    unfold compose, created_events.
    case_match; repeat (constructor; [intros ? ?; discriminate|]); constructor.
Qed.

End MoreOnCreation.

Lemma create_all_succeed_witness :
  let self := Example.new ProductDimsTable in
  (forall tr op, Example.db_ok tr 0%nat op = None)
  /\ Example.create Example.db_ok self 0%nat Example.w0
     = (Ok tt,
        add_events Example.w0
          (concat ((fun c => created_events 0%nat
                               (instance_for Example.creationSqlText self c))
                   <$> [ReleaseEnum; ProductDimsTable]))).
Proof.
  cbv zeta. split; [reflexivity|].
  apply (create_all_succeed Example.creationSqlText Example.dependencyOrder Example.db_ok
           (Example.new ProductDimsTable) 0%nat [ReleaseEnum; ProductDimsTable] Example.w0).
  - reflexivity.
  - vm_compute. reflexivity.
  - repeat constructor; discriminate.
Defined.


(** ** More on [PartitionedTable.insert] *)


Lemma filter_no_rows seg :
  Forall (fun e => is_row_execute e = false) seg ->
  filter (fun e => is_row_execute e = true) seg = [].
Proof.
  induction 1 as [|e seg He _ IH]; [reflexivity|].
  rewrite filter_cons_False by congruence. exact IH.
Qed.

Lemma rows_of_emits {A} (k : nat) cur r (Q : event -> Prop) (m : M A) :
  (forall e, Q e -> is_row_execute e = false) -> emits Q m -> rows_at_most k cur r m.
Proof.
  intros HQ Hm w. destruct (Hm w) as (seg & Hext & Hseg). exists seg.
  split; [exact Hext|].
  assert (Forall (fun e => is_row_execute e = false) seg) as Hnone
    by (eapply Forall_impl; [exact Hseg | exact HQ]).
  split.
  - rewrite filter_no_rows by exact Hnone. simpl. lia.
  - eapply Forall_impl; [exact Hnone|]. intros e He Hrow. congruence.
Qed.

Lemma rows_bind {A B} (k1 k2 k : nat) cur r (m : M A) (f : A -> M B) :
  rows_at_most k1 cur r m -> (forall a, rows_at_most k2 cur r (f a)) ->
  (k1 + k2 <= k)%nat -> rows_at_most k cur r (m ≫= f).
Proof.
  intros Hm Hf Hk w. unfold mbind, M_bind, bind.
  destruct (Hm w) as (s1 & H1 & Hc1 & HF1). destruct (m w) as [[a|e] w1]; simpl in *.
  - destruct (Hf a w1) as (s2 & H2 & Hc2 & HF2). exists (s1 ++ s2). split; [|split].
    + unfold extends in *. rewrite H2, H1. symmetry. apply app_assoc.
    + rewrite filter_app, length_app. lia.
    + apply Forall_app. by split.
  - exists s1. split; [exact H1|]. split; [lia | exact HF1].
Qed.

Lemma rows_try_except {A} (k1 k2 k : nat) cur r (body : M A) catches handler :
  rows_at_most k1 cur r body -> (forall x, rows_at_most k2 cur r (handler x)) ->
  (k1 + k2 <= k)%nat -> rows_at_most k cur r (try_except body catches handler).
Proof.
  intros Hm Hf Hk w. unfold try_except.
  destruct (Hm w) as (s1 & H1 & Hc1 & HF1). destruct (body w) as [[a|e] w1]; simpl in *.
  - exists s1. split; [exact H1|]. split; [lia | exact HF1].
  - destruct (catches e); [|exists s1; split; [exact H1|]; split; [lia | exact HF1]].
    destruct (Hf e w1) as (s2 & H2 & Hc2 & HF2). exists (s1 ++ s2). split; [|split].
    + unfold extends in *. rewrite H2, H1. symmetry. apply app_assoc.
    + rewrite filter_app, length_app. lia.
    + apply Forall_app. by split.
Qed.

Lemma rows_le {A} (k k' : nat) cur r (m : M A) :
  rows_at_most k cur r m -> (k <= k')%nat -> rows_at_most k' cur r m.
Proof.
  intros Hm Hk w. destruct (Hm w) as (seg & H1 & Hc & HF). exists seg.
  split; [exact H1|]. split; [lia | exact HF].
Qed.

Lemma on_cursor_no_row cur e : on_cursor cur e -> is_row_execute e = false.
Proof. by destruct e as [c [sql [row|]| |] out| | | | | | | |]. Qed.

Section MoreOnInsert.

Context (creationSqlText partitionCreationSqlTemplate insertSqlText : pyclass -> string)
        (pyformat : string -> gmap string string -> result string)
        (dependencyOrder :
           list (pyclass * list pyclass) -> option (list pyclass) -> result (list pyclass))
        (db : list event -> connection -> db_op -> option exn).

Lemma run_db_last conn op w :
  run_db db conn op w
  = match db (trace w) conn op with
    | None => (Ok tt, add_events w [Db conn op None])
    | Some e => (Raise e, add_events w [Db conn op (Some e)])
    end.
Proof. unfold run_db. by destruct (db (trace w) conn op). Qed.

(** X13: the first attempt decides unless it raises a [ProgrammingError].
    When checkpoint, insert and release all succeed, [insert] returns after
    exactly these three statements: no commit, no alternate cursor, no
    partition creation, the cache untouched.  When the insert statement
    raises an exception of another class, that exception is raised to the
    caller right after the failed statement: nothing is rolled back and the
    checkpoint stays open. *)
Theorem insert_first_attempt_decides
  (self : DatabaseObject) (cur : connection) (r : row)
  (alt : list event -> result connection) (kwargs : gmap string pyval) (w : world)
  (d : pydate) (params : gmap string string) (n : string) :
  let start := shift_days d (- weekday d) in
  let insertSql := replace "TABLENAME" n (insertSqlText (class_of self)) in
  let sp := Db cur (Execute ("savepoint " +:+ n) None) None in
  kwargs !! "date_processed" = Some (PyDate d) ->
  valid_date d -> ordinal d < LAST_MONDAY ->
  partitionCreationParameters (class_of self) (start, shift_days start 7) = Ok params ->
  params !! "partitionName" = Some n ->
  db (trace w) cur (Execute ("savepoint " +:+ n) None) = None ->
  (db (trace w ++ [sp]) cur (Execute insertSql (Some r)) = None ->
   db (trace w ++ [sp; Db cur (Execute insertSql (Some r)) None]) cur
      (Execute ("release savepoint " +:+ n) None) = None ->
   insert creationSqlText partitionCreationSqlTemplate insertSqlText pyformat
     dependencyOrder db self cur r alt kwargs w
   = (Ok tt,
      add_events w
        [sp; Db cur (Execute insertSql (Some r)) None;
         Db cur (Execute ("release savepoint " +:+ n) None) None]))
  /\ (forall x,
      db (trace w ++ [sp]) cur (Execute insertSql (Some r)) = Some x ->
      except_ProgrammingError x = false ->
      insert creationSqlText partitionCreationSqlTemplate insertSqlText pyformat
        dependencyOrder db self cur r alt kwargs w
      = (Raise x, add_events w [sp; Db cur (Execute insertSql (Some r)) (Some x)])).
Proof.
  intros start insertSql sp Hkw Hvalid Hhi Hparams Hn Hsp.
  destruct (single_window d Hvalid Hhi) as (Hfactory & Hnext & _).
  subst sp insertSql start. cbv zeta in *.
  split.
  - intros Hins Hrel.
    unfold insert. rewrite Hkw, Hfactory, lift_step.
    unfold first_of. rewrite Hnext. cbn [fst]. rewrite lift_step, Hparams, lift_step, Hn.
    unfold try_except at 1. unfold execute, execute_row.
    rewrite run_db_step, Hsp, run_db_step, trace_add_events, Hins.
    rewrite run_db_last, add_events_app, trace_add_events. cbn [app].
    rewrite Hrel. by rewrite add_events_app.
  - intros x Hx Hpe.
    unfold insert. rewrite Hkw, Hfactory, lift_step.
    unfold first_of. rewrite Hnext. cbn [fst]. rewrite lift_step, Hparams, lift_step, Hn.
    unfold try_except at 1. unfold execute, execute_row.
    rewrite run_db_step, Hsp, run_db_step, trace_add_events, Hx, Hpe.
    by rewrite add_events_app.
Qed.


Lemma rows_run_db_plain cur r conn op :
  match op with Execute _ (Some _) => False | _ => True end ->
  rows_at_most 0 cur r (run_db db conn op).
Proof.
  intros Hop w. eexists [_]. split; [reflexivity|].
  destruct op as [sql [row|]| |]; try contradiction; simpl;
    (split; [lia | repeat constructor; discriminate]).
Qed.

Lemma rows_execute_row cur r sql : rows_at_most 1 cur r (execute_row db cur sql r).
Proof.
  intros w. eexists [_]. split; [reflexivity|]. split; [simpl; lia|].
  repeat constructor. intros _. by eexists _, _.
Qed.

Lemma rows_same {A} cur r (m : M A) :
  (forall w, trace (m w).2 = trace w) -> rows_at_most 0 cur r m.
Proof.
  intros H w. exists []. split; [unfold extends; by rewrite H, app_nil_r|].
  split; [simpl; lia | constructor].
Qed.

Lemma rows_one_event {A} cur r (m : M A) :
  (forall w, exists e, trace (m w).2 = trace w ++ [e] /\ is_row_execute e = false) ->
  rows_at_most 0 cur r m.
Proof.
  intros H w. destruct (H w) as (e & He & Hrow). exists [e]. split; [exact He|].
  split.
  - rewrite filter_no_rows by (by repeat constructor). simpl. lia.
  - repeat constructor. congruence.
Qed.

(** X15: whatever the database answers, one call of [insert] executes at
    most two statements with parameters, and each of them on the original
    cursor with the row it was given: there is no retry loop, and the
    partition creation on the alternate cursor never executes a statement
    with parameters. *)
Theorem insert_executes_at_most_twice
  (self : DatabaseObject) (cur : connection) (r : row)
  (alt : list event -> result connection) (kwargs : gmap string pyval) (w : world) :
  exists seg,
    extends w
      (insert creationSqlText partitionCreationSqlTemplate insertSqlText pyformat
         dependencyOrder db self cur r alt kwargs w).2 seg
    /\ (length (filter (fun e => is_row_execute e = true) seg) <= 2)%nat
    /\ Forall (fun e => is_row_execute e = true ->
                        exists sql out, e = Db cur (Execute sql (Some r)) out) seg.
Proof.
  revert w. change (rows_at_most 2 cur r
    (insert creationSqlText partitionCreationSqlTemplate insertSqlText pyformat
       dependencyOrder db self cur r alt kwargs)).
  unfold insert.
  destruct (kwargs !! "date_processed") as [v|];
    [|by apply (rows_le 0); [apply rows_same | lia]].
  apply (rows_bind 0 2); [by apply rows_same | | lia]. intros g.
  apply (rows_bind 0 2); [by apply rows_same | | lia]. intros week.
  apply (rows_bind 0 2); [by apply rows_same | | lia]. intros params.
  destruct (params !! "partitionName") as [n|];
    [|by apply (rows_le 0); [apply rows_same | lia]].
  apply (rows_try_except 1 1); [| | lia].
  - unfold execute.
    apply (rows_bind 0 1); [by apply rows_run_db_plain | | lia]. intros _.
    apply (rows_bind 1 0); [apply rows_execute_row | | lia]. intros _.
    by apply rows_run_db_plain.
  - intros x. unfold execute, commit.
    apply (rows_bind 0 1); [by apply rows_one_event; intros w; eexists | | lia]. intros _.
    apply (rows_bind 0 1); [by apply rows_run_db_plain | | lia]. intros _.
    apply (rows_bind 0 1); [by apply rows_run_db_plain | | lia]. intros _.
    apply (rows_bind 0 1); [by apply rows_one_event; intros w; eexists | | lia].
    intros altCursor.
    apply (rows_bind 0 1); [by apply rows_same | | lia]. intros dateIterator.
    apply (rows_bind 0 1); [| | lia].
    + apply (rows_try_except 0 0); [| | lia].
      * eapply rows_of_emits; [apply on_cursor_no_row | apply on_cursor_createPartitions].
      * intros e. by apply rows_one_event; intros w0; eexists.
    + intros _.
      apply (rows_bind 0 1); [by apply rows_one_event; intros w0; eexists | | lia].
      intros _. apply rows_execute_row.
Qed.

End MoreOnInsert.

Lemma createOwnPartition_pass_ends_committed_witness :
  let monday := date_of 2024 6 3 in
  let pass := _createOwnPartition_one Example.partitionCreationSqlTemplate Example.pyformat
                (Example.db_raising Example.is_create Example.duplicate_table)
                (Example.new ReportsTable) 0%nat (monday, shift_days monday 7) in
  (pass Example.w0).1 = Ok tt
  /\ exists before closing,
       extends Example.w0 (pass Example.w0).2
         (before ++ [Db 0%nat (Execute closing None) None; Db 0%nat Commit None])
       /\ (closing = "release savepoint createPartitions_" +:+ "reports_20240603"
           \/ closing = "rollback to createPartitions_" +:+ "reports_20240603"
                        +:+ "; release savepoint createPartitions_"
                        +:+ "reports_20240603" +:+ ";").
Proof.
  cbv zeta. split; [vm_compute; reflexivity|].
  eapply (createOwnPartition_pass_ends_committed Example.partitionCreationSqlTemplate
            Example.pyformat
            (Example.db_raising Example.is_create Example.duplicate_table)
            (Example.new ReportsTable) 0%nat
            (date_of 2024 6 3, shift_days (date_of 2024 6 3) 7) Example.w0
            _ "reports_20240603");
    [reflexivity | vm_compute; reflexivity | set_solver | reflexivity
    | vm_compute; reflexivity].
Defined.

Lemma insert_first_attempt_decides_witness :
  Example.kwargs !! "date_processed" = Some (PyDate Example.wednesday)
  /\ Example.insert Example.db_ok (Example.new FramesTable) 0%nat ["row"]
       Example.alternateCursorFunction Example.kwargs Example.w0
     = (Ok tt,
        add_events Example.w0
          [ Db 0%nat (Execute ("savepoint " +:+ "frames_20240603") None) None;
            Db 0%nat
               (Execute (replace "TABLENAME" "frames_20240603"
                           (Example.insertSqlText FramesTable)) (Some ["row"])) None;
            Db 0%nat (Execute ("release savepoint " +:+ "frames_20240603") None) None ]).
Proof.
  split; [reflexivity|].
  eapply (insert_first_attempt_decides Example.creationSqlText
            Example.partitionCreationSqlTemplate Example.insertSqlText Example.pyformat
            Example.dependencyOrder Example.db_ok
            (Example.new FramesTable) 0%nat ["row"] Example.alternateCursorFunction
            Example.kwargs Example.w0 Example.wednesday _ "frames_20240603");
    [ reflexivity
    | repeat split; vm_compute; try reflexivity; discriminate
    | vm_compute; reflexivity
    | reflexivity
    | vm_compute; reflexivity
    | reflexivity
    | reflexivity
    | reflexivity ].
Defined.


(** ** More on [teardownDatabase] *)

Section MoreOnTeardown.

Context (creationSqlText : pyclass -> string)
        (dependencyOrder :
           list (pyclass * list pyclass) -> option (list pyclass) -> result (list pyclass))
        (db : list event -> connection -> db_op -> option exn)
        (pg_connect : list event -> result connection).


End MoreOnTeardown.


(** ** [setupDatabase], [updateDatabase] and the module's [createPartitions] *)

Lemma for_each_ext {A} (f g : A -> M unit) (xs : list A) :
  (forall x w, x ∈ xs -> f x w = g x w) ->
  forall w, for_each xs f w = for_each xs g w.
Proof.
  induction xs as [|x xs IH]; intros Hfg w; [reflexivity|].
  simpl. unfold mbind, M_bind, bind. rewrite (Hfg x w) by (apply elem_of_cons; by left).
  destruct (g x w) as [[[]|e] w1]; [|reflexivity].
  apply IH. intros y w' Hy. apply Hfg. apply elem_of_cons. by right.
Qed.

Section Commands.

Context (creationSqlText partitionCreationSqlTemplate : pyclass -> string)
        (pyformat : string -> gmap string string -> result string)
        (dependencyOrder :
           list (pyclass * list pyclass) -> option (list pyclass) -> result (list pyclass))
        (db : list event -> connection -> db_op -> option exn)
        (pg_connect : list event -> result connection)
        (reportExceptionAndAbort : exn -> M unit)
        (childTablesForTable : option string -> connection -> M (list string))
        (columnNameTypeDictionaryForTable :
           option string -> connection -> M (gmap string string))
        (indexesForTable : option string -> connection -> M (list string))
        (tablesMatchingPattern : option string -> M (list string)).

(** A loop of statements stops at the first one that raises. *)
Lemma for_each_execute {A} (stmt : A -> string) conn (L : list A) : forall w,
  let ok := fun a => Db conn (Execute (stmt a) None) None in
  for_each L (fun a => execute db conn (stmt a)) w = (Ok tt, add_events w (ok <$> L))
  \/ exists (k : nat) a x,
       L !! k = Some a
       /\ for_each L (fun a => execute db conn (stmt a)) w
          = (Raise x,
             add_events w ((ok <$> take k L) ++ [Db conn (Execute (stmt a) None) (Some x)])).
Proof.
  cbv zeta. induction L as [|a L IH]; intros w.
  - left. unfold add_events. simpl. by rewrite app_nil_r; destruct w.
  - cbn [for_each]. unfold execute. rewrite run_db_step.
    destruct (db (trace w) conn (Execute (stmt a) None)) as [x|] eqn:Hx.
    + right. by exists O, a, x.
    + destruct (IH (add_events w [Db conn (Execute (stmt a) None) None]))
        as [Hok | (k & a' & x & Hk & Hfail)].
      * left. unfold execute in Hok. rewrite Hok, add_events_app. reflexivity.
      * right. exists (S k), a', x. split; [exact Hk|].
        unfold execute in Hfail. rewrite Hfail, add_events_app. reflexivity.
Qed.

Lemma createSelf_new c conn w :
  c <> Table ->
  _createSelf db (new creationSqlText c) conn w = execute db conn (creationSqlText c) w.
Proof.
  intros Hc. unfold _createSelf, additionalCreationProcedures, new. simpl.
  destruct c; try congruence;
    unfold execute, run_db, mbind, M_bind, bind, ret;
    by destruct (db (trace w) conn _).
Qed.

(** X17: [setupDatabase] is all or nothing.  Once connected, it executes
    the creation statement of each class in setup order, without
    checkpoints, and commits once at the end.  The first statement that
    raises, or the commit if it raises, ends the work: no further object is
    created, the transaction is rolled back and the exception is handed to
    [reportExceptionAndAbort]; if the rollback raises too, its exception is
    raised instead and nothing is reported. *)
Theorem setup_is_all_or_nothing (w : world) (conn : connection) (L : list pyclass) :
  pg_connect (trace w) = Ok conn ->
  getOrderedSetupList dependencyOrder None = Ok L ->
  Table ∉ L ->
  let run := setupDatabase creationSqlText dependencyOrder db pg_connect
               reportExceptionAndAbort w in
  let w1 := add_events w [Connect (Ok conn)] in
  run = (Ok tt, add_events w1 (creates_ok creationSqlText conn L ++ [Db conn Commit None]))
  \/ exists done x,
       ((exists (k : nat) c,
           L !! k = Some c
           /\ done = creates_ok creationSqlText conn (take k L)
                     ++ [Db conn (Execute (creationSqlText c) None) (Some x)])
        \/ done = creates_ok creationSqlText conn L ++ [Db conn Commit (Some x)])
       /\ run = match db (trace w1 ++ done) conn Rollback with
                | None =>
                    reportExceptionAndAbort x
                      (add_events w1 (done ++ [Db conn Rollback None]))
                | Some e =>
                    (Raise e, add_events w1 (done ++ [Db conn Rollback (Some e)]))
                end.
Proof.
  intros Hconn HL HT run w1. subst run.
  assert (forall x w2,
            (rollback db conn ≫= fun _ => reportExceptionAndAbort x) w2
            = match db (trace w2) conn Rollback with
              | None => reportExceptionAndAbort x (add_events w2 [Db conn Rollback None])
              | Some e => (Raise e, add_events w2 [Db conn Rollback (Some e)])
              end) as Hhandler.
  { intros x w2. unfold rollback. apply run_db_step. }
  assert (setupDatabase creationSqlText dependencyOrder db pg_connect
            reportExceptionAndAbort w
          = match for_each L (fun c => execute db conn (creationSqlText c)) w1 with
            | (Ok _, w2) =>
                match db (trace w2) conn Commit with
                | None => (Ok tt, add_events w2 [Db conn Commit None])
                | Some x =>
                    (rollback db conn ≫= fun _ => reportExceptionAndAbort x)
                      (add_events w2 [Db conn Commit (Some x)])
                end
            | (Raise x, w2) =>
                (rollback db conn ≫= fun _ => reportExceptionAndAbort x) w2
            end) as Hrun.
  { unfold setupDatabase.
    unfold mbind at 1, M_bind at 1, bind at 1, connectToDatabase. rewrite Hconn.
    fold (add_events w [Connect (Ok conn)]). fold w1.
    unfold try_except. rewrite HL, lift_step.
    unfold mbind at 1, M_bind at 1, bind at 1.
    rewrite (for_each_ext _ (fun c => execute db conn (creationSqlText c)) L).
    2:{ intros c w' Hc. apply createSelf_new. by intros ->. }
    destruct (for_each L _ w1) as [[[]|x] w2]; [|reflexivity].
    unfold commit. rewrite run_db_last.
    by destruct (db (trace w2) conn Commit). }
  rewrite Hrun.
  destruct (for_each_execute creationSqlText conn L w1) as [Hok | (k & c & x & Hk & Hfail)];
    cbv zeta in *.
  - rewrite Hok. fold (creates_ok creationSqlText conn L).
    rewrite trace_add_events.
    destruct (db (trace w1 ++ creates_ok creationSqlText conn L) conn Commit)
      as [x|] eqn:Hc.
    + right. exists (creates_ok creationSqlText conn L ++ [Db conn Commit (Some x)]), x.
      split; [by right|].
      rewrite Hhandler, !add_events_app, trace_add_events.
      destruct (db _ conn Rollback); by rewrite ?add_events_app.
    + left. by rewrite add_events_app.
  - right.
    exists (creates_ok creationSqlText conn (take k L)
            ++ [Db conn (Execute (creationSqlText c) None) (Some x)]), x.
    split; [left; by exists k, c|].
    rewrite Hfail, Hhandler, !add_events_app, trace_add_events.
    destruct (db _ conn Rollback); by rewrite ?add_events_app.
Qed.

Lemma updateColumnDefinitions_run (self : DatabaseObject) (cur : connection)
  (w w2 : world) (children : list string) :
  childTablesForTable (name self) cur w = (Ok children, w2) ->
  updateColumnDefinitions childTablesForTable columnNameTypeDictionaryForTable self cur w
  = match children with
    | [] => alterColumnDefinitions columnNameTypeDictionaryForTable self cur (name self) w2
    | _ :: _ => (Raise NameError, w2)
    end.
Proof.
  intros Hchildren. unfold updateColumnDefinitions.
  unfold mbind at 1, M_bind at 1, bind at 1. rewrite Hchildren.
  destruct children as [|child children]; [|reflexivity].
  simpl. unfold mbind, M_bind, bind, ret.
  by destruct (alterColumnDefinitions _ self cur (name self) w2) as [[[]|e] w3].
Qed.

(** X18: [updateColumnDefinitions] works only on a table without
    partitions.  When the catalogue lists no child table, the method comes
    down to [alterColumnDefinitions] on the table itself.  When it lists one
    or more, the method raises [NameError] right after the catalogue query:
    no [alter table] statement is executed and no column definition is
    looked at, neither of the table nor of a child. *)
Theorem updateColumnDefinitions_fails_on_children (self : DatabaseObject)
  (cur : connection) (w w2 : world) (children : list string) :
  childTablesForTable (name self) cur w = (Ok children, w2) ->
  let run := updateColumnDefinitions childTablesForTable
               columnNameTypeDictionaryForTable self cur w in
  (children = [] ->
   run = alterColumnDefinitions columnNameTypeDictionaryForTable self cur (name self) w2)
  /\ (children <> [] -> run = (Raise NameError, w2)).
Proof.
  intros Hchildren run. subst run.
  rewrite (updateColumnDefinitions_run self cur w w2 children Hchildren).
  split; [by intros -> | by destruct children].
Qed.

(** X19: [updateDatabase] cannot update a database in which [extensions]
    has a partition.  [ExtensionsTable] is the first class of the update
    list; as soon as the catalogue lists a child table for it, the update
    stops with [NameError]: the transaction is rolled back and the exception
    is handed to [reportExceptionAndAbort], and neither [frames],
    [processors] nor the indexes of [jobs] are looked at. *)
Theorem updateDatabase_stops_at_partitioned_extensions (w w2 : world) (conn : connection)
  (child : string) (children : list string) :
  pg_connect (trace w) = Ok conn ->
  childTablesForTable (Some "extensions") conn (add_events w [Connect (Ok conn)])
  = (Ok (child :: children), w2) ->
  updateDatabase creationSqlText dependencyOrder db pg_connect reportExceptionAndAbort
    childTablesForTable columnNameTypeDictionaryForTable indexesForTable
    tablesMatchingPattern w
  = match db (trace w2) conn Rollback with
    | None => reportExceptionAndAbort NameError (add_events w2 [Db conn Rollback None])
    | Some e => (Raise e, add_events w2 [Db conn Rollback (Some e)])
    end.
Proof.
  intros Hconn Hchildren. unfold updateDatabase.
  unfold mbind at 1, M_bind at 1, bind at 1, connectToDatabase. rewrite Hconn.
  fold (add_events w [Connect (Ok conn)]).
  unfold try_except, databaseObjectClassListForUpdate.
  unfold mbind at 1, M_bind at 1, bind at 1. cbn [for_each].
  unfold mbind at 1, M_bind at 1, bind at 1.
  unfold updateDefinition at 1. cbn [class_of new].
  unfold mbind at 1, M_bind at 1, bind at 1.
  rewrite (updateColumnDefinitions_run (new creationSqlText ExtensionsTable) conn _ w2
             (child :: children) Hchildren).
  unfold rollback. apply run_db_step.
Qed.

End Commands.

Lemma setup_is_all_or_nothing_witness :
  exists L,
    Example.pg_connect (trace Example.w0) = Ok 0%nat
    /\ getOrderedSetupList Example.dependencyOrder None = Ok L
    /\ (Table ∉ L)
    /\ Example.setupDatabase Example.db_ok Example.w0
       = (Ok tt,
          add_events (add_events Example.w0 [Connect (Ok 0%nat)])
            (creates_ok Example.creationSqlText 0%nat L ++ [Db 0%nat Commit None])).
Proof.
  assert (forall L, getOrderedSetupList Example.dependencyOrder None = Ok L -> Table ∉ L)
    as HT.
  { intros L HL H. vm_compute in HL. injection HL as <-.
    by repeat (apply elem_of_cons in H as [H|H]; [discriminate|]); apply elem_of_nil in H. }
  eexists. split; [reflexivity|]. split; [vm_compute; reflexivity|].
  split; [by apply HT|].
  destruct (setup_is_all_or_nothing Example.creationSqlText Example.dependencyOrder
              Example.db_ok Example.pg_connect Example.reportExceptionAndAbort
              Example.w0 0%nat _ eq_refl eq_refl (HT _ eq_refl))
    as [Hok | (done & x & Hdone & Hrun)].
  - exact Hok.
  - exfalso. vm_compute in Hrun. discriminate.
Defined.

Lemma updateColumnDefinitions_fails_on_children_witness :
  updateColumnDefinitions (Example.childTablesForTable ["extensions_20240603"])
    Example.columnNameTypeDictionaryForTable (Example.new ExtensionsTable) 0%nat Example.w0
  = (Raise NameError, Example.w0).
Proof.
  apply (updateColumnDefinitions_fails_on_children
           (Example.childTablesForTable ["extensions_20240603"])
           Example.columnNameTypeDictionaryForTable (Example.new ExtensionsTable) 0%nat
           Example.w0 Example.w0 ["extensions_20240603"] eq_refl).
  discriminate.
Defined.

Lemma updateDatabase_stops_at_partitioned_extensions_witness :
  Example.updateDatabase Example.db_ok ["extensions_20240603"] [] Example.w0
  = (Raise (OtherException "SystemExit"),
     add_events Example.w0
       [Connect (Ok 0%nat); Db 0%nat Rollback None; ReportException NameError]).
Proof.
  unfold Example.updateDatabase.
  rewrite (updateDatabase_stops_at_partitioned_extensions Example.creationSqlText
             Example.dependencyOrder Example.db_ok Example.pg_connect
             Example.reportExceptionAndAbort
             (Example.childTablesForTable ["extensions_20240603"])
             Example.columnNameTypeDictionaryForTable (Example.indexesForTable [])
             Example.tablesMatchingPattern Example.w0
             (add_events Example.w0 [Connect (Ok 0%nat)]) 0%nat
             "extensions_20240603" [] eq_refl eq_refl).
  reflexivity.
Defined.

Lemma emits_longer {A} Q (m : M A) w :
  emits Q m -> (length (trace w) <= length (trace (m w).2))%nat.
Proof.
  intros Hm. destruct (Hm w) as (seg & Hext & _). rewrite Hext, length_app. lia.
Qed.

Section MoreCommands.

Context (creationSqlText partitionCreationSqlTemplate : pyclass -> string)
        (pyformat : string -> gmap string string -> result string)
        (dependencyOrder :
           list (pyclass * list pyclass) -> option (list pyclass) -> result (list pyclass))
        (db : list event -> connection -> db_op -> option exn)
        (pg_connect : list event -> result connection)
        (reportExceptionAndAbort : exn -> M unit)
        (childTablesForTable : option string -> connection -> M (list string))
        (columnNameTypeDictionaryForTable :
           option string -> connection -> M (gmap string string))
        (indexesForTable : option string -> connection -> M (list string))
        (tablesMatchingPattern : option string -> M (list string)).

(** A pass for one class of the list of the module's [createPartitions]
    works on the cursor only, and when it ends normally its last action is a
    successful commit. *)
Lemma prepartitioning_pass conn (startDate endDate : pyval) (c : pyclass) :
  let pass :=
    weekIterator ← lift (mondayPairsIteratorFactory startDate endDate) ;
    createPartitions creationSqlText partitionCreationSqlTemplate pyformat
      dependencyOrder db (new creationSqlText c) conn weekIterator ;;
    commit db conn in
  emits (on_cursor conn) pass
  /\ cache_moves (⊆) pass
  /\ forall w, exists seg,
       extends w (pass w).2 seg /\ ((pass w).1 = Ok tt -> ends_committed conn seg).
Proof.
  cbv zeta. split; [|split].
  - apply emits_bind; [apply emits_lift|]. intros it.
    apply emits_bind; [apply on_cursor_createPartitions|]. intros _.
    apply on_cursor_commit.
  - apply cache_moves_bind; try apply _.
    { apply cache_moves_same; try apply _. reflexivity. }
    intros it. apply cache_moves_bind; try apply _; [apply cache_createPartitions|].
    intros _. apply cache_moves_same; try apply _. intros w.
    unfold commit. rewrite run_db_last. by destruct (db (trace w) conn Commit).
  - intros w. destruct (mondayPairsIteratorFactory startDate endDate) as [it|e].
    2:{ exists []. split; [symmetry; apply app_nil_r | discriminate]. }
    rewrite lift_step. unfold mbind, M_bind, bind.
    destruct (on_cursor_createPartitions creationSqlText partitionCreationSqlTemplate
                pyformat dependencyOrder db (new creationSqlText c) conn it w)
      as (work & Hwork & _).
    destruct (createPartitions _ _ _ _ _ _ _ _ w) as [[[]|e] w1]; simpl in Hwork.
    2:{ exists work. split; [exact Hwork | discriminate]. }
    unfold commit. rewrite run_db_last.
    destruct (db (trace w1) conn Commit) as [e|]; simpl.
    + exists (work ++ [Db conn Commit (Some e)]). split; [|discriminate].
      unfold extends. simpl. rewrite Hwork. symmetry. apply app_assoc.
    + exists (work ++ [Db conn Commit None]). split; [|intros _; by exists work].
      unfold extends. simpl. rewrite Hwork. symmetry. apply app_assoc.
Qed.

(** X20: the module's [createPartitions] commits class by class.  Once
    connected, it makes one pass per class of its list, and every pass that
    ends normally ends with a successful commit, so that the partitions of
    the classes done stay in the database when a later class fails.  Up to
    the failure it works on the cursor of its own connection only
    (statements without parameters and commits, log lines, the partition
    cache) and never removes a name from the cache.  A failure ends the
    loop: what is not committed is rolled back and the exception is handed
    to [reportExceptionAndAbort]. *)
Theorem prepartitioning_commits_class_by_class (startDate endDate : pyval)
  (w : world) (conn : connection) :
  pg_connect (trace w) = Ok conn ->
  let run := createPartitions_of_module creationSqlText partitionCreationSqlTemplate
               pyformat dependencyOrder db pg_connect reportExceptionAndAbort
               startDate endDate w in
  exists (segs : list (list event)) (rest : list event) (w2 : world),
    trace w2 = trace w ++ [Connect (Ok conn)] ++ concat segs ++ rest
    /\ Forall (ends_committed conn) segs
    /\ Forall (on_cursor conn) (concat segs ++ rest)
    /\ partitionCreationHistory w ⊆ partitionCreationHistory w2
    /\ ((run = (Ok tt, w2) /\ rest = []
         /\ length segs = length databaseObjectClassListForWeeklyPartitions)
        \/ exists x,
             (length segs < length databaseObjectClassListForWeeklyPartitions)%nat
             /\ run = match db (trace w2) conn Rollback with
                      | None =>
                          reportExceptionAndAbort x
                            (add_events w2 [Db conn Rollback None])
                      | Some e => (Raise e, add_events w2 [Db conn Rollback (Some e)])
                      end).
Proof.
  intros Hconn run.
  set (w1 := add_events w [Connect (Ok conn)]).
  set (classes := databaseObjectClassListForWeeklyPartitions).
  set (body := fun aDatabaseObjectClass : pyclass =>
         weekIterator ← lift (mondayPairsIteratorFactory startDate endDate) ;
         createPartitions creationSqlText partitionCreationSqlTemplate pyformat
           dependencyOrder db (new creationSqlText aDatabaseObjectClass) conn
           weekIterator ;;
         commit db conn).
  assert (run = match for_each classes body w1 with
                | (Ok a, w2) => (Ok a, w2)
                | (Raise x, w2) =>
                    (rollback db conn ≫= fun _ => reportExceptionAndAbort x) w2
                end) as Hrun.
  { subst run. unfold createPartitions_of_module.
    unfold mbind at 1, M_bind at 1, bind at 1, connectToDatabase. by rewrite Hconn. }
  clearbody run. subst run.
  assert (forall c, emits (on_cursor conn) (body c)) as Hemits
    by (intros c; apply (prepartitioning_pass conn startDate endDate c)).
  assert (forall c, cache_moves (⊆) (body c)) as Hcache
    by (intros c; apply (prepartitioning_pass conn startDate endDate c)).
  assert (forall c w, exists seg,
            extends w (body c w).2 seg
            /\ ((body c w).1 = Ok tt -> ends_committed conn seg)) as Hpass
    by (intros c; apply (prepartitioning_pass conn startDate endDate c)).
  destruct (for_each_segments (fun _ seg => ends_committed conn seg) body Hpass classes w1)
    as (segs & rest & Hext & Hres).
  destruct (emits_for_each (on_cursor conn) classes body Hemits w1) as (seg & Hseg & HQ).
  assert (seg = concat segs ++ rest) as ->.
  { unfold extends in *. rewrite Hext in Hseg. by apply app_inv_head in Hseg. }
  assert (partitionCreationHistory w ⊆ partitionCreationHistory (for_each classes body w1).2)
    as Hsub.
  { apply (cache_moves_for_each (⊆) classes body (fun c _ => Hcache c) w1). }
  destruct (for_each classes body w1) as [[[]|x] w2]; simpl in Hext, Hseg, Hsub, Hres.
  - exists segs, rest, w2. destruct Hres as [-> Hsegs].
    split; [unfold extends in Hext; rewrite Hext; unfold w1;
            by rewrite trace_add_events, <- app_assoc|].
    split; [|split; [exact HQ|split; [exact Hsub|]]].
    + clear -Hsegs. induction Hsegs; constructor; auto.
    + left. split; [reflexivity|]. split; [reflexivity|].
      symmetry. by apply Forall2_length in Hsegs.
  - exists segs, rest, w2. destruct Hres as (n & Hn & Hsegs).
    split; [unfold extends in Hext; rewrite Hext; unfold w1;
            by rewrite trace_add_events, <- app_assoc|].
    split; [|split; [exact HQ|split; [exact Hsub|]]].
    + clear -Hsegs. induction Hsegs; constructor; auto.
    + right. exists x. split.
      * apply Forall2_length in Hsegs. rewrite <- Hsegs, length_take.
        unfold classes in *. simpl in *. lia.
      * unfold rollback. apply run_db_step.
Qed.

Lemma idle_when (b : bool) cur s (k : M unit) w :
  emits (on_cursor cur) k ->
  ((if b then execute db cur s else ret tt) ≫= fun _ => k) w = (Ok tt, w)
  <-> b = false /\ k w = (Ok tt, w).
Proof.
  intros Hk. destruct b.
  - split; [|by intros [? _]]. intros H. exfalso.
    unfold execute in H. rewrite run_db_step in H.
    destruct (db (trace w) cur (Execute s None)); [discriminate|].
    pose proof (emits_longer _ k (add_events w [Db cur (Execute s None) None]) Hk) as Hlen.
    rewrite H in Hlen. simpl in Hlen. rewrite length_app in Hlen. simpl in Hlen. lia.
  - change ((ret tt ≫= fun _ => k) w) with (k w). by split; [|intros [_ ?]].
Qed.

Lemma idle_unless (b : bool) cur s (k : M unit) w :
  emits (on_cursor cur) k ->
  ((if b then ret tt else execute db cur s) ≫= fun _ => k) w = (Ok tt, w)
  <-> b = true /\ k w = (Ok tt, w).
Proof.
  intros Hk. destruct b.
  - change ((ret tt ≫= fun _ => k) w) with (k w). by split; [|intros [_ ?]].
  - split; [|by intros [? _]]. intros H. exfalso.
    unfold execute in H. rewrite run_db_step in H.
    destruct (db (trace w) cur (Execute s None)); [discriminate|].
    pose proof (emits_longer _ k (add_events w [Db cur (Execute s None) None]) Hk) as Hlen.
    rewrite H in Hlen. simpl in Hlen. rewrite length_app in Hlen. simpl in Hlen. lia.
Qed.

(** X21: [JobsTable.updateDefinition] leaves a current table alone.  After
    the catalogue has listed the indexes of [jobs], the method returns
    without a single statement exactly when the list holds none of the five
    indexes it drops or replaces and all of the three it requires; in every
    other case it executes a statement, or raises. *)
Theorem jobs_update_idle_iff_current (self : DatabaseObject) (cur : connection)
  (w w2 : world) (indexesList : list string) :
  class_of self = JobsTable ->
  indexesForTable (name self) cur w = (Ok indexesList, w2) ->
  updateDefinition creationSqlText dependencyOrder db childTablesForTable
    columnNameTypeDictionaryForTable indexesForTable tablesMatchingPattern self cur w
  = (Ok tt, w2)
  <-> Forall (fun i => i ∉ indexesList) jobs_obsolete_indexes
      /\ Forall (fun i => i ∈ indexesList) jobs_expected_indexes.
Proof.
  intros Hclass Hindexes. unfold updateDefinition. rewrite Hclass.
  unfold mbind at 1, M_bind at 1, bind at 1. rewrite Hindexes.
  unfold jobs_obsolete_indexes, jobs_expected_indexes.
  rewrite !Forall_cons, !Forall_nil.
  repeat (rewrite idle_when
            by (repeat first [ apply emits_bind; [|intros _]
                             | apply emits_if
                             | apply emits_ret
                             | apply on_cursor_execute ])).
  repeat (rewrite idle_unless
            by (repeat first [ apply emits_bind; [|intros _]
                             | apply emits_if
                             | apply emits_ret
                             | apply on_cursor_execute ])).
  rewrite !bool_decide_eq_false, !bool_decide_eq_true.
  assert ((if bool_decide ("jobs_success_key" ∈ indexesList)
           then ret tt
           else execute db cur "CREATE INDEX jobs_success_key ON jobs (success);") w2
          = (Ok tt, w2)
          <-> "jobs_success_key" ∈ indexesList) as ->.
  { case_bool_decide as Hin; [by split|]. split; [|done]. intros H. exfalso.
    unfold execute in H. rewrite run_db_last in H.
    destruct (db (trace w2) cur _); [discriminate|].
    injection H as H. apply (f_equal trace) in H. simpl in H.
    apply (f_equal length) in H. rewrite length_app in H. simpl in H. lia. }
  tauto.
Qed.

End MoreCommands.

Lemma prepartitioning_commits_class_by_class_witness :
  let run := Example.createPartitions_of_module Example.db_ok
               (PyDate (date_of 2024 6 3)) (PyDate (date_of 2024 6 10)) Example.w0 in
  Example.pg_connect (trace Example.w0) = Ok 0%nat
  /\ exists (segs : list (list event)) (rest : list event) (w2 : world),
       trace w2 = trace Example.w0 ++ [Connect (Ok 0%nat)] ++ concat segs ++ rest
       /\ Forall (ends_committed 0%nat) segs
       /\ Forall (on_cursor 0%nat) (concat segs ++ rest)
       /\ partitionCreationHistory Example.w0 ⊆ partitionCreationHistory w2
       /\ ((run = (Ok tt, w2) /\ rest = []
            /\ length segs = length databaseObjectClassListForWeeklyPartitions)
           \/ exists x,
                (length segs < length databaseObjectClassListForWeeklyPartitions)%nat
                /\ run = match Example.db_ok (trace w2) 0%nat Rollback with
                         | None =>
                             Example.reportExceptionAndAbort x
                               (add_events w2 [Db 0%nat Rollback None])
                         | Some e =>
                             (Raise e, add_events w2 [Db 0%nat Rollback (Some e)])
                         end).
Proof.
  cbv zeta. split; [reflexivity|].
  apply (prepartitioning_commits_class_by_class Example.creationSqlText
           Example.partitionCreationSqlTemplate Example.pyformat Example.dependencyOrder
           Example.db_ok Example.pg_connect Example.reportExceptionAndAbort
           (PyDate (date_of 2024 6 3)) (PyDate (date_of 2024 6 10)) Example.w0 0%nat).
  reflexivity.
Defined.

Lemma jobs_update_idle_iff_current_witness :
  Example.updateDefinition Example.db_ok jobs_expected_indexes
    (Example.new JobsTable) 0%nat Example.w0
  = (Ok tt, Example.w0).
Proof.
  apply (jobs_update_idle_iff_current Example.creationSqlText Example.dependencyOrder
           Example.db_ok (Example.childTablesForTable [])
           Example.columnNameTypeDictionaryForTable
           (Example.indexesForTable jobs_expected_indexes)
           Example.tablesMatchingPattern (Example.new JobsTable) 0%nat
           Example.w0 Example.w0 jobs_expected_indexes eq_refl eq_refl).
  split; apply (bool_decide_unpack _); vm_compute; exact I.
Defined.

(** ** The partition cache *)

(** X22: marking and looking up agree.  After [markPartitionCreated] for a
    name, [partitionWasCreated] answers true for that name and answers for
    every other name what it answered before; a mark is never lost by
    another mark; and a lookup leaves the cache as it is. *)
Theorem mark_then_lookup (n m : string) (w : world) :
  let marked := (markPartitionCreated n w).2 in
  (partitionWasCreated n marked).1 = Ok true
  /\ (m <> n -> (partitionWasCreated m marked).1 = (partitionWasCreated m w).1)
  /\ ((partitionWasCreated m w).1 = Ok true -> (partitionWasCreated m marked).1 = Ok true)
  /\ partitionCreationHistory (partitionWasCreated m w).2 = partitionCreationHistory w.
Proof.
  cbv zeta. unfold partitionWasCreated, markPartitionCreated. simpl.
  split; [|split; [|split]].
  - f_equal. apply bool_decide_eq_true, elem_of_union. left. by apply elem_of_singleton.
  - intros Hm. f_equal. apply bool_decide_ext. rewrite elem_of_union, elem_of_singleton.
    tauto.
  - intros H. injection H as H. apply bool_decide_eq_true in H.
    f_equal. apply bool_decide_eq_true. apply elem_of_union. by right.
  - reflexivity.
Qed.

Lemma mark_then_lookup_witness :
  "frames_20240603" <> "reports_20240610"
  /\ (partitionWasCreated "frames_20240603"
        (markPartitionCreated "reports_20240610" Example.w_marked).2).1
     = (partitionWasCreated "frames_20240603" Example.w_marked).1.
Proof.
  split; [discriminate|].
  apply (proj1 (proj2 (mark_then_lookup "reports_20240610" "frames_20240603"
                         Example.w_marked))).
  discriminate.
Defined.
